(** * MS365 Calendar: coordinator and entity post-processing

    A shallow embedding of
      - [integration/coordinator_integration.py]
        (class [MS365CalendarSyncCoordinator]) and
      - [integration/calendar_integration.py]
        (class [MS365CalendarEntity], the event pipeline and the
        current-event publication),
    together with the properties of the design document that concern
    them.

    Conventions of the embedding.
      - An aware Python [datetime] is its absolute instant, in
        microseconds since the epoch, paired with the UTC offset of its
        [tzinfo]; its wall-clock reading is the sum of the two.
        Comparisons look at the instant, as Python does for operands
        with different [tzinfo] objects; for operands that share one
        [tzinfo] object Python compares the wall-clock readings, which
        gives the same answer except at readings that the clocks skip
        or repeat. Adding a [timedelta] moves the
        wall-clock reading, as Python does: the instant moves by the
        same amount only if the offset of the [tzinfo] is the same at
        both readings.
      - A call observes one instant: every clock read made while a method
        runs ([dt_util.now()], [dt_util.utcnow()],
        [datetime.now(timezone.utc)]) returns the [wall_clock] of the
        world the method runs in.
      - Methods are computations in a state-and-exception monad over a
        [World] that holds the coordinator object, the entity object, the
        sync manager's store, the log and the trace of remote fetches.
        A raised exception keeps the mutations made before it.
      - Code of the repository that is not part of the two files
        ([utils_integration], [sync.sync], [sync.timeline],
        [helpers.utils]) and library code (Home Assistant's [dt_util] and
        [CalendarEvent], Python's [re]) enter as the fields of the class
        [Collaborators]. *)

From Stdlib Require Import ZArith List Bool Ascii String Lia Permutation Sorted.
From stdpp Require Import gmap strings.
Import ListNotations.

Local Open Scope string_scope.
Local Open Scope list_scope.
Local Open Scope Z_scope.

(** ** Time *)

Record datetime := mk_datetime { instant : Z; utcoffset : Z }.

(** [datetime.date] values are day ordinals. *)
Inductive date_or_datetime :=
| Datetime (d : datetime)
| Date (ordinal : Z).

Definition microseconds_per_day : Z := 86400000000.

(** [timedelta(days=d)], [timedelta(seconds=s)] *)
Definition timedelta_days (d : Z) : Z := d * microseconds_per_day.

(** [d + td] on an aware [d]. Python adds the timedelta to the
    wall-clock reading of [d] and attaches the tzinfo of [d] to the sum,
    with [fold = 0]; [offset_at] is [utcoffset] of that tzinfo at a
    wall-clock reading. *)
Definition dt_add_wall (offset_at : Z -> Z) (d : datetime) (td : Z) : datetime :=
  let wall := instant d + utcoffset d + td in
  {| instant := wall - offset_at wall; utcoffset := offset_at wall |}.

(** [d + td] on a [d] whose tzinfo has one offset at every reading, as
    [timezone.utc] has: the instant moves with the wall-clock reading. *)
Definition dt_add (d : datetime) (td : Z) : datetime :=
  {| instant := instant d + td; utcoffset := utcoffset d |}.

Definition dt_lt (a b : datetime) : bool := instant a <? instant b.
Definition dt_gt (a b : datetime) : bool := instant b <? instant a.
Definition dt_ge (a b : datetime) : bool := instant b <=? instant a.

(** [dt_util.as_utc] *)
Definition as_utc (d : datetime) : datetime :=
  {| instant := instant d; utcoffset := 0 |}.

(** ** Exceptions and results *)

(** The subclasses of [Exception] that occur. [UpdateFailed] derives from
    [HomeAssistantError] and carries its [__cause__]. *)
Inductive PyExc :=
| HomeAssistantError (msg : string)
| UpdateFailed (msg : string) (cause : PyExc)
| KeyError (key : string)
| AttributeError (name : string)
| UnboundLocalError (name : string)
| OtherError (cls msg : string).

Definition isinstance_HomeAssistantError (e : PyExc) : bool :=
  match e with
  | HomeAssistantError _ | UpdateFailed _ _ => true
  | _ => false
  end.

(** [str(err)] *)
Definition str_exc (e : PyExc) : string :=
  match e with
  | HomeAssistantError msg | UpdateFailed msg _ | OtherError _ msg => msg
  | KeyError key => "'" +:+ key +:+ "'"
  | AttributeError name => "object has no attribute '" +:+ name +:+ "'"
  | UnboundLocalError name =>
      "cannot access local variable '" +:+ name
        +:+ "' where it is not associated with a value"
  end.

Inductive result (A : Type) :=
| Ok (a : A)
| Raise (e : PyExc).
Arguments Ok {A} a.
Arguments Raise {A} e.

(** ** The calendar data *)

(** [O365.calendar.Event], with the attribute [start_sort] that
    [_sort_events] adds. *)
Module O365.
Record Event := mkEvent {
  object_id : string;
  subject : string;
  body : string;
  location : gmap string string;
  start : datetime;
  end_ : datetime;
  is_all_day : bool;
  series_master_id : option string;
  start_sort : option datetime;
}.
End O365.
Import O365.

(** [homeassistant.components.calendar.CalendarEvent] *)
Module HA.
Record CalendarEvent := mkCalendarEvent {
  start : date_or_datetime;
  end_ : date_or_datetime;
  summary : string;
  description : string;
  location : string;
  uid : string;
  recurrence_id : option string;
}.
End HA.

Inductive Level := DEBUG | WARNING.

Inductive LogArg :=
| ArgStr (s : string)
| ArgExc (e : PyExc)
| ArgEvent (ev : Event).

Record LogRecord := mkLog {
  level : Level;
  fmt : string;
  args : list LogArg;
}.

(** An iterable handed to the pipeline: a list, falsy when empty, or an
    iterator, which is always truthy. *)
Inductive iterable (A : Type) :=
| PyList (l : list A)
| PyIter (l : list A).
Arguments PyList {A} l.
Arguments PyIter {A} l.

Definition items {A} (it : iterable A) : list A :=
  match it with PyList l | PyIter l => l end.

Definition truthy_iterable {A} (it : iterable A) : bool :=
  match it with
  | PyList [] => false
  | _ => true
  end.

(** Truthiness of [None]-or-object and of [None]-or-list. *)
Definition truthy_obj {A} (o : option A) : bool :=
  match o with Some _ => true | None => false end.

Definition truthy_list {A} (o : option (list A)) : bool :=
  match o with Some (_ :: _) => true | _ => false end.

Definition truthy_str (o : option string) : bool :=
  match o with Some (String _ _) => true | _ => false end.

(** ** Collaborators

    What the two files import and call but do not define. *)
Class Collaborators := {
  (** [sync.timeline.MS365Timeline] and its range query *)
  Timeline : Type;
  overlapping : Timeline -> datetime -> datetime -> iterable Event;
  (** [sync.sync.MS365CalendarEventSyncManager], acting on its store *)
  Store : Type;
  sync_run : Store -> result unit * Store;
  store_async_get_timeline : Store -> Timeline;
  sync_async_list_events :
    Store -> datetime -> datetime -> result (iterable Event) * Store;
  (** [utils_integration] *)
  get_start_date : Event -> date_or_datetime;
  get_end_date : Event -> date_or_datetime;
  get_hass_date : date_or_datetime -> bool -> date_or_datetime;
  (** [helpers.utils.clean_html] *)
  clean_html : string -> string;
  (** [const_integration.DEFAULT_OFFSET] *)
  DEFAULT_OFFSET : string;
  (** [homeassistant.util.dt]: the UTC offset of the default time zone at
      an instant and at a wall-clock reading (with [fold = 0]), and
      [start_of_local_day] *)
  default_utcoffset : Z -> Z;
  default_utcoffset_at_wall : Z -> Z;
  start_of_local_day : date_or_datetime -> datetime;
  (** [CalendarEvent.__post_init__]: the message of the schema violation,
      if the event has one *)
  calendar_event_invalid : HA.CalendarEvent -> option string;
  (** [homeassistant.components.calendar]: [extract_offset] and
      [is_offset_reached], the latter at a given instant *)
  extract_offset : string -> string -> string * Z;
  is_offset_reached : Z -> datetime -> Z -> bool;
  (** Python's [re]: compiled patterns and [re.search] as a truth value *)
  Pattern : Type;
  re_search : Pattern -> string -> bool;
}.

Section Objects.
Context `{Collaborators}.

(** The attributes of [MS365CalendarSyncCoordinator] that the methods
    read or write. [data] is the attribute that the base class
    [DataUpdateCoordinator] fills with what [_async_update_data]
    returned. A timeline object is truthy: the class defines neither
    [__bool__] nor [__len__]. *)
Record Coordinator := mkCoordinator {
  name : string;
  calendar_id : string;
  data : option Timeline;
  _upcoming_timeline : option Timeline;
  event : option Event;
  _sync_event_min_time : Z;
  _sync_event_max_time : Z;
}.

(** The attributes of [MS365CalendarEntity] that the methods read or
    write. [_error] starts as [None]. *)
Record Entity := mkEntity {
  _name : string;
  entity_id : string;
  exclude : option (list Pattern);
  _event : option HA.CalendarEvent;
  _offset_reached : bool;
  _error : option bool;
}.

Record World := mkWorld {
  coordinator : Coordinator;
  entity : Entity;
  store : Store;
  wall_clock : Z;
  log : list LogRecord;
  fetches : list (datetime * datetime);
}.

(** *** The monad *)

Definition M (A : Type) : Type := World -> result A * World.

Definition ret {A} (a : A) : M A := fun w => (Ok a, w).

Definition raise {A} (e : PyExc) : M A := fun w => (Raise e, w).

Definition bind {A B} (m : M A) (k : A -> M B) : M B :=
  fun w =>
    match m w with
    | (Ok a, w') => k a w'
    | (Raise e, w') => (Raise e, w')
    end.

(** [try: m  except <classes> as err: handler err]; an exception that is
    not an instance of one of the classes propagates. *)
Definition try_except {A} (m : M A) (catches : PyExc -> bool)
    (handler : PyExc -> M A) : M A :=
  fun w =>
    match m w with
    | (Ok a, w') => (Ok a, w')
    | (Raise e, w') => if catches e then handler e w' else (Raise e, w')
    end.

Definition lift {A} (r : result A) : M A := fun w => (r, w).

Definition get_coordinator : M Coordinator := fun w => (Ok (coordinator w), w).
Definition get_entity : M Entity := fun w => (Ok (entity w), w).

Definition put_coordinator (c : Coordinator) : M unit :=
  fun w => (Ok tt, mkWorld c (entity w) (store w) (wall_clock w) (log w) (fetches w)).

Definition put_entity (e : Entity) : M unit :=
  fun w => (Ok tt, mkWorld (coordinator w) e (store w) (wall_clock w) (log w) (fetches w)).

Definition put_store (s : Store) : M unit :=
  fun w => (Ok tt, mkWorld (coordinator w) (entity w) s (wall_clock w) (log w) (fetches w)).

Definition emit (l : Level) (f : string) (a : list LogArg) : M unit :=
  fun w => (Ok tt, mkWorld (coordinator w) (entity w) (store w) (wall_clock w)
                     (log w ++ [mkLog l f a]) (fetches w)).

Definition record_fetch (a b : datetime) : M unit :=
  fun w => (Ok tt, mkWorld (coordinator w) (entity w) (store w) (wall_clock w)
                     (log w) (fetches w ++ [(a, b)])).

(** [dt_util.utcnow()], [datetime.now(timezone.utc)] *)
Definition dt_util_utcnow : M datetime :=
  fun w => (Ok (mk_datetime (wall_clock w) 0), w).

(** [dt_util.now()] *)
Definition dt_util_now : M datetime :=
  fun w => (Ok (mk_datetime (wall_clock w) (default_utcoffset (wall_clock w))), w).

(** Attribute assignments *)
Definition set_event (c : Coordinator) (v : option Event) : Coordinator :=
  mkCoordinator (name c) (calendar_id c) (data c) (_upcoming_timeline c) v
    (_sync_event_min_time c) (_sync_event_max_time c).

Definition set__upcoming_timeline (c : Coordinator) (v : option Timeline)
    : Coordinator :=
  mkCoordinator (name c) (calendar_id c) (data c) v (event c)
    (_sync_event_min_time c) (_sync_event_max_time c).

Definition set__event (e : Entity) (v : option HA.CalendarEvent) : Entity :=
  mkEntity (_name e) (entity_id e) (exclude e) v (_offset_reached e) (_error e).

Definition set__offset_reached (e : Entity) (v : bool) : Entity :=
  mkEntity (_name e) (entity_id e) (exclude e) (_event e) v (_error e).

Definition set__error (e : Entity) (v : option bool) : Entity :=
  mkEntity (_name e) (entity_id e) (exclude e) (_event e) (_offset_reached e) v.
End Objects.

Declare Scope py_scope.
Delimit Scope py_scope with py.
Notation "x <- m ;; k" := (bind m (fun x => k))
  (at level 20, m at level 99, k at level 200, only parsing) : py_scope.
Notation "'call' m ;; k" := (bind m (fun _ => k))
  (at level 20, m at level 99, k at level 200, only parsing) : py_scope.

Local Open Scope py_scope.

(** ** [coordinator_integration.py] *)
Module MS365CalendarSyncCoordinator.
Section Methods.
Context `{Collaborators}.

(** [to_datetime] (static). A [date] is combined with [time.min] and
    moved to the start of its local day. *)
Definition to_datetime (obj : date_or_datetime) : datetime :=
  let date_obj :=
    match obj with
    | Date _ => start_of_local_day obj
    | Datetime d => d
    end in
  as_utc date_obj.

(** [is_started] (static) *)
Definition is_started (vevent : Event) : M bool :=
  t <- dt_util_utcnow ;;
  ret (dt_ge t (to_datetime (get_start_date vevent))).

(** [is_finished] (static) *)
Definition is_finished (vevent : Event) : M bool :=
  t <- dt_util_utcnow ;;
  ret (dt_ge t (to_datetime (get_end_date vevent))).

(** [_async_update_data]. [except Exception] catches every [PyExc]. *)
Definition _async_update_data : M Timeline :=
  c <- get_coordinator ;;
  call emit DEBUG "Started fetching %s data" [ArgStr (name c)] ;;
  call try_except
    (fun w => let (r, s) := sync_run (store w) in bind (put_store s) (fun _ => lift r) w)
    (fun _ => true)
    (fun err =>
       raise (UpdateFailed ("Error communicating with API: " +:+ str_exc err) err)) ;;
  timeline <- (fun w => (Ok (store_async_get_timeline (store w)), w)) ;;
  c <- get_coordinator ;;
  call put_coordinator (set__upcoming_timeline c (Some timeline)) ;;
  ret timeline.

(** [self.sync.async_list_events(start_date, end_date)]; the call is
    recorded in [fetches]. *)
Definition async_list_events (start_date end_date : datetime)
    : M (iterable Event) :=
  call record_fetch start_date end_date ;;
  (fun w =>
     let (r, s) := sync_async_list_events (store w) start_date end_date in
     bind (put_store s) (fun _ => lift r) w).

(** [async_get_events]. Both bounds are sums on [dt_util.now()], a
    datetime in the default time zone. *)
Definition async_get_events (start_date end_date : datetime)
    : M (iterable Event) :=
  c <- get_coordinator ;;
  match data c with
  | None =>
      raise (HomeAssistantError
               "Unable to get events: Sync from server has not completed")
  | Some data =>
      t1 <- dt_util_now ;;
      let sync_start_time :=
        dt_add_wall default_utcoffset_at_wall t1 (_sync_event_min_time c) in
      t2 <- dt_util_now ;;
      let sync_end_time :=
        dt_add_wall default_utcoffset_at_wall t2 (_sync_event_max_time c) in
      if dt_lt end_date sync_start_time || dt_gt start_date sync_end_time
      then async_list_events start_date end_date
      else ret (overlapping data start_date end_date)
  end.

(** The three locals of [get_current_event]'s loop. *)
Record Locals := mkLocals {
  started_event : option Event;
  not_started_event : option Event;
  all_day_event : option Event;
}.

(** One iteration of [for event in events]; [continue] ends it. *)
Definition loop_body (l : Locals) (event : Event) : M Locals :=
  if is_all_day event then
    unfinished <-
      (if negb (truthy_obj (all_day_event l))
       then (f <- is_finished event ;; ret (negb f))
       else ret false) ;;
    if unfinished
    then ret (mkLocals (started_event l) (not_started_event l) (Some event))
    else ret l
  else
    running <-
      (s <- is_started event ;;
       if s then (f <- is_finished event ;; ret (negb f)) else ret false) ;;
    if running then
      if negb (truthy_obj (started_event l))
      then ret (mkLocals (Some event) (not_started_event l) (all_day_event l))
      else ret l
    else
      pending <-
        (f <- is_finished event ;;
         ret (negb f && negb (is_all_day event)
              && negb (truthy_obj (not_started_event l)))) ;;
      if pending
      then ret (mkLocals (started_event l) (Some event) (all_day_event l))
      else ret l.

Fixpoint for_event_in (events : list Event) (l : Locals) : M Locals :=
  match events with
  | [] => ret l
  | event :: rest => l' <- loop_body l event ;; for_event_in rest l'
  end.

(** [get_current_event] *)
Definition get_current_event : M (option Event) :=
  c <- get_coordinator ;;
  match data c with
  | None =>
      call emit DEBUG "No current event found for %s" [ArgStr (calendar_id c)] ;;
      c <- get_coordinator ;;
      call put_coordinator (set_event c None) ;;
      ret None
  | Some data =>
      today <- dt_util_utcnow ;;
      let events := overlapping data today (dt_add today (timedelta_days 1)) in
      l <- for_event_in (items events) (mkLocals None None None) ;;
      let vevent :=
        if truthy_obj (started_event l) then started_event l
        else if truthy_obj (all_day_event l) then all_day_event l
        else if truthy_obj (not_started_event l) then not_started_event l
        else None in
      ret vevent
  end.
End Methods.
End MS365CalendarSyncCoordinator.

(** ** [calendar_integration.py] *)
Module MS365CalendarEntity.
Section Methods.
Context `{Collaborators}.

(** [_create_calendar_event_entity]. The arguments of [CalendarEvent]
    are evaluated left to right; subscripting the [location] dict
    raises [KeyError] when the key is absent; the constructor validates
    the event and raises [HomeAssistantError] on a schema violation. *)
Definition _create_calendar_event_entity (vevent : Event)
    : result HA.CalendarEvent :=
  let start := get_hass_date (Datetime (O365.start vevent)) (is_all_day vevent) in
  let end_ := get_hass_date (get_end_date vevent) (is_all_day vevent) in
  match O365.location vevent !! "displayName" with
  | None => Raise (KeyError "displayName")
  | Some display_name =>
      let event :=
        HA.mkCalendarEvent start end_ (subject vevent)
          (clean_html (body vevent)) display_name (object_id vevent) None in
      match calendar_event_invalid event with
      | Some err =>
          Raise (HomeAssistantError ("Failed to validate CalendarEvent: " +:+ err))
      | None =>
          if truthy_str (series_master_id vevent)
          then Ok (HA.mkCalendarEvent start end_ (subject vevent)
                     (clean_html (body vevent)) display_name (object_id vevent)
                     (series_master_id vevent))
          else Ok event
      end
  end.

(** The loop of [_create_calendar_event_entities] over [results], with
    [event_list] as accumulator. *)
Fixpoint for_vevent_in (results : list Event)
    (event_list : list HA.CalendarEvent) : M (list HA.CalendarEvent) :=
  match results with
  | [] => ret event_list
  | vevent :: rest =>
      event_list' <-
        try_except
          (event <- lift (_create_calendar_event_entity vevent) ;;
           ret (event_list ++ [event]))
          isinstance_HomeAssistantError
          (fun err =>
             call emit WARNING "Invalid event found - Error: %s, Event: %s"
                    [ArgExc err; ArgEvent vevent] ;;
             ret event_list) ;;
      for_vevent_in rest event_list'
  end.

(** [_create_calendar_event_entities] *)
Definition _create_calendar_event_entities (results : list Event)
    : M (list HA.CalendarEvent) :=
  for_vevent_in results [].

(** The inner loop of [_filter_events]: [for exclude in self.exclude]. *)
Definition for_exclude_in (excludes : list Pattern) (event : Event)
    (include : bool) : bool :=
  fold_left
    (fun include exclude =>
       if re_search exclude (subject event) then false else include)
    excludes include.

(** [_filter_events] *)
Definition _filter_events (events : iterable Event) : M (list Event) :=
  self <- get_entity ;;
  let lst_events := items events in
  if negb (truthy_iterable events) || negb (truthy_list (exclude self))
  then ret lst_events
  else
    let excludes := match exclude self with Some l => l | None => [] end in
    ret (fold_left
           (fun rtn_events event =>
              if for_exclude_in excludes event true
              then rtn_events ++ [event]
              else rtn_events)
           lst_events []).

(** The first loop of [_sort_events], on one event. *)
Definition assign_start_sort (event : Event) : Event :=
  let with_start_sort (v : datetime) :=
    mkEvent (object_id event) (subject event) (body event)
      (O365.location event) (O365.start event) (O365.end_ event)
      (is_all_day event) (series_master_id event) (Some v) in
  if is_all_day event
  then with_start_sort (as_utc (start_of_local_day (Datetime (O365.start event))))
  else with_start_sort (O365.start event).

(** [attrgetter("start_sort")] *)
Definition attrgetter_start_sort (event : Event) : result datetime :=
  match start_sort event with
  | Some v => Ok v
  | None => Raise (AttributeError "start_sort")
  end.

(** [list.sort(key=...)]: the keys are computed first, then the list is
    sorted stably, comparing keys with [<] only. *)
Fixpoint decorate (l : list Event) : result (list (datetime * Event)) :=
  match l with
  | [] => Ok []
  | event :: rest =>
      match attrgetter_start_sort event with
      | Raise e => Raise e
      | Ok k =>
          match decorate rest with
          | Raise e => Raise e
          | Ok rest' => Ok ((k, event) :: rest')
          end
      end
  end.

Fixpoint insort (x : datetime * Event) (sorted : list (datetime * Event))
    : list (datetime * Event) :=
  match sorted with
  | [] => [x]
  | y :: rest =>
      if dt_lt (fst x) (fst y) then x :: y :: rest else y :: insort x rest
  end.

Definition stable_sort (l : list (datetime * Event)) : list (datetime * Event) :=
  fold_left (fun sorted x => insort x sorted) l [].

Definition list_sort_by_start_sort (l : list Event) : result (list Event) :=
  match decorate l with
  | Raise e => Raise e
  | Ok keyed => Ok (map snd (stable_sort keyed))
  end.

(** [_sort_events]. The first loop sets an attribute on the event
    objects themselves; the list that is returned holds the updated
    events. *)
Definition _sort_events (events : list Event) : M (list Event) :=
  let events := map assign_start_sort events in
  lift (list_sort_by_start_sort events).

(** [async_get_events] *)
Definition async_get_events (start_date end_date : datetime)
    : M (list HA.CalendarEvent) :=
  self <- get_entity ;;
  call emit DEBUG "Start get_events for %s" [ArgStr (_name self)] ;;
  results <- MS365CalendarSyncCoordinator.async_get_events start_date end_date ;;
  results <- _filter_events results ;;
  results <- _sort_events results ;;
  events <- _create_calendar_event_entities results ;;
  call emit DEBUG "End get_events for %s" [ArgStr (_name self)] ;;
  ret events.

Definition truthy_bool (o : option bool) : bool :=
  match o with Some true => true | _ => false end.

(** [_get_current_event]. The local [event] is [None] as long as no
    assignment to it has run; reading it then raises
    [UnboundLocalError]. [deepcopy] is the identity on values, and a
    [CalendarEvent] is truthy. *)
Definition _get_current_event : M unit :=
  vevent <- MS365CalendarSyncCoordinator.get_current_event ;;
  match vevent with
  | None =>
      self <- get_entity ;;
      call emit DEBUG "No matching event found in the calendar results for %s"
             [ArgStr (entity_id self)] ;;
      ret tt
  | Some vevent =>
      event <-
        try_except
          (event <- lift (_create_calendar_event_entity vevent) ;;
           self <- get_entity ;;
           call put_entity (set__error self (Some false)) ;;
           ret (Some event))
          isinstance_HomeAssistantError
          (fun err =>
             self <- get_entity ;;
             call (if negb (truthy_bool (_error self))
                   then
                     call emit WARNING "Invalid event found - Error: %s, Event: %s"
                            [ArgExc err; ArgEvent vevent] ;;
                     put_entity (set__error self (Some true))
                   else ret tt) ;;
             ret None) ;;
      match event with
      | None => raise (UnboundLocalError "event")
      | Some event =>
          let (summary, offset) := extract_offset (HA.summary event) DEFAULT_OFFSET in
          let event :=
            HA.mkCalendarEvent (HA.start event) (HA.end_ event) summary
              (HA.description event) (HA.location event) (HA.uid event)
              (HA.recurrence_id event) in
          let start := MS365CalendarSyncCoordinator.to_datetime (HA.start event) in
          reached <- (fun w => (Ok (is_offset_reached (wall_clock w) start offset), w)) ;;
          self <- get_entity ;;
          call put_entity (set__offset_reached self reached) ;;
          self <- get_entity ;;
          put_entity (set__event self (Some event))
      end
  end.

(** The [event] property *)
Definition event_property (self : Entity) : option HA.CalendarEvent :=
  _event self.
End Methods.
End MS365CalendarEntity.

(** ** A regular-expression fragment

    Enough of Python's [re] to run the patterns of the design document:
    literal characters, [.] (any character but a newline) and a postfix
    [*]. Matching is by derivatives; [search] is unanchored, as
    [re.search] is. *)
Module Re.
Inductive regex :=
| Fail
| Eps
| Chr (c : ascii)
| Dot
| Cat (r1 r2 : regex)
| Alt (r1 r2 : regex)
| Star (r : regex).

Fixpoint nullable (r : regex) : bool :=
  match r with
  | Fail | Chr _ | Dot => false
  | Eps | Star _ => true
  | Cat r1 r2 => nullable r1 && nullable r2
  | Alt r1 r2 => nullable r1 || nullable r2
  end.

Definition newline : ascii := Ascii.ascii_of_nat 10.

Fixpoint deriv (c : ascii) (r : regex) : regex :=
  match r with
  | Fail | Eps => Fail
  | Chr a => if Ascii.eqb a c then Eps else Fail
  | Dot => if Ascii.eqb c newline then Fail else Eps
  | Cat r1 r2 =>
      if nullable r1
      then Alt (Cat (deriv c r1) r2) (deriv c r2)
      else Cat (deriv c r1) r2
  | Alt r1 r2 => Alt (deriv c r1) (deriv c r2)
  | Star r1 => Cat (deriv c r1) (Star r1)
  end.

(** Some prefix of [s] is matched by [r]: [re.match]. *)
Fixpoint match_prefix (r : regex) (s : string) : bool :=
  nullable r ||
  match s with
  | EmptyString => false
  | String c s' => match_prefix (deriv c r) s'
  end.

(** Some substring of [s] is matched by [r]: [re.search]. *)
Fixpoint search (r : regex) (s : string) : bool :=
  match_prefix r s ||
  match s with
  | EmptyString => false
  | String _ s' => search r s'
  end.

(** The whole of [s] is matched by [r]: [re.fullmatch]. *)
Fixpoint fullmatch (r : regex) (s : string) : bool :=
  match s with
  | EmptyString => nullable r
  | String c s' => fullmatch (deriv c r) s'
  end.

Definition is_meta (c : ascii) : bool :=
  existsb (Ascii.eqb c) (list_ascii_of_string "\^$.|?*+()[]{}").

(** [re.compile] on the fragment; [None] outside it. *)
Fixpoint compile (p : string) : option regex :=
  match p with
  | EmptyString => Some Eps
  | String c rest =>
      let atom :=
        if Ascii.eqb c "." then Some Dot
        else if is_meta c then None
        else Some (Chr c) in
      match atom with
      | None => None
      | Some a =>
          match rest with
          | String "*" rest' => option_map (Cat (Star a)) (compile rest')
          | _ => option_map (Cat a) (compile rest)
          end
      end
  end.
End Re.

(** ** Sample collaborators

    One instance of the collaborators, used to run the methods on
    concrete calendars. The default time zone has the fixed UTC offset
    [tz]. *)
Module Sample.
(** [datetime.date()] : the calendar day of the wall-clock reading. *)
Definition date_of (obj : date_or_datetime) : Z :=
  match obj with
  | Datetime d => (instant d + utcoffset d) / microseconds_per_day
  | Date n => n
  end.

(** Home Assistant's [start_of_local_day]: midnight, in the default time
    zone, of the date of its argument. *)
Definition start_of_local_day (tz : Z) (obj : date_or_datetime) : datetime :=
  {| instant := date_of obj * microseconds_per_day - tz; utcoffset := tz |}.

(** Modelled from the spec: [sync/timeline.py] is absent. A timeline
    holds its events in iteration order, and [overlapping] returns every
    event whose interval [[start, end)] meets [[rangeStart, rangeEnd)],
    all-day events being moved to local-day boundaries first. *)
Definition Timeline : Type := list Event.

Definition normalized (tz : Z) (all_day : bool) (d : datetime) : Z :=
  if all_day then instant (start_of_local_day tz (Datetime d)) else instant d.

Definition overlaps (tz : Z) (a b : datetime) (e : Event) : bool :=
  (normalized tz (is_all_day e) (O365.start e) <? instant b)
  && (instant a <? normalized tz (is_all_day e) (O365.end_ e)).

Definition overlapping (tz : Z) (tl : Timeline) (a b : datetime)
    : iterable Event :=
  PyIter (List.filter (overlaps tz a b) tl).

(** The sync manager's store: what the remote source holds, whether it
    can be reached, and the events synchronized so far. *)
Record Store := mkStore {
  remote_events : list Event;
  reachable : bool;
  synced : list Event;
}.

Definition sync_run (s : Store) : result unit * Store :=
  if reachable s
  then (Ok tt, mkStore (remote_events s) true (remote_events s))
  else (Raise (OtherError "ConnectionError" "remote unavailable"), s).

Definition sync_async_list_events (tz : Z) (s : Store) (a b : datetime)
    : result (iterable Event) * Store :=
  if reachable s
  then (Ok (PyList (List.filter (overlaps tz a b) (remote_events s))), s)
  else (Raise (OtherError "ConnectionError" "remote unavailable"), s).

Definition get_hass_date (obj : date_or_datetime) (is_all_day : bool)
    : date_or_datetime :=
  match obj with
  | Datetime d => if is_all_day then Date (date_of obj) else obj
  | Date _ => obj
  end.

(** A validator in the manner of the [CalendarEvent] schema: both ends
    of the same type and in order. *)
Definition calendar_event_invalid (ev : HA.CalendarEvent) : option string :=
  match HA.start ev, HA.end_ ev with
  | Datetime a, Datetime b =>
      if instant b <? instant a then Some "Values were not in order" else None
  | Date a, Date b =>
      if b <? a then Some "Values were not in order" else None
  | _, _ => Some "Expected all values to be of the same type"
  end.

(** Subjects without an offset marker. *)
Definition extract_offset (summary offset_prefix : string) : string * Z :=
  (summary, 0).

Definition is_offset_reached (clock : Z) (start : datetime) (offset : Z) : bool :=
  if offset =? 0 then false else instant start + offset <=? clock.

End Sample.

Definition sample_collaborators (tz : Z) : Collaborators := {|
  Timeline := Sample.Timeline;
  overlapping := Sample.overlapping tz;
  Store := Sample.Store;
  sync_run := Sample.sync_run;
  store_async_get_timeline := Sample.synced;
  sync_async_list_events := Sample.sync_async_list_events tz;
  get_start_date := fun e => Datetime (O365.start e);
  get_end_date := fun e => Datetime (O365.end_ e);
  get_hass_date := Sample.get_hass_date;
  clean_html := fun html => html;
  DEFAULT_OFFSET := "!!";
  default_utcoffset := fun _ => tz;
  default_utcoffset_at_wall := fun _ => tz;
  start_of_local_day := Sample.start_of_local_day tz;
  calendar_event_invalid := Sample.calendar_event_invalid;
  extract_offset := Sample.extract_offset;
  is_offset_reached := Sample.is_offset_reached;
  Pattern := Re.regex;
  re_search := Re.search;
|}.

(** ** A default time zone with daylight saving

    The sample collaborators with a default time zone in the manner of
    Europe/Berlin in 2024: one hour east of UTC, and two hours from
    2024-03-31 01:00 UTC (day 19813) to 2024-10-27 01:00 UTC
    (day 20023). *)
Module Zone.
Definition hour : Z := 3600000000.

Definition summer_begins : Z := (19813 * 86400 + 3600) * 1000000.
Definition summer_ends : Z := (20023 * 86400 + 3600) * 1000000.

(** [utcoffset] at an instant. *)
Definition utcoffset_at (t : Z) : Z :=
  if (summer_begins <=? t) && (t <? summer_ends) then 2 * hour else hour.

(** [utcoffset] at a wall-clock reading with [fold = 0]: a reading that
    the clocks skip in spring has the offset from before the change, a
    reading that occurs twice in autumn is the first of the two. *)
Definition utcoffset_at_wall (wall : Z) : Z :=
  if (summer_begins + 2 * hour <=? wall) && (wall <? summer_ends + 2 * hour)
  then 2 * hour else hour.

Definition start_of_local_day (obj : date_or_datetime) : datetime :=
  let wall := Sample.date_of obj * microseconds_per_day in
  {| instant := wall - utcoffset_at_wall wall; utcoffset := utcoffset_at_wall wall |}.

Definition normalized (all_day : bool) (d : datetime) : Z :=
  if all_day then instant (start_of_local_day (Datetime d)) else instant d.

Definition overlaps (a b : datetime) (e : Event) : bool :=
  (normalized (is_all_day e) (O365.start e) <? instant b)
  && (instant a <? normalized (is_all_day e) (O365.end_ e)).

Definition overlapping (tl : Sample.Timeline) (a b : datetime) : iterable Event :=
  PyIter (List.filter (overlaps a b) tl).

Definition sync_async_list_events (s : Sample.Store) (a b : datetime)
    : result (iterable Event) * Sample.Store :=
  if Sample.reachable s
  then (Ok (PyList (List.filter (overlaps a b) (Sample.remote_events s))), s)
  else (Raise (OtherError "ConnectionError" "remote unavailable"), s).
End Zone.

Definition zone_collaborators : Collaborators := {|
  Timeline := Sample.Timeline;
  overlapping := Zone.overlapping;
  Store := Sample.Store;
  sync_run := Sample.sync_run;
  store_async_get_timeline := Sample.synced;
  sync_async_list_events := Zone.sync_async_list_events;
  get_start_date := fun e => Datetime (O365.start e);
  get_end_date := fun e => Datetime (O365.end_ e);
  get_hass_date := Sample.get_hass_date;
  clean_html := fun html => html;
  DEFAULT_OFFSET := "!!";
  default_utcoffset := Zone.utcoffset_at;
  default_utcoffset_at_wall := Zone.utcoffset_at_wall;
  start_of_local_day := Zone.start_of_local_day;
  calendar_event_invalid := Sample.calendar_event_invalid;
  extract_offset := Sample.extract_offset;
  is_offset_reached := Sample.is_offset_reached;
  Pattern := Re.regex;
  re_search := Re.search;
|}.

(** ** The design document's vocabulary *)
Section Vocabulary.
Context `{Collaborators}.

(** The instants that [is_started] and [is_finished] compare the clock
    with. *)
Definition start_instant (e : Event) : Z :=
  instant (MS365CalendarSyncCoordinator.to_datetime (get_start_date e)).

Definition end_instant (e : Event) : Z :=
  instant (MS365CalendarSyncCoordinator.to_datetime (get_end_date e)).

(** The three buckets of current-event resolution, at the instant [t]. *)
Definition started (t : Z) (e : Event) : bool :=
  negb (is_all_day e) && (start_instant e <=? t) && (t <? end_instant e).

Definition all_day_unfinished (t : Z) (e : Event) : bool :=
  is_all_day e && (t <? end_instant e).

Definition not_started (t : Z) (e : Event) : bool :=
  negb (is_all_day e) && (t <? start_instant e).

(** What the code files under not-started: an event that is not all-day,
    not finished and not running. *)
Definition pending (t : Z) (e : Event) : bool :=
  negb (is_all_day e) && (t <? end_instant e) && (t <? start_instant e).

(** A bucket keeps its first member. *)
Definition keep_first (slot : option Event) (hit : bool) (e : Event)
    : option Event :=
  match slot with
  | Some _ => slot
  | None => if hit then Some e else None
  end.

(** Priority: started, then all-day-unfinished, then not-started; each
    bucket represented by its first member in iteration order. *)
Definition select_by_priority (t : Z) (events : list Event) : option Event :=
  match List.find (started t) events with
  | Some e => Some e
  | None =>
      match List.find (all_day_unfinished t) events with
      | Some e => Some e
      | None => List.find (not_started t) events
      end
  end.

(** The same selection with the not-started bucket as the code fills
    it. *)
Definition select_as_coded (t : Z) (events : list Event) : option Event :=
  match List.find (started t) events with
  | Some e => Some e
  | None =>
      match List.find (all_day_unfinished t) events with
      | Some e => Some e
      | None => List.find (pending t) events
      end
  end.

(** What [dt_util.now()] returns at the clock of [w]. *)
Definition local_now (w : World) : datetime :=
  mk_datetime (wall_clock w) (default_utcoffset (wall_clock w)).

(** The bounds of the window that [async_get_events] computes at the
    clock of [w], [dt_util.now() + self._sync_event_min_time] and
    [dt_util.now() + self._sync_event_max_time], as instants. *)
Definition sync_start_time (w : World) : Z :=
  instant (dt_add_wall default_utcoffset_at_wall (local_now w)
             (_sync_event_min_time (coordinator w))).

Definition sync_end_time (w : World) : Z :=
  instant (dt_add_wall default_utcoffset_at_wall (local_now w)
             (_sync_event_max_time (coordinator w))).

(** The events that [get_current_event] iterates over. *)
Definition candidates (w : World) (tl : Timeline) : list Event :=
  items (overlapping tl (mk_datetime (wall_clock w) 0)
           (dt_add (mk_datetime (wall_clock w) 0) (timedelta_days 1))).

(** The sort key of the pipeline's sort stage. *)
Definition normalized_start (e : Event) : datetime :=
  if is_all_day e
  then as_utc (start_of_local_day (Datetime (O365.start e)))
  else O365.start e.

(** The patterns configured on the entity. *)
Definition patterns (self : Entity) : list Pattern :=
  match exclude self with Some l => l | None => [] end.

Definition excluded (self : Entity) (e : Event) : bool :=
  existsb (fun p => re_search p (subject e)) (patterns self).

(** The world with more log records. *)
Definition logged (w : World) (records : list LogRecord) : World :=
  mkWorld (coordinator w) (entity w) (store w) (wall_clock w)
    (log w ++ records) (fetches w).

(** An event converts, or fails with an instance of
    [HomeAssistantError]. *)
Definition recoverable (vevent : Event) : bool :=
  match MS365CalendarEntity._create_calendar_event_entity vevent with
  | Ok _ => true
  | Raise err => isinstance_HomeAssistantError err
  end.

(** The conversions that succeed, in order. *)
Definition converted (results : list Event) : list HA.CalendarEvent :=
  flat_map
    (fun vevent =>
       match MS365CalendarEntity._create_calendar_event_entity vevent with
       | Ok event => [event]
       | Raise _ => []
       end) results.

(** One warning for each conversion that fails. *)
Definition warnings (results : list Event) : list LogRecord :=
  flat_map
    (fun vevent =>
       match MS365CalendarEntity._create_calendar_event_entity vevent with
       | Ok _ => []
       | Raise err =>
           [mkLog WARNING "Invalid event found - Error: %s, Event: %s"
              [ArgExc err; ArgEvent vevent]]
       end) results.

(** The order of the sort stage on decorated events, and the events
    with a given key. *)
Definition key_le (a b : datetime * Event) : Prop :=
  instant (fst a) <= instant (fst b).

Definition has_key (k : Z) (p : datetime * Event) : bool :=
  instant (fst p) =? k.

Definition sorts_at (k : Z) (e : Event) : bool :=
  instant (normalized_start e) =? k.

Definition keyed_by_start (p : datetime * Event) : Prop :=
  fst p = normalized_start (snd p).

Definition start_le (a b : Event) : Prop :=
  instant (normalized_start a) <= instant (normalized_start b).
End Vocabulary.

(** ** Sample calendars

    Worlds over the sample collaborators with the default time zone at
    UTC. Day 19783 is 2024-03-01; the clock reads noon of that day unless
    said otherwise. *)
Module Calendar.
Definition at_ (day hour minute : Z) : datetime :=
  mk_datetime ((day * 86400 + hour * 3600 + minute * 60) * 1000000) 0.

Definition noon : Z := instant (at_ 19783 12 0).

Definition office : gmap string string := {[ "displayName" := "Office" ]}.

Definition meeting (id subject : string) (a b : datetime) : Event :=
  mkEvent id subject "" office a b false None None.

Definition standup : Event := meeting "e1" "Standup" (at_ 19783 11 30) (at_ 19783 12 30).
Definition lunch : Event := meeting "e2" "Lunch" (at_ 19783 13 0) (at_ 19783 14 0).
Definition private_lunch : Event :=
  meeting "e3" "Private Lunch" (at_ 19783 13 0) (at_ 19783 14 0).
Definition breakfast : Event :=
  meeting "e4" "Breakfast" (at_ 19784 11 30) (at_ 19784 11 45).
Definition review : Event := meeting "e5" "Review" (at_ 19783 11 0) (at_ 19783 13 0).

Definition holiday : Event :=
  mkEvent "e6" "Holiday" "" office (at_ 19783 0 0) (at_ 19784 0 0) true None None.

(** An event whose [location] dict has no [displayName]. *)
Definition nowhere : Event :=
  mkEvent "e7" "Walk" "" ∅ (at_ 19783 15 0) (at_ 19783 16 0) false None None.

(** An event whose end precedes its start. *)
Definition backwards : Event :=
  meeting "e8" "Backwards" (at_ 19783 14 0) (at_ 19783 13 0).

Definition the_coordinator (data : option (list Event))
    : @Coordinator (sample_collaborators 0) :=
  mkCoordinator (H := sample_collaborators 0) "calendar" "cal-1" data data None
    (timedelta_days (-15)) (timedelta_days 90).

Definition the_entity (exclude : option (list Re.regex))
    : @Entity (sample_collaborators 0) :=
  mkEntity (H := sample_collaborators 0) "Calendar" "calendar.cal_1" exclude
    None false None.

Definition the_store (up : bool) (remote : list Event) : Sample.Store :=
  Sample.mkStore remote up [].

Definition world (clock : Z) (data : option (list Event))
    (exclude : option (list Re.regex)) (up : bool) (remote : list Event)
    : @World (sample_collaborators 0) :=
  mkWorld (H := sample_collaborators 0) (the_coordinator data)
    (the_entity exclude) (the_store up remote) clock [] [].
Definition collaborators : Collaborators := sample_collaborators 0.

(** An entity that has published the stand-up, and its world. *)
Definition published : HA.CalendarEvent :=
  HA.mkCalendarEvent (Datetime (at_ 19783 11 30)) (Datetime (at_ 19783 12 30))
    "Standup" "" "Office" "e1" None.

Definition world_after_standup (clock : Z) (data : option (list Event))
    : @World (sample_collaborators 0) :=
  mkWorld (H := sample_collaborators 0) (the_coordinator data)
    (mkEntity (H := sample_collaborators 0) "Calendar" "calendar.cal_1" None
       (Some published) false (Some false))
    (the_store true []) clock [] [].

(** The worlds of the runs below. *)
Definition busy_day : list Event := [lunch; holiday; standup; review].

Definition at_noon (data : option (list Event)) : @World (sample_collaborators 0) :=
  world noon data None true [].

(** The remote source cannot be reached. *)
Definition offline : @World (sample_collaborators 0) :=
  world noon (Some busy_day) None false [].

(** The remote source holds more than was synchronized. *)
Definition partly_synced : @World (sample_collaborators 0) :=
  world noon (Some [lunch]) None true [lunch; breakfast].


End Calendar.

(** ** A sample calendar across a change of the clocks

    A world over the collaborators with daylight saving. The clock reads
    2024-03-01 11:00 UTC, noon in the default time zone; the picnic is on
    2024-05-30 (day 19873), ninety days later, when the clocks are an hour
    further ahead of UTC. *)
Module Summer.
Definition picnic : Event :=
  Calendar.meeting "e10" "Picnic" (Calendar.at_ 19873 10 30) (Calendar.at_ 19873 11 30).

Definition the_world : @World zone_collaborators :=
  mkWorld (H := zone_collaborators)
    (mkCoordinator (H := zone_collaborators) "calendar" "cal-1"
       (Some [picnic]) (Some [picnic]) None
       (timedelta_days (-15)) (timedelta_days 90))
    (mkEntity (H := zone_collaborators) "Calendar" "calendar.cal_1" None
       None false None)
    (Sample.mkStore [picnic] true [picnic])
    (instant (Calendar.at_ 19783 11 0)) [] [].
End Summer.

(** ** The remaining methods of the entity

    The methods of [MS365CalendarEntity] that serve the calendar
    services, with what they call. Their effects on collaborators are
    recorded in a trace. *)
Module Services.
(** Values of keyword arguments and of the event dicts of Home
    Assistant's calendar API. *)
Inductive PyVal :=
| VNone
| VBool (b : bool)
| VStr (s : string)
| VDatetime (d : datetime)
| VDate (ordinal : Z).

Definition truthy_val (v : PyVal) : bool :=
  match v with
  | VNone | VBool false | VStr EmptyString => false
  | _ => true
  end.

(** [isinstance(v, datetime)] *)
Definition isinstance_datetime (v : PyVal) : bool :=
  match v with VDatetime _ => true | _ => false end.

(** The event types of [const_integration] that [_raise_event] is called
    with. *)
Inductive HaEvent :=
| EVENT_MODIFY_CALENDAR_EVENT
| EVENT_MODIFY_CALENDAR_RECURRENCES
| EVENT_REMOVE_CALENDAR_EVENT
| EVENT_REMOVE_CALENDAR_RECURRENCES.

Inductive Effect :=
(** [store_service.async_add_event(subject, start, end, body=, is_all_day=, rrule=)] *)
| AddEvent (subject start end_ body : PyVal) (is_all_day : bool) (rrule : PyVal)
(** [api.async_patch_event(event_id, subject, start, end, **kwargs)] *)
| PatchEvent (event_id subject start end_ : PyVal) (kwargs : gmap string PyVal)
(** [store_service.async_delete_event(event_id)] *)
| DeleteEvent (event_id : PyVal)
(** [coordinator.async_refresh()] *)
| Refresh
(** [hass.bus.fire(f"{DOMAIN}_{event_type}", {ATTR_EVENT_ID: event_id, EVENT_HA_EVENT: True})] *)
| BusFire (event_type : HaEvent) (event_id : PyVal)
(** [_LOGGER.debug("%s - %s", event_type, event_id)] *)
| LogDebug (event_type : HaEvent) (event_id : PyVal)
(** [async_schedule_update_ha_state(True)] *)
| ScheduleUpdate.

(** What a service call can raise: the [ServiceValidationError] of the
    guards, an exception of a collaborator passing through, or an
    exception raised [from] another. *)
Inductive SvcExc :=
| ServiceValidationError (translation_domain translation_key : string)
    (translation_placeholders : list (string * string))
| Uncaught (e : PyExc)
| Chained (e cause : PyExc).

Inductive outcome (A : Type) :=
| Returns (a : A)
| Raises (e : SvcExc).
Arguments Returns {A} a.
Arguments Raises {A} e.

(** [requests.exceptions.HTTPError], carried as an [OtherError] of that
    class. *)
Definition isinstance_HTTPError (e : PyExc) : bool :=
  match e with
  | OtherError cls _ => String.eqb cls "HTTPError"
  | _ => false
  end.

(** Constants of [const_integration] and of Home Assistant's calendar
    component. *)
Class Constants := {
  DOMAIN : string;
  PERM_CALENDARS_READWRITE : string;
  EVENT_START : string;
  EVENT_END : string;
  EVENT_SUMMARY : string;
  EVENT_DESCRIPTION : string;
  EVENT_RRULE : string;
}.

(** The attributes of the entity that the services read; [authorised] is
    the answer of
    [permissions.validate_authorization(PERM_CALENDARS_READWRITE)]. *)
Record Editor := mkEditor {
  _name : string;
  entity_id : string;
  _update_supported : bool;
  authorised : bool;
  group_calendar : bool;
}.

Section Methods.
Context `{Constants}.
(** The exception, if any, that a call to a collaborator raises. *)
Variable remote : Effect -> option PyExc.

Definition Svc (A : Type) : Type := list Effect -> outcome A * list Effect.

Definition sret {A} (a : A) : Svc A := fun t => (Returns a, t).

Definition sraise {A} (e : SvcExc) : Svc A := fun t => (Raises e, t).

Definition sbind {A B} (m : Svc A) (k : A -> Svc B) : Svc B :=
  fun t =>
    match m t with
    | (Returns a, t') => k a t'
    | (Raises e, t') => (Raises e, t')
    end.

(** An effect that cannot fail. *)
Definition tell (e : Effect) : Svc unit := fun t => (Returns tt, t ++ [e]).

(** A call to a collaborator: recorded, then failing if the collaborator
    raises. *)
Definition perform (e : Effect) : Svc unit :=
  fun t =>
    match remote e with
    | None => (Returns tt, t ++ [e])
    | Some err => (Raises (Uncaught err), t ++ [e])
    end.

(** [d[key]] and [d.get(key)] *)
Definition subscript (d : gmap string PyVal) (key : string) : Svc PyVal :=
  match d !! key with
  | Some v => sret v
  | None => sraise (Uncaught (KeyError key))
  end.

Definition dict_get (d : gmap string PyVal) (key : string) : PyVal :=
  match d !! key with Some v => v | None => VNone end.

(** [_validate_permissions] *)
Definition _validate_permissions (self : Editor) : Svc bool :=
  if negb (authorised self) then
    sraise (ServiceValidationError DOMAIN "not_authorised_to_event"
              [("calendar", _name self);
               ("error_message", PERM_CALENDARS_READWRITE)])
  else if negb (_update_supported self) then
    sraise (ServiceValidationError DOMAIN "calendar_not_editable"
              [("name", _name self)])
  else sret true.

(** [_group_calendar_log] *)
Definition _group_calendar_log {A} (entity_id : string) : Svc A :=
  sraise (ServiceValidationError DOMAIN "ms365_group_calendar_error"
            [("entity_id", entity_id)]).

(** [_raise_event] *)
Definition _raise_event (event_type : HaEvent) (event_id : PyVal) : Svc unit :=
  sbind (tell (BusFire event_type event_id))
    (fun _ => tell (LogDebug event_type event_id)).

(** [_async_update_calendar_event] *)
Definition _async_update_calendar_event (event_id : PyVal) (ha_event : HaEvent)
    (subject start end_ : PyVal) (kwargs : gmap string PyVal) : Svc unit :=
  sbind (perform (PatchEvent event_id subject start end_ kwargs)) (fun _ =>
  sbind (_raise_event ha_event event_id) (fun _ =>
  tell ScheduleUpdate)).

(** [async_modify_calendar_event] *)
Definition async_modify_calendar_event (self : Editor)
    (event_id recurrence_id recurrence_range subject start end_ : PyVal)
    (kwargs : gmap string PyVal) : Svc unit :=
  sbind (_validate_permissions self) (fun _ =>
  sbind (if group_calendar self then _group_calendar_log (entity_id self)
         else sret tt) (fun _ =>
  if truthy_val recurrence_range
  then _async_update_calendar_event recurrence_id
         EVENT_MODIFY_CALENDAR_RECURRENCES subject start end_ kwargs
  else _async_update_calendar_event event_id
         EVENT_MODIFY_CALENDAR_EVENT subject start end_ kwargs)).

(** [async_update_event] *)
Definition async_update_event (self : Editor) (uid : PyVal)
    (event : gmap string PyVal) (recurrence_id recurrence_range : PyVal)
    : Svc unit :=
  sbind (subscript event EVENT_START) (fun start =>
  sbind (subscript event EVENT_END) (fun end_ =>
  let is_all_day := negb (isinstance_datetime start) in
  sbind (subscript event EVENT_SUMMARY) (fun subject =>
  let body := dict_get event EVENT_DESCRIPTION in
  let rrule := dict_get event EVENT_RRULE in
  async_modify_calendar_event self uid recurrence_id recurrence_range
    subject start end_
    (<["body" := body]>
       (<["is_all_day" := VBool is_all_day]> (<["rrule" := rrule]> ∅)))))).

(** [_async_delete_calendar_event] *)
Definition _async_delete_calendar_event (event_id : PyVal) (ha_event : HaEvent)
    : Svc unit :=
  sbind (perform (DeleteEvent event_id)) (fun _ =>
  sbind (perform Refresh) (fun _ =>
  sbind (_raise_event ha_event event_id) (fun _ =>
  tell ScheduleUpdate))).

(** [async_remove_calendar_event] *)
Definition async_remove_calendar_event (self : Editor)
    (event_id recurrence_id recurrence_range : PyVal) : Svc unit :=
  sbind (_validate_permissions self) (fun _ =>
  sbind (if group_calendar self then _group_calendar_log (entity_id self)
         else sret tt) (fun _ =>
  if truthy_val recurrence_range
  then _async_delete_calendar_event recurrence_id EVENT_REMOVE_CALENDAR_RECURRENCES
  else _async_delete_calendar_event event_id EVENT_REMOVE_CALENDAR_EVENT)).

(** [async_delete_event] *)
Definition async_delete_event (self : Editor)
    (uid recurrence_id recurrence_range : PyVal) : Svc unit :=
  async_remove_calendar_event self uid recurrence_id recurrence_range.

(** [async_create_event]. Only an [HTTPError] of the store service is
    wrapped. *)
Definition async_create_event (kwargs : gmap string PyVal) : Svc unit :=
  sbind (subscript kwargs EVENT_START) (fun start =>
  sbind (subscript kwargs EVENT_END) (fun end_ =>
  let is_all_day := negb (isinstance_datetime start) in
  sbind (subscript kwargs EVENT_SUMMARY) (fun subject =>
  let body := dict_get kwargs EVENT_DESCRIPTION in
  let rrule := dict_get kwargs EVENT_RRULE in
  sbind
    (fun t =>
       match perform (AddEvent subject start end_ body is_all_day rrule) t with
       | (Raises (Uncaught err), t') =>
           if isinstance_HTTPError err
           then (Raises (Chained
                           (HomeAssistantError
                              ("Error while creating event: " +:+ str_exc err))
                           err), t')
           else (Raises (Uncaught err), t')
       | r => r
       end) (fun _ =>
  perform Refresh)))).
End Methods.
End Services.

(** ** The attributes of the entity

    [_log_error] and [_build_extra_attributes] of [MS365CalendarEntity].
    [_data_attribute] is not among the attributes of [Entity]; the method
    that writes it takes its old value and returns the new one. *)
Module Attributes.
Section Methods.
Context `{Collaborators}.
(** [utils_integration.format_event_data], and the iteration of a
    timeline ([for event in self.coordinator.data]). *)
Variable EventData : Type.
Variable format_event_data : Event -> EventData.
Variable timeline_events : Timeline -> list Event.

(** [_log_error] *)
Definition _log_error (error : string) (err : PyExc) : M unit :=
  self <- get_entity ;;
  if negb (MS365CalendarEntity.truthy_bool (_error self))
  then
    call emit WARNING "%s - %s" [ArgStr error; ArgExc err] ;;
    self <- get_entity ;;
    put_entity (set__error self (Some true))
  else emit DEBUG "Repeat error - %s - %s" [ArgStr error; ArgExc err].

(** Calls of [_log_error], one after the other. *)
Fixpoint log_errors (calls : list (string * PyExc)) : M unit :=
  match calls with
  | [] => ret tt
  | (error, err) :: rest => call _log_error error err ;; log_errors rest
  end.

(** The loop of [_build_extra_attributes] over the events of the
    timeline. *)
Definition for_event_append (range_start range_end : datetime)
    (events : list Event) (_data_attribute : list EventData) : list EventData :=
  fold_left
    (fun attribute event =>
       if dt_gt (O365.end_ event) range_start && dt_lt (O365.start event) range_end
       then attribute ++ [format_event_data event]
       else attribute)
    events _data_attribute.

(** [_build_extra_attributes] *)
Definition _build_extra_attributes (range_start range_end : datetime)
    (w : World) (_data_attribute : list EventData) : list EventData :=
  match data (coordinator w) with
  | Some data => for_event_append range_start range_end (timeline_events data) []
  | None => _data_attribute
  end.
End Methods.

Definition is_warning (r : LogRecord) : bool :=
  match level r with WARNING => true | DEBUG => false end.

Definition warnings_in (records : list LogRecord) : nat :=
  length (List.filter is_warning records).
End Attributes.

(** ** [setup_integration.py] *)
Module Setup.
(** An entity of the calendars file, as the schema leaves it. *)
Record EntityConf := mkEntityConf {
  CONF_NAME : string;
  CONF_DEVICE_ID : string;
  CONF_TRACK : bool;
  CONF_EXCLUDE : option (list string);
  CONF_SEARCH : option string;
  CONF_SENSITIVITY_EXCLUDE : option (list string);
}.

(** A calendar as [async_scan_for_calendars] lists it. *)
Record CalendarEdit := mkCalendarEdit {
  calendar_id : string;
  can_edit : bool;
}.

(** An element of [keys]. *)
Record Key := mkKey {
  CONF_ENTITY : EntityConf;
  CONF_ENTITY_ID : string;
  CONF_UPDATE_CALENDAR : bool;
}.

Section Methods.
Context `{Collaborators}.
(** [entry.data[CONF_ENTITY_NAME]], [utils_integration.build_calendar_entity_id],
    the sync window of [const_integration], in days, and the exception,
    if any, that building the API service, the sync manager and the
    coordinator of an entity raises. *)
Variable entity_name : string.
Variable build_calendar_entity_id : string -> string -> string.
Variable DEFAULT_SYNC_EVENT_MIN_TIME : Z.
Variable DEFAULT_SYNC_EVENT_MAX_TIME : Z.
Variable calendar_init : string -> EntityConf -> option PyExc.

(** [MS365CalendarSyncCoordinator.__init__]; [data] is [None] as the base
    class leaves it. *)
Definition coordinator__init__ (cal_id name : string) : Coordinator :=
  mkCoordinator name cal_id None None None
    (timedelta_days DEFAULT_SYNC_EVENT_MIN_TIME)
    (timedelta_days DEFAULT_SYNC_EVENT_MAX_TIME).

(** The locals of [_async_setup_coordinators], with the log and the
    calendars whose API service was set up. *)
Record Locals := mkLocals {
  coordinators : list Coordinator;
  keys : list Key;
  log : list LogRecord;
  inits : list (string * EntityConf);
}.

(** [next((c.can_edit for c in calendar_edit_list if c.calendar_id == cal_id), True)] *)
Definition can_edit_of (calendar_edit_list : list CalendarEdit) (cal_id : string)
    : bool :=
  match List.find (fun c => String.eqb (calendar_id c) cal_id) calendar_edit_list with
  | Some c => can_edit c
  | None => true
  end.

Definition isinstance_HTTPError (e : PyExc) : bool :=
  match e with
  | OtherError cls _ => String.eqb cls "HTTPError"
  | _ => false
  end.

(** [for entity in calendar.get(CONF_ENTITIES)] *)
Fixpoint for_entity_in (update_supported : bool)
    (calendar_edit_list : list CalendarEdit) (cal_id : string)
    (entities : list EntityConf) (l : Locals) : option PyExc * Locals :=
  match entities with
  | [] => (None, l)
  | entity :: rest =>
      if negb (CONF_TRACK entity)
      then for_entity_in update_supported calendar_edit_list cal_id rest l
      else
        let can_edit := can_edit_of calendar_edit_list cal_id in
        let entity_id :=
          build_calendar_entity_id (CONF_DEVICE_ID entity) entity_name in
        let update_calendar := update_supported && can_edit in
        let keys' := keys l ++ [mkKey entity entity_id update_calendar] in
        let inits' := inits l ++ [(cal_id, entity)] in
        match calendar_init cal_id entity with
        | None =>
            let unique_id := CONF_NAME entity in
            for_entity_in update_supported calendar_edit_list cal_id rest
              (mkLocals (coordinators l ++ [coordinator__init__ cal_id unique_id])
                 keys' (log l) inits')
        | Some err =>
            if isinstance_HTTPError err
            then
              for_entity_in update_supported calendar_edit_list cal_id rest
                (mkLocals (coordinators l) keys'
                   (log l
                    ++ [mkLog WARNING
                          "No permission for calendar, please remove - Name: %s; Device: %s;"
                          [ArgStr (CONF_NAME entity);
                           ArgStr (CONF_DEVICE_ID entity)]])
                   inits')
            else (Some err, mkLocals (coordinators l) keys' (log l) inits')
        end
  end.

(** [for cal_id, calendar in calendars.items()] *)
Fixpoint for_calendar_in (update_supported : bool)
    (calendar_edit_list : list CalendarEdit)
    (calendars : list (string * list EntityConf)) (l : Locals)
    : option PyExc * Locals :=
  match calendars with
  | [] => (None, l)
  | (cal_id, entities) :: rest =>
      match for_entity_in update_supported calendar_edit_list cal_id entities l with
      | (None, l') => for_calendar_in update_supported calendar_edit_list rest l'
      | (Some err, l') => (Some err, l')
      end
  end.

(** [_async_setup_coordinators], on the calendars of the file in the
    order of the dict. It returns [coordinators, keys], or raises. *)
Definition _async_setup_coordinators (update_supported : bool)
    (calendar_edit_list : list CalendarEdit)
    (calendars : list (string * list EntityConf))
    : result (list Coordinator * list Key) * Locals :=
  match for_calendar_in update_supported calendar_edit_list calendars
          (mkLocals [] [] [] []) with
  | (None, l) => (Ok (coordinators l, keys l), l)
  | (Some err, l) => (Raise err, l)
  end.

(** The tracked entities of the file, each with its calendar. *)
Definition tracked (calendars : list (string * list EntityConf))
    : list (string * EntityConf) :=
  flat_map
    (fun c => map (fun entity => (fst c, entity)) (List.filter CONF_TRACK (snd c)))
    calendars.

(** The key that the loop builds for a tracked entity. *)
Definition key_of (update_supported : bool) (calendar_edit_list : list CalendarEdit)
    (c : string * EntityConf) : Key :=
  mkKey (snd c) (build_calendar_entity_id (CONF_DEVICE_ID (snd c)) entity_name)
    (update_supported && can_edit_of calendar_edit_list (fst c)).

(** The warning logged for a tracked entity whose set-up raises
    [HTTPError]. *)
Definition warning_of (c : string * EntityConf) : LogRecord :=
  mkLog WARNING
    "No permission for calendar, please remove - Name: %s; Device: %s;"
    [ArgStr (CONF_NAME (snd c)); ArgStr (CONF_DEVICE_ID (snd c))].

(** The two loops as one loop over the tracked entities. *)
Fixpoint for_tracked (update_supported : bool)
    (calendar_edit_list : list CalendarEdit) (cs : list (string * EntityConf))
    (l : Locals) : option PyExc * Locals :=
  match cs with
  | [] => (None, l)
  | c :: rest =>
      let keys' := keys l ++ [key_of update_supported calendar_edit_list c] in
      let inits' := inits l ++ [c] in
      match calendar_init (fst c) (snd c) with
      | None =>
          for_tracked update_supported calendar_edit_list rest
            (mkLocals
               (coordinators l ++ [coordinator__init__ (fst c) (CONF_NAME (snd c))])
               keys' (log l) inits')
      | Some err =>
          if isinstance_HTTPError err
          then for_tracked update_supported calendar_edit_list rest
                 (mkLocals (coordinators l) keys' (log l ++ [warning_of c]) inits')
          else (Some err, mkLocals (coordinators l) keys' (log l) inits')
      end
  end.

Definition init_fails (c : string * EntityConf) : bool :=
  match calendar_init (fst c) (snd c) with Some _ => true | None => false end.

Definition init_recoverable (c : string * EntityConf) : bool :=
  match calendar_init (fst c) (snd c) with
  | Some err => isinstance_HTTPError err
  | None => true
  end.
End Methods.
End Setup.

(** ** Sample services and calendars file *)
Module Office.
Definition constants : Services.Constants := {|
  Services.DOMAIN := "ms365_calendar";
  Services.PERM_CALENDARS_READWRITE := "Calendars.ReadWrite";
  Services.EVENT_START := "dtstart";
  Services.EVENT_END := "dtend";
  Services.EVENT_SUMMARY := "summary";
  Services.EVENT_DESCRIPTION := "description";
  Services.EVENT_RRULE := "rrule";
|}.

Definition editor (authorised supported group : bool) : Services.Editor :=
  Services.mkEditor "Calendar" "calendar.cal_1" supported authorised group.

(** Collaborators that answer every call, and collaborators whose remote
    calls are refused. *)
Definition online (e : Services.Effect) : option PyExc := None.

Definition forbidden (e : Services.Effect) : option PyExc :=
  match e with
  | Services.AddEvent _ _ _ _ _ _ | Services.PatchEvent _ _ _ _ _
  | Services.DeleteEvent _ =>
      Some (OtherError "HTTPError" "403 Forbidden")
  | _ => None
  end.

Definition holiday_dict : gmap string Services.PyVal :=
  <["dtstart" := Services.VDate 19783]>
    (<["dtend" := Services.VDate 19784]>
       (<["summary" := Services.VStr "Holiday"]> ∅)).

Definition untitled_dict : gmap string Services.PyVal :=
  <["dtstart" := Services.VDate 19783]> (<["dtend" := Services.VDate 19784]> ∅).

(** A calendars file with a tracked and an untracked entity on one
    calendar and a tracked entity on a second one. *)
Definition work : Setup.EntityConf :=
  Setup.mkEntityConf "Work" "work" true None None None.
Definition hidden : Setup.EntityConf :=
  Setup.mkEntityConf "Hidden" "hidden" false None None None.
Definition shared : Setup.EntityConf :=
  Setup.mkEntityConf "Shared" "shared" true None None None.

Definition calendars_file : list (string * list Setup.EntityConf) :=
  [("cal-1", [work; hidden]); ("cal-2", [shared])].

Definition scanned : list Setup.CalendarEdit :=
  [Setup.mkCalendarEdit "cal-2" false; Setup.mkCalendarEdit "cal-2" true].

Definition entity_id_of (device_id entity_name : string) : string :=
  "calendar." +:+ device_id +:+ "_" +:+ entity_name.

(** The second calendar cannot be read; or its set-up fails otherwise. *)
Definition no_permission (cal_id : string) (entity : Setup.EntityConf)
    : option PyExc :=
  if String.eqb cal_id "cal-2" then Some (OtherError "HTTPError" "403 Forbidden")
  else None.

Definition broken (cal_id : string) (entity : Setup.EntityConf) : option PyExc :=
  if String.eqb cal_id "cal-1" then Some (OtherError "ValueError" "bad calendar")
  else None.

(** The world of the coordinator that the set-up builds for [work]. *)
Definition fresh_world : @World (sample_collaborators 0) :=
  mkWorld (H := sample_collaborators 0)
    (Setup.coordinator__init__ (H := sample_collaborators 0) (-15) 90 "cal-1" "Work")
    (Calendar.the_entity None) (Calendar.the_store true []) Calendar.noon [] [].

(** A world whose entity is configured with the patterns [ps]. *)
Definition with_patterns (ps : list Re.regex) : @World (sample_collaborators 0) :=
  Calendar.world Calendar.noon (Some Calendar.busy_day) (Some ps) true [].
End Office.

(** * Properties *)

Ltac by_computation :=
  vm_compute; first [reflexivity | intros Hc; discriminate Hc].

Section CoordinatorProperties.
Context `{Collaborators}.

Lemma is_started_run (e : Event) (w : World) :
  MS365CalendarSyncCoordinator.is_started e w
  = (Ok (start_instant e <=? wall_clock w), w).
Proof. reflexivity. Qed.

Lemma is_finished_run (e : Event) (w : World) :
  MS365CalendarSyncCoordinator.is_finished e w
  = (Ok (end_instant e <=? wall_clock w), w).
Proof. reflexivity. Qed.

Lemma ltb_negb_leb (a b : Z) : (a <? b) = negb (b <=? a).
Proof. destruct (Z.ltb_spec a b), (Z.leb_spec b a); simpl; auto; lia. Qed.

(** One iteration files the event under the bucket it belongs to, if
    that bucket is still empty, and reads nothing but the clock. *)
Lemma loop_body_run (l : MS365CalendarSyncCoordinator.Locals) (e : Event) (w : World) :
  MS365CalendarSyncCoordinator.loop_body l e w
  = (Ok (MS365CalendarSyncCoordinator.mkLocals
           (keep_first (MS365CalendarSyncCoordinator.started_event l)
              (started (wall_clock w) e) e)
           (keep_first (MS365CalendarSyncCoordinator.not_started_event l)
              (pending (wall_clock w) e) e)
           (keep_first (MS365CalendarSyncCoordinator.all_day_event l)
              (all_day_unfinished (wall_clock w) e) e)), w).
Proof.
  destruct l as [s n a].
  unfold MS365CalendarSyncCoordinator.loop_body, started, pending,
    all_day_unfinished, keep_first, start_instant, end_instant.
  rewrite !ltb_negb_leb.
  unfold MS365CalendarSyncCoordinator.is_started,
    MS365CalendarSyncCoordinator.is_finished, dt_util_utcnow, bind, ret, dt_ge.
  destruct (instant (MS365CalendarSyncCoordinator.to_datetime (get_start_date e))
            <=? wall_clock w) eqn:Hs,
           (instant (MS365CalendarSyncCoordinator.to_datetime (get_end_date e))
            <=? wall_clock w) eqn:Hf,
           (is_all_day e), s, n, a;
    repeat (progress (cbn -[MS365CalendarSyncCoordinator.to_datetime Z.leb];
                      rewrite ?Hs, ?Hf));
    reflexivity.
Qed.

(** The bucket slot after a run of the loop over [events]. *)
Lemma keep_first_find (slot : option Event) (bucket : Event -> bool)
    (e : Event) (events : list Event) :
  match keep_first slot (bucket e) e with
  | Some x => Some x
  | None => List.find bucket events
  end
  = match slot with
    | Some x => Some x
    | None => List.find bucket (e :: events)
    end.
Proof. destruct slot; simpl; [reflexivity|]. destruct (bucket e); reflexivity. Qed.

Lemma for_event_in_run (events : list Event)
    (l : MS365CalendarSyncCoordinator.Locals) (w : World) :
  MS365CalendarSyncCoordinator.for_event_in events l w
  = (Ok (MS365CalendarSyncCoordinator.mkLocals
           match MS365CalendarSyncCoordinator.started_event l with
           | Some x => Some x
           | None => List.find (started (wall_clock w)) events
           end
           match MS365CalendarSyncCoordinator.not_started_event l with
           | Some x => Some x
           | None => List.find (pending (wall_clock w)) events
           end
           match MS365CalendarSyncCoordinator.all_day_event l with
           | Some x => Some x
           | None => List.find (all_day_unfinished (wall_clock w)) events
           end), w).
Proof.
  revert l. induction events as [|e events IH]; intros l.
  - destruct l as [[s|] [n|] [a|]]; reflexivity.
  - cbn [MS365CalendarSyncCoordinator.for_event_in]. unfold bind.
    rewrite loop_body_run, IH.
    cbn [MS365CalendarSyncCoordinator.started_event
         MS365CalendarSyncCoordinator.not_started_event
         MS365CalendarSyncCoordinator.all_day_event].
    rewrite !keep_first_find. reflexivity.
Qed.

(** [get_current_event] on a synced coordinator: a pure selection over
    the candidates, with no effect on the world. *)
Lemma get_current_event_as_coded (w : World) (tl : Timeline) :
  data (coordinator w) = Some tl ->
  MS365CalendarSyncCoordinator.get_current_event w
  = (Ok (select_as_coded (wall_clock w) (candidates w tl)), w).
Proof.
  intros Hdata.
  unfold MS365CalendarSyncCoordinator.get_current_event, bind, get_coordinator.
  rewrite Hdata. unfold dt_util_utcnow.
  fold (candidates w tl). rewrite for_event_in_run.
  unfold select_as_coded, ret.
  cbn [MS365CalendarSyncCoordinator.started_event
       MS365CalendarSyncCoordinator.not_started_event
       MS365CalendarSyncCoordinator.all_day_event].
  destruct (List.find (started (wall_clock w)) (candidates w tl)); [reflexivity|].
  destruct (List.find (all_day_unfinished (wall_clock w)) (candidates w tl));
    [reflexivity|].
  destruct (List.find (pending (wall_clock w)) (candidates w tl)); reflexivity.
Qed.

(** Without data the coordinator resolves nothing and resets its own
    [event] attribute. *)
Lemma get_current_event_no_data (w : World) :
  data (coordinator w) = None ->
  fst (MS365CalendarSyncCoordinator.get_current_event w) = Ok None
  /\ entity (snd (MS365CalendarSyncCoordinator.get_current_event w)) = entity w.
Proof.
  intros Hdata.
  unfold MS365CalendarSyncCoordinator.get_current_event, bind, get_coordinator.
  rewrite Hdata. split; reflexivity.
Qed.

Lemma find_agree (f g : Event -> bool) (l : list Event) :
  Forall (fun e => f e = g e) l -> List.find f l = List.find g l.
Proof.
  induction 1 as [|e l He _ IH]; [reflexivity|].
  simpl. rewrite He, IH. reflexivity.
Qed.

Lemma find_In (f : Event -> bool) (l : list Event) (e : Event) :
  List.find f l = Some e -> In e l.
Proof. intros Hf. apply find_some in Hf. tauto. Qed.

Lemma pending_not_started (t : Z) (e : Event) :
  (is_all_day e = false -> start_instant e <= end_instant e) ->
  pending t e = not_started t e.
Proof.
  intros Hle. unfold pending, not_started.
  destruct (is_all_day e); simpl; [reflexivity|].
  specialize (Hle eq_refl).
  destruct (Z.ltb_spec t (end_instant e)), (Z.ltb_spec t (start_instant e));
    simpl; auto; lia.
Qed.

(** C1. On a synced timeline whose timed events satisfy the invariant
    [start <= end], every candidate falls in at most one of the buckets
    started ([start <= now < end], not all-day), all-day-unfinished
    (all-day, [now < end]) and not-started ([now < start], not all-day);
    [get_current_event] returns the first started candidate in
    iteration order if there is one, otherwise the first
    all-day-unfinished one, otherwise the first not-started one, and
    nothing when the three buckets are empty. *)
Theorem get_current_event_priority (w : World) (tl : Timeline) :
  data (coordinator w) = Some tl ->
  Forall (fun e => is_all_day e = false -> start_instant e <= end_instant e)
    (candidates w tl) ->
  (forall e,
      (started (wall_clock w) e = true ->
       all_day_unfinished (wall_clock w) e = false
       /\ not_started (wall_clock w) e = false)
      /\ (all_day_unfinished (wall_clock w) e = true ->
          not_started (wall_clock w) e = false))
  /\ MS365CalendarSyncCoordinator.get_current_event w
     = (Ok (select_by_priority (wall_clock w) (candidates w tl)), w).
Proof.
  intros Hdata Hinv. split.
  - intros e. unfold started, all_day_unfinished, not_started.
    destruct (is_all_day e); simpl; split; try discriminate; auto.
    intros Hs. split; [reflexivity|].
    destruct (Z.leb_spec (start_instant e) (wall_clock w)); simpl in Hs;
      [|discriminate].
    apply Z.ltb_ge. assumption.
  - rewrite (get_current_event_as_coded w tl Hdata).
    unfold select_as_coded, select_by_priority.
    rewrite (find_agree (pending (wall_clock w)) (not_started (wall_clock w))).
    + reflexivity.
    + revert Hinv. apply List.Forall_impl.
      intros e He. apply pending_not_started. exact He.
Qed.

(** C3, as the code has it. The candidates of [get_current_event] are
    exactly the events overlapping the 24 hours that begin at the
    current instant, [[now, now + 24h)]: the result is the selection
    over that list and, when there is one, a member of it. *)
Theorem get_current_event_window (w : World) (tl : Timeline) :
  data (coordinator w) = Some tl ->
  let t := mk_datetime (wall_clock w) 0 in
  let events := items (overlapping tl t (dt_add t (timedelta_days 1))) in
  MS365CalendarSyncCoordinator.get_current_event w
  = (Ok (select_as_coded (wall_clock w) events), w)
  /\ (forall e, select_as_coded (wall_clock w) events = Some e -> In e events)
  /\ instant (dt_add t (timedelta_days 1)) = wall_clock w + 24 * 3600 * 1000000.
Proof.
  intros Hdata t events. split; [|split].
  - exact (get_current_event_as_coded w tl Hdata).
  - intros e. unfold select_as_coded.
    destruct (List.find (started (wall_clock w)) events) eqn:H1.
    { intros [= <-]. eapply find_In; eauto. }
    destruct (List.find (all_day_unfinished (wall_clock w)) events) eqn:H2.
    { intros [= <-]. eapply find_In; eauto. }
    intros H3. eapply find_In; eauto.
  - reflexivity.
Qed.

(** *** Range queries *)

(** A sum on an aware datetime has the wall-clock reading of the
    datetime plus the timedelta; its instant is displaced from the
    instant plus the timedelta by the change of the offset. *)
Lemma dt_add_wall_reading (offset_at : Z -> Z) (d : datetime) (td : Z) :
  instant (dt_add_wall offset_at d td) + utcoffset (dt_add_wall offset_at d td)
  = instant d + utcoffset d + td.
Proof. unfold dt_add_wall. cbn [instant utcoffset]. lia. Qed.


(** With one offset at every reading the sum is [dt_add]. *)
Lemma dt_add_wall_fixed_offset (d : datetime) (td : Z) :
  dt_add_wall (fun _ => utcoffset d) d td = dt_add d td.
Proof. unfold dt_add_wall, dt_add. f_equal. lia. Qed.

(** The guard of [async_get_events], on the instants of its two
    bounds. *)
Lemma async_get_events_guard (w : World) (tl : Timeline)
    (start_date end_date : datetime) :
  data (coordinator w) = Some tl ->
  MS365CalendarSyncCoordinator.async_get_events start_date end_date w
  = if (instant end_date <? sync_start_time w)
       || (sync_end_time w <? instant start_date)
    then MS365CalendarSyncCoordinator.async_list_events start_date end_date w
    else (Ok (overlapping tl start_date end_date), w).
Proof.
  intros Hdata.
  unfold MS365CalendarSyncCoordinator.async_get_events, bind, get_coordinator.
  rewrite Hdata.
  unfold dt_util_now, dt_lt, dt_gt, sync_start_time, sync_end_time, local_now, ret.
  cbv beta iota.
  match goal with |- context [if ?c then _ else _] => destruct c end; reflexivity.
Qed.

(** A range that meets the synchronized window is answered from the
    cached timeline; the world is left as it was. *)
Lemma async_get_events_cached (w : World) (tl : Timeline)
    (start_date end_date : datetime) :
  data (coordinator w) = Some tl ->
  sync_start_time w <= instant end_date ->
  instant start_date <= sync_end_time w ->
  MS365CalendarSyncCoordinator.async_get_events start_date end_date w
  = (Ok (overlapping tl start_date end_date), w).
Proof.
  intros Hdata Hlo Hhi.
  rewrite (async_get_events_guard w tl start_date end_date Hdata).
  destruct (Z.ltb_spec (instant end_date) (sync_start_time w)); [lia|].
  destruct (Z.ltb_spec (sync_end_time w) (instant start_date)); [lia|].
  reflexivity.
Qed.



(** C5. A range query that arrives while the coordinator has no data
    raises the not-ready error; nothing is fetched and nothing changes.
    An empty result is a different outcome, [Ok] of an empty
    iterable. *)
Theorem async_get_events_not_ready (w : World) (start_date end_date : datetime) :
  data (coordinator w) = None ->
  MS365CalendarSyncCoordinator.async_get_events start_date end_date w
  = (Raise (HomeAssistantError
              "Unable to get events: Sync from server has not completed"), w)
  /\ (forall events : iterable Event,
        fst (MS365CalendarSyncCoordinator.async_get_events start_date end_date w)
        <> Ok events).
Proof.
  intros Hdata.
  unfold MS365CalendarSyncCoordinator.async_get_events, bind, get_coordinator.
  rewrite Hdata. split; [reflexivity|]. intros events. discriminate.
Qed.

(** *** Refresh *)

(** C4. When [sync.run()] raises, [_async_update_data] raises
    [UpdateFailed] with the error as its cause; the coordinator object,
    with [data] and [_upcoming_timeline], is what it was, so the cached
    timeline still answers [get_current_event] and the range queries it
    answered before. *)
Theorem async_update_data_failure (w : World) (err : PyExc) (st : Store) :
  sync_run (store w) = (Raise err, st) ->
  let w' := snd (MS365CalendarSyncCoordinator._async_update_data w) in
  fst (MS365CalendarSyncCoordinator._async_update_data w)
  = Raise (UpdateFailed ("Error communicating with API: " +:+ str_exc err) err)
  /\ coordinator w' = coordinator w
  /\ data (coordinator w') = data (coordinator w)
  /\ _upcoming_timeline (coordinator w') = _upcoming_timeline (coordinator w)
  /\ fst (MS365CalendarSyncCoordinator.get_current_event w')
     = fst (MS365CalendarSyncCoordinator.get_current_event w)
  /\ (forall tl start_date end_date,
        data (coordinator w) = Some tl ->
        sync_start_time w <= instant end_date ->
        instant start_date <= sync_end_time w ->
        fst (MS365CalendarSyncCoordinator.async_get_events start_date end_date w')
        = Ok (overlapping tl start_date end_date)).
Proof.
  intros Hrun w'.
  assert (Hw' : MS365CalendarSyncCoordinator._async_update_data w
                = (Raise (UpdateFailed
                            ("Error communicating with API: " +:+ str_exc err) err),
                   mkWorld (coordinator w) (entity w) st (wall_clock w)
                     (log w ++ [mkLog DEBUG "Started fetching %s data"
                                  [ArgStr (name (coordinator w))]])
                     (fetches w))).
  { unfold MS365CalendarSyncCoordinator._async_update_data, bind, get_coordinator,
      emit, try_except, put_store, lift, raise.
    cbn [store coordinator entity wall_clock log fetches].
    rewrite Hrun. reflexivity. }
  subst w'. rewrite Hw'. cbn [fst snd coordinator].
  repeat split.
  - destruct (data (coordinator w)) as [tl|] eqn:Hdata.
    + rewrite !(get_current_event_as_coded _ tl) by exact Hdata. reflexivity.
    + unfold MS365CalendarSyncCoordinator.get_current_event, bind, get_coordinator.
      cbn [coordinator]. rewrite Hdata. reflexivity.
  - intros tl start_date end_date Hdata Hlo Hhi.
    rewrite (async_get_events_cached _ tl); try assumption. reflexivity.
Qed.
End CoordinatorProperties.

Section EntityProperties.
Context `{Collaborators}.

(** *** The exclusion filter *)

Lemma for_exclude_in_spec (excludes : list Pattern) (event : Event)
    (include : bool) :
  MS365CalendarEntity.for_exclude_in excludes event include
  = include && negb (existsb (fun p => re_search p (subject event)) excludes).
Proof.
  unfold MS365CalendarEntity.for_exclude_in.
  revert include. induction excludes as [|p excludes IH]; intros include; simpl.
  - destruct include; reflexivity.
  - rewrite IH. destruct (re_search p (subject event)), include; reflexivity.
Qed.

Lemma fold_left_append_if (keep : Event -> bool) (l acc : list Event) :
  fold_left (fun rtn e => if keep e then rtn ++ [e] else rtn) l acc
  = acc ++ List.filter keep l.
Proof.
  revert acc. induction l as [|e l IH]; intros acc; simpl.
  - rewrite app_nil_r. reflexivity.
  - rewrite IH. destruct (keep e); [|reflexivity].
    rewrite <- app_assoc. reflexivity.
Qed.

Lemma filter_all (f : Event -> bool) (l : list Event) :
  (forall e, f e = true) -> List.filter f l = l.
Proof.
  intros Hf. induction l as [|e l IH]; simpl; [reflexivity|].
  rewrite Hf, IH. reflexivity.
Qed.

(** [_filter_events] keeps, in order, the events that no configured
    pattern finds a match in, and reads nothing but the entity. *)
Lemma _filter_events_run (events : iterable Event) (w : World) :
  MS365CalendarEntity._filter_events events w
  = (Ok (List.filter (fun e => negb (excluded (entity w) e)) (items events)), w).
Proof.
  unfold MS365CalendarEntity._filter_events, bind, get_entity, ret.
  destruct (truthy_iterable events) eqn:Hev; simpl.
  - destruct (exclude (entity w)) as [[|p ps]|] eqn:Hex; simpl.
    + rewrite filter_all; [reflexivity|].
      intros e. unfold excluded, patterns. rewrite Hex. reflexivity.
    + rewrite fold_left_append_if. simpl. f_equal. f_equal.
      apply List.filter_ext. intros e.
      rewrite for_exclude_in_spec. unfold excluded, patterns. rewrite Hex.
      simpl. destruct (re_search p (subject e)); reflexivity.
    + rewrite filter_all; [reflexivity|].
      intros e. unfold excluded, patterns. rewrite Hex. reflexivity.
  - destruct events as [[|e l]|l]; try discriminate. reflexivity.
Qed.

(** *** Entity construction *)

Lemma logged_nil (w : World) : logged w [] = w.
Proof. destruct w. unfold logged. simpl. rewrite app_nil_r. reflexivity. Qed.


(** The loop through a prefix of recoverable events. *)
Lemma for_vevent_in_app (pre rest : list Event)
    (event_list : list HA.CalendarEvent) (w : World) :
  forallb recoverable pre = true ->
  MS365CalendarEntity.for_vevent_in (pre ++ rest) event_list w
  = MS365CalendarEntity.for_vevent_in rest (event_list ++ converted pre)
      (logged w (warnings pre)).
Proof.
  revert event_list w.
  induction pre as [|vevent pre IH]; intros event_list w Hrec.
  - simpl. rewrite app_nil_r, logged_nil. reflexivity.
  - simpl in Hrec. apply andb_true_iff in Hrec. destruct Hrec as [Hv Hpre].
    unfold recoverable in Hv.
    cbn [app MS365CalendarEntity.for_vevent_in].
    unfold bind at 1. unfold try_except, bind, lift, ret, emit.
    unfold converted, warnings. cbn [flat_map].
    fold (converted pre). fold (warnings pre).
    destruct (MS365CalendarEntity._create_calendar_event_entity vevent)
      as [event|err].
    + rewrite IH by exact Hpre. rewrite <- app_assoc. reflexivity.
    + rewrite Hv. rewrite IH by exact Hpre.
      rewrite app_nil_l. f_equal.
      unfold logged. cbn [coordinator entity store wall_clock log fetches].
      rewrite <- app_assoc. reflexivity.
Qed.

Lemma _create_calendar_event_entities_recoverable (results : list Event)
    (w : World) :
  forallb recoverable results = true ->
  MS365CalendarEntity._create_calendar_event_entities results w
  = (Ok (converted results), logged w (warnings results)).
Proof.
  intros Hrec. unfold MS365CalendarEntity._create_calendar_event_entities.
  rewrite <- (app_nil_r results) at 1.
  rewrite for_vevent_in_app by exact Hrec. reflexivity.
Qed.

(** C8, as the code has it. An event whose conversion raises an
    instance of [HomeAssistantError] is skipped with one warning, and
    the events that convert are returned in order; when every failure
    is of that kind the batch completes. A failure of another class,
    such as the [KeyError] of a [location] without [displayName], is
    not caught: it ends the batch, and no list is returned. *)
Theorem create_entities_skips (w : World) :
  (forall results,
      forallb recoverable results = true ->
      MS365CalendarEntity._create_calendar_event_entities results w
      = (Ok (converted results), logged w (warnings results)))
  /\ (forall pre vevent rest err,
        forallb recoverable pre = true ->
        MS365CalendarEntity._create_calendar_event_entity vevent = Raise err ->
        isinstance_HomeAssistantError err = false ->
        MS365CalendarEntity._create_calendar_event_entities
          (pre ++ vevent :: rest) w
        = (Raise err, logged w (warnings pre))).
Proof.
  split.
  - intros results. apply _create_calendar_event_entities_recoverable.
  - intros pre vevent rest err Hpre Hconv Hclass.
    unfold MS365CalendarEntity._create_calendar_event_entities.
    rewrite for_vevent_in_app by exact Hpre.
    cbn [MS365CalendarEntity.for_vevent_in].
    unfold bind, try_except, lift. rewrite Hconv, Hclass. reflexivity.
Qed.

(** *** The sort stage *)

Lemma insort_perm (x : datetime * Event) (l : list (datetime * Event)) :
  Permutation (MS365CalendarEntity.insort x l) (x :: l).
Proof.
  induction l as [|y l IH]; simpl.
  - apply Permutation_refl.
  - destruct (dt_lt (fst x) (fst y)).
    + apply Permutation_refl.
    + eapply perm_trans; [apply perm_skip, IH|]. apply perm_swap.
Qed.

Lemma Forall_insort (P : datetime * Event -> Prop) (x : datetime * Event)
    (l : list (datetime * Event)) :
  P x -> List.Forall P l -> List.Forall P (MS365CalendarEntity.insort x l).
Proof.
  intros Hx Hl. induction Hl as [|y l Hy Hl IH]; simpl.
  - constructor; [assumption|constructor].
  - destruct (dt_lt (fst x) (fst y)).
    + constructor; [assumption|]. constructor; assumption.
    + constructor; assumption.
Qed.

Lemma insort_sorted (x : datetime * Event) (l : list (datetime * Event)) :
  StronglySorted key_le l -> StronglySorted key_le (MS365CalendarEntity.insort x l).
Proof.
  induction 1 as [|y l Hsorted IH Hall]; simpl.
  - constructor; constructor.
  - unfold dt_lt. destruct (Z.ltb_spec (instant (fst x)) (instant (fst y))) as [Hlt|Hge].
    + constructor; [constructor; assumption|].
      constructor; [unfold key_le; lia|].
      revert Hall. apply List.Forall_impl. unfold key_le. intros; lia.
    + constructor; [exact IH|].
      apply Forall_insort; [unfold key_le; lia|exact Hall].
Qed.

Lemma filter_above (k : Z) (y : datetime * Event) (l : list (datetime * Event)) :
  k < instant (fst y) -> List.Forall (key_le y) l ->
  List.filter (has_key k) (y :: l) = [].
Proof.
  intros Hlt Hall. simpl. unfold has_key at 1.
  destruct (Z.eqb_spec (instant (fst y)) k); [lia|].
  induction Hall as [|z l Hz _ IH]; simpl; [reflexivity|].
  unfold has_key at 1. unfold key_le in Hz.
  destruct (Z.eqb_spec (instant (fst z)) k); [lia|]. exact IH.
Qed.

(** An inserted element lands behind the elements of its own key. *)
Lemma insort_stable (k : Z) (x : datetime * Event) (l : list (datetime * Event)) :
  StronglySorted key_le l ->
  List.filter (has_key k) (MS365CalendarEntity.insort x l)
  = List.filter (has_key k) l ++ List.filter (has_key k) [x].
Proof.
  induction 1 as [|y l Hsorted IH Hall].
  - simpl. reflexivity.
  - cbn [MS365CalendarEntity.insort]. unfold dt_lt.
    destruct (Z.ltb_spec (instant (fst x)) (instant (fst y))) as [Hlt|Hge].
    + change (x :: y :: l) with ([x] ++ (y :: l)). rewrite List.filter_app.
      destruct (Z.eqb_spec (instant (fst x)) k) as [Hk|Hk].
      * rewrite (filter_above k y l) by (assumption || lia).
        rewrite app_nil_r. reflexivity.
      * replace (List.filter (has_key k) [x]) with (@nil (datetime * Event)).
        { rewrite app_nil_r. reflexivity. }
        simpl. unfold has_key.
        destruct (Z.eqb_spec (instant (fst x)) k); [contradiction|reflexivity].
    + cbn [List.filter]. rewrite IH. cbn [List.filter].
      destruct (has_key k y); reflexivity.
Qed.

Lemma stable_sort_from (l acc : list (datetime * Event)) :
  StronglySorted key_le acc ->
  let sorted := fold_left (fun sorted x => MS365CalendarEntity.insort x sorted) l acc in
  StronglySorted key_le sorted
  /\ Permutation sorted (acc ++ l)
  /\ (forall k, List.filter (has_key k) sorted
                = List.filter (has_key k) acc ++ List.filter (has_key k) l).
Proof.
  revert acc. induction l as [|x l IH]; intros acc Hacc; cbn [fold_left].
  - repeat split.
    + exact Hacc.
    + rewrite app_nil_r. apply Permutation_refl.
    + intros k. simpl. rewrite app_nil_r. reflexivity.
  - destruct (IH (MS365CalendarEntity.insort x acc) (insort_sorted x acc Hacc))
      as (Hs & Hp & Hk).
    repeat split.
    + exact Hs.
    + eapply perm_trans; [exact Hp|].
      eapply perm_trans; [apply Permutation_app_tail, insort_perm|].
      simpl. apply Permutation_middle.
    + intros k. rewrite Hk, insort_stable by exact Hacc.
      rewrite <- app_assoc, <- List.filter_app. reflexivity.
Qed.

Lemma normalized_start_assign (e : Event) :
  normalized_start (MS365CalendarEntity.assign_start_sort e) = normalized_start e.
Proof.
  unfold normalized_start, MS365CalendarEntity.assign_start_sort.
  destruct (is_all_day e) eqn:He; simpl; rewrite ?He; reflexivity.
Qed.

Lemma start_sort_assign (e : Event) :
  start_sort (MS365CalendarEntity.assign_start_sort e) = Some (normalized_start e).
Proof.
  unfold normalized_start, MS365CalendarEntity.assign_start_sort.
  destruct (is_all_day e); reflexivity.
Qed.

(** Every event carries its key once the first loop has run, so the
    key function of the sort does not raise. *)
Lemma decorate_assigned (events : list Event) :
  MS365CalendarEntity.decorate (map MS365CalendarEntity.assign_start_sort events)
  = Ok (map (fun e => (normalized_start e, e))
          (map MS365CalendarEntity.assign_start_sort events)).
Proof.
  induction events as [|e events IH]; [reflexivity|].
  cbn [map MS365CalendarEntity.decorate].
  unfold MS365CalendarEntity.attrgetter_start_sort.
  rewrite start_sort_assign, IH, normalized_start_assign. reflexivity.
Qed.

Lemma undecorate_sorted (l : list (datetime * Event)) :
  StronglySorted key_le l -> List.Forall keyed_by_start l ->
  StronglySorted start_le (map snd l).
Proof.
  induction 1 as [|p l Hsorted IH Hall]; intros Hkeys; simpl.
  - constructor.
  - inversion Hkeys as [|? ? Hp Hl]; subst.
    constructor; [apply IH; exact Hl|].
    clear IH Hsorted Hkeys.
    induction Hall as [|q l Hq _ IHall]; simpl; [constructor|].
    inversion Hl as [|? ? Hq' Hl']; subst.
    constructor; [|apply IHall; exact Hl'].
    unfold start_le, key_le, keyed_by_start in *. rewrite <- Hp, <- Hq'. exact Hq.
Qed.

Lemma undecorate_filter (k : Z) (l : list (datetime * Event)) :
  List.Forall keyed_by_start l ->
  List.filter (sorts_at k) (map snd l) = map snd (List.filter (has_key k) l).
Proof.
  induction 1 as [|p l Hp _ IH]; simpl; [reflexivity|].
  unfold sorts_at at 1, has_key at 1. unfold keyed_by_start in Hp. rewrite <- Hp.
  destruct (instant (fst p) =? k); simpl; rewrite IH; reflexivity.
Qed.

Lemma keyed_decorated (l : list Event) :
  List.Forall keyed_by_start (map (fun e => (normalized_start e, e)) l).
Proof. induction l; simpl; constructor; [reflexivity|assumption]. Qed.

Lemma undecorate_decorated (l : list Event) :
  map snd (map (fun e => (normalized_start e, e)) l) = l.
Proof. induction l as [|e l IH]; simpl; [|rewrite IH]; reflexivity. Qed.

Lemma Forall_perm (P : datetime * Event -> Prop) (l l' : list (datetime * Event)) :
  Permutation l l' -> List.Forall P l' -> List.Forall P l.
Proof.
  induction 1 as [|x l l' _ IH|x y l|l l' l'' _ IH1 _ IH2]; intros Hall.
  - constructor.
  - inversion Hall; subst. constructor; auto.
  - inversion Hall as [|? ? Hy Hrest]; subst.
    inversion Hrest; subst. repeat constructor; assumption.
  - auto.
Qed.

(** C7. The sort stage returns the events, each with its [start_sort]
    attribute set, in ascending order of a key that is the event's
    [start], except that the key of an all-day event is the start of
    the local day of its [start], converted to UTC; events with equal
    keys keep their order. *)
Theorem sort_events_ascending (events : list Event) (w : World) :
  exists sorted,
    MS365CalendarEntity._sort_events events w = (Ok sorted, w)
    /\ Permutation sorted (map MS365CalendarEntity.assign_start_sort events)
    /\ StronglySorted start_le sorted
    /\ (forall e, In e sorted -> start_sort e = Some (normalized_start e))
    /\ (forall k, List.filter (sorts_at k) sorted
                  = List.filter (sorts_at k)
                      (map MS365CalendarEntity.assign_start_sort events))
    /\ (forall e,
          normalized_start e
          = if is_all_day e
            then mk_datetime
                   (instant (start_of_local_day (Datetime (O365.start e)))) 0
            else O365.start e).
Proof.
  set (evs := map MS365CalendarEntity.assign_start_sort events).
  set (keyed := map (fun e => (normalized_start e, e)) evs).
  destruct (stable_sort_from keyed [] (SSorted_nil _)) as (Hs & Hp & Hk).
  fold (MS365CalendarEntity.stable_sort keyed) in Hs, Hp, Hk.
  simpl in Hp.
  assert (Hkeys : List.Forall keyed_by_start (MS365CalendarEntity.stable_sort keyed)).
  { eapply Forall_perm; [exact Hp|]. apply keyed_decorated. }
  exists (map snd (MS365CalendarEntity.stable_sort keyed)).
  split; [|split; [|split; [|split; [|split]]]].
  - unfold MS365CalendarEntity._sort_events, lift,
      MS365CalendarEntity.list_sort_by_start_sort.
    fold evs. unfold evs at 1. rewrite decorate_assigned. reflexivity.
  - rewrite <- (undecorate_decorated evs). fold keyed.
    apply Permutation_map. exact Hp.
  - apply undecorate_sorted; assumption.
  - intros e He.
    assert (Hin : In e evs).
    { rewrite <- (undecorate_decorated evs). fold keyed.
      eapply Permutation_in; [apply Permutation_map; exact Hp|exact He]. }
    unfold evs in Hin. apply in_map_iff in Hin. destruct Hin as (e0 & <- & _).
    rewrite start_sort_assign, normalized_start_assign. reflexivity.
  - intros k. rewrite undecorate_filter by exact Hkeys.
    rewrite Hk. simpl.
    rewrite <- undecorate_filter by apply keyed_decorated.
    unfold keyed. rewrite undecorate_decorated. reflexivity.
  - intros e. unfold normalized_start, as_utc. destruct (is_all_day e); reflexivity.
Qed.

(** *** Publishing the current event *)

(** Resolving the current event does not touch the entity, and a
    resolved event leaves the whole world as it was. *)
Lemma get_current_event_entity (w : World) :
  entity (snd (MS365CalendarSyncCoordinator.get_current_event w)) = entity w.
Proof.
  destruct (data (coordinator w)) as [tl|] eqn:Hdata.
  - rewrite (get_current_event_as_coded w tl Hdata). reflexivity.
  - apply get_current_event_no_data. exact Hdata.
Qed.

Lemma get_current_event_some (w : World) (vevent : Event) :
  fst (MS365CalendarSyncCoordinator.get_current_event w) = Ok (Some vevent) ->
  MS365CalendarSyncCoordinator.get_current_event w = (Ok (Some vevent), w).
Proof.
  destruct (data (coordinator w)) as [tl|] eqn:Hdata.
  - rewrite (get_current_event_as_coded w tl Hdata). simpl.
    intros Hsel. rewrite Hsel. reflexivity.
  - destruct (get_current_event_no_data w Hdata) as [Hnone _].
    rewrite Hnone. discriminate.
Qed.

(** C9. When the coordinator resolves no current event,
    [_get_current_event] returns without assigning [self._event] or
    [self._offset_reached]: the entity is what it was, and the [event]
    property still shows the event published before. *)
Theorem entity_keeps_event (w : World) :
  fst (MS365CalendarSyncCoordinator.get_current_event w) = Ok None ->
  let w' := snd (MS365CalendarEntity._get_current_event w) in
  fst (MS365CalendarEntity._get_current_event w) = Ok tt
  /\ _event (entity w') = _event (entity w)
  /\ _offset_reached (entity w') = _offset_reached (entity w)
  /\ MS365CalendarEntity.event_property (entity w')
     = MS365CalendarEntity.event_property (entity w).
Proof.
  intros Hnone w'. subst w'.
  pose proof (get_current_event_entity w) as Hent.
  unfold MS365CalendarEntity._get_current_event, bind.
  destruct (MS365CalendarSyncCoordinator.get_current_event w) as [r w1].
  simpl in Hnone, Hent. subst r.
  unfold get_entity, emit, ret, MS365CalendarEntity.event_property. simpl.
  rewrite Hent. repeat split.
Qed.

(** C10. When the conversion of the resolved event raises a
    [HomeAssistantError], the handler binds nothing to the local
    [event], and reading it for [deepcopy] raises [UnboundLocalError]:
    [_get_current_event] does not return, and [self._event] and
    [self._offset_reached] keep their values. *)
Theorem entity_event_unbound (w : World) (vevent : Event) (err : PyExc) :
  fst (MS365CalendarSyncCoordinator.get_current_event w) = Ok (Some vevent) ->
  MS365CalendarEntity._create_calendar_event_entity vevent = Raise err ->
  isinstance_HomeAssistantError err = true ->
  let w' := snd (MS365CalendarEntity._get_current_event w) in
  fst (MS365CalendarEntity._get_current_event w) = Raise (UnboundLocalError "event")
  /\ _event (entity w') = _event (entity w)
  /\ _offset_reached (entity w') = _offset_reached (entity w)
  /\ _error (entity w') = Some true.
Proof.
  intros Hsome Hconv Hclass w'. subst w'.
  unfold MS365CalendarEntity._get_current_event, bind.
  rewrite (get_current_event_some w vevent Hsome).
  unfold try_except, bind, lift. rewrite Hconv, Hclass.
  unfold get_entity, emit, put_entity, ret, raise.
  destruct (_error (entity w)) as [[|]|] eqn:Herr; simpl; rewrite ?Herr;
    repeat split.
Qed.
End EntityProperties.

(** * Further properties of the coordinator *)

Section CoordinatorFrame.
Context `{Collaborators}.

Lemma select_as_coded_unfinished (t : Z) (events : list Event) (e : Event) :
  select_as_coded t events = Some e -> In e events /\ t < end_instant e.
Proof.
  unfold select_as_coded.
  destruct (List.find (started t) events) as [x|] eqn:H1.
  { intros [= <-]. apply find_some in H1. destruct H1 as [Hin Hb]. split; [exact Hin|].
    unfold started in Hb. apply andb_true_iff in Hb. destruct Hb as [_ Hb].
    apply Z.ltb_lt. exact Hb. }
  destruct (List.find (all_day_unfinished t) events) as [x|] eqn:H2.
  { intros [= <-]. apply find_some in H2. destruct H2 as [Hin Hb]. split; [exact Hin|].
    unfold all_day_unfinished in Hb. apply andb_true_iff in Hb. destruct Hb as [_ Hb].
    apply Z.ltb_lt. exact Hb. }
  intros H3. apply find_some in H3. destruct H3 as [Hin Hb]. split; [exact Hin|].
  unfold pending in Hb. apply andb_true_iff in Hb. destruct Hb as [Hb _].
  apply andb_true_iff in Hb. destruct Hb as [_ Hb].
  apply Z.ltb_lt. exact Hb.
Qed.

(** X1. Whatever the events look like, the event that
    [get_current_event] returns has not finished at the time of the
    call, and it is one of the events of the cached timeline that overlap
    the next 24 hours. *)
Theorem get_current_event_unfinished (w : World) (e : Event) :
  fst (MS365CalendarSyncCoordinator.get_current_event w) = Ok (Some e) ->
  wall_clock w < end_instant e
  /\ exists tl, data (coordinator w) = Some tl /\ In e (candidates w tl).
Proof.
  intros Hsome.
  destruct (data (coordinator w)) as [tl|] eqn:Hdata.
  - rewrite (get_current_event_as_coded w tl Hdata) in Hsome. simpl in Hsome.
    injection Hsome as Hsel.
    destruct (select_as_coded_unfinished _ _ _ Hsel) as [Hin Hend].
    split; [exact Hend|]. exists tl. split; [reflexivity|exact Hin].
  - destruct (get_current_event_no_data w Hdata) as [Hnone _].
    rewrite Hnone in Hsome. discriminate.
Qed.

(** X2. [get_current_event] never fetches, never touches the sync
    manager's store, the entity or the cached timeline; the only
    attribute it may write is the coordinator's own [event], which it
    resets when there is no data. Asking again gives the same answer. *)
Theorem get_current_event_frame (w : World) :
  let w' := snd (MS365CalendarSyncCoordinator.get_current_event w) in
  data (coordinator w') = data (coordinator w)
  /\ _upcoming_timeline (coordinator w') = _upcoming_timeline (coordinator w)
  /\ event (coordinator w')
     = match data (coordinator w) with
       | Some _ => event (coordinator w)
       | None => None
       end
  /\ entity w' = entity w
  /\ store w' = store w
  /\ fetches w' = fetches w
  /\ fst (MS365CalendarSyncCoordinator.get_current_event w')
     = fst (MS365CalendarSyncCoordinator.get_current_event w).
Proof.
  intros w'. subst w'.
  destruct (data (coordinator w)) as [tl|] eqn:Hdata.
  - rewrite (get_current_event_as_coded w tl Hdata). cbn [snd fst].
    rewrite (get_current_event_as_coded w tl Hdata), Hdata. repeat split.
  - unfold MS365CalendarSyncCoordinator.get_current_event, bind, get_coordinator.
    rewrite Hdata. cbn. rewrite Hdata. repeat split.
Qed.

(** X3. When [sync.run()] succeeds, [_async_update_data] returns the
    timeline read back from the store as the run left it and keeps it as
    [_upcoming_timeline]. It does not assign [data] itself, and it fetches
    nothing through [async_list_events]. *)
Theorem async_update_data_success (w : World) (st : Store) :
  sync_run (store w) = (Ok tt, st) ->
  let w' := snd (MS365CalendarSyncCoordinator._async_update_data w) in
  fst (MS365CalendarSyncCoordinator._async_update_data w)
  = Ok (store_async_get_timeline st)
  /\ _upcoming_timeline (coordinator w') = Some (store_async_get_timeline st)
  /\ data (coordinator w') = data (coordinator w)
  /\ event (coordinator w') = event (coordinator w)
  /\ store w' = st
  /\ entity w' = entity w
  /\ fetches w' = fetches w.
Proof.
  intros Hrun w'. subst w'.
  unfold MS365CalendarSyncCoordinator._async_update_data, bind, get_coordinator,
    emit, try_except, put_store, lift, put_coordinator, ret.
  cbn [store coordinator entity wall_clock log fetches].
  rewrite Hrun. cbn. repeat split.
Qed.

(** [to_datetime] always answers in UTC; on a datetime it keeps the
    instant, and applying it to its own result changes nothing. *)
Lemma to_datetime_utc (obj : date_or_datetime) :
  utcoffset (MS365CalendarSyncCoordinator.to_datetime obj) = 0
  /\ MS365CalendarSyncCoordinator.to_datetime
       (Datetime (MS365CalendarSyncCoordinator.to_datetime obj))
     = MS365CalendarSyncCoordinator.to_datetime obj
  /\ (forall d, obj = Datetime d ->
        instant (MS365CalendarSyncCoordinator.to_datetime obj) = instant d)
  /\ (forall n, obj = Date n ->
        instant (MS365CalendarSyncCoordinator.to_datetime obj)
        = instant (start_of_local_day (Date n))).
Proof.
  unfold MS365CalendarSyncCoordinator.to_datetime, as_utc.
  repeat split.
  - intros d ->. reflexivity.
  - intros n ->. reflexivity.
Qed.
End CoordinatorFrame.

(** * Further properties of the entity pipeline *)

Section PipelineProperties.
Context `{Collaborators}.

(** *** The exclusion filter *)

(** X4. Without exclusion patterns, [exclude] being [None] or an empty
    list, the filter returns the events as they came. *)
Theorem filter_events_no_patterns (events : iterable Event) (w : World) :
  truthy_list (exclude (entity w)) = false ->
  MS365CalendarEntity._filter_events events w = (Ok (items events), w).
Proof.
  intros Hex. rewrite _filter_events_run.
  rewrite filter_all; [reflexivity|].
  intros e. unfold excluded, patterns.
  destruct (exclude (entity w)) as [[|p ps]|]; try discriminate; reflexivity.
Qed.

Lemma filter_filter_same (f : Event -> bool) (l : list Event) :
  List.filter f (List.filter f l) = List.filter f l.
Proof.
  induction l as [|e l IH]; simpl; [reflexivity|].
  destruct (f e) eqn:He; simpl; rewrite ?He, IH; reflexivity.
Qed.

Lemma filter_length_le (f : Event -> bool) (l : list Event) :
  (length (List.filter f l) <= length l)%nat.
Proof.
  induction l as [|e l IH]; simpl; [lia|]. destruct (f e); simpl; lia.
Qed.

(** X5. Filtering is idempotent: what the filter returns passes the
    filter unchanged, whether it is handed back as a list or as an
    iterator; and the filter never returns more events than it was
    given. *)
Theorem filter_events_idempotent (events : iterable Event) (w : World) :
  exists kept,
    MS365CalendarEntity._filter_events events w = (Ok kept, w)
    /\ MS365CalendarEntity._filter_events (PyList kept) w = (Ok kept, w)
    /\ MS365CalendarEntity._filter_events (PyIter kept) w = (Ok kept, w)
    /\ (length kept <= length (items events))%nat.
Proof.
  exists (List.filter (fun e => negb (excluded (entity w) e)) (items events)).
  rewrite !_filter_events_run. cbn [items].
  rewrite filter_filter_same. repeat split. apply filter_length_le.
Qed.

Lemma existsb_perm (f : Pattern -> bool) (l l' : list Pattern) :
  Permutation l l' -> existsb f l = existsb f l'.
Proof.
  induction 1 as [|x l l' _ IH|x y l|l l' l'' _ IH1 _ IH2]; simpl.
  - reflexivity.
  - rewrite IH. reflexivity.
  - destruct (f x), (f y); reflexivity.
  - congruence.
Qed.

(** X6. The outcome of the filter depends neither on the order in which
    the patterns are configured nor on whether the events arrive as a
    list or as an iterator. *)
Theorem filter_events_pattern_order (l : list Event) (w w' : World) :
  Permutation (patterns (entity w)) (patterns (entity w')) ->
  fst (MS365CalendarEntity._filter_events (PyList l) w)
  = fst (MS365CalendarEntity._filter_events (PyIter l) w')
  /\ fst (MS365CalendarEntity._filter_events (PyList l) w)
     = fst (MS365CalendarEntity._filter_events (PyList l) w').
Proof.
  intros Hperm. rewrite !_filter_events_run. cbn [fst items].
  assert (Hsame : List.filter (fun e => negb (excluded (entity w) e)) l
                  = List.filter (fun e => negb (excluded (entity w') e)) l).
  { apply List.filter_ext. intros e. unfold excluded.
    rewrite (existsb_perm _ _ _ Hperm). reflexivity. }
  rewrite Hsame. split; reflexivity.
Qed.

(** *** The sort stage *)

Lemma assign_start_sort_twice (e : Event) :
  MS365CalendarEntity.assign_start_sort (MS365CalendarEntity.assign_start_sort e)
  = MS365CalendarEntity.assign_start_sort e.
Proof.
  unfold MS365CalendarEntity.assign_start_sort.
  destruct (is_all_day e) eqn:He; cbn; rewrite ?He; reflexivity.
Qed.

Lemma _sort_events_run (events : list Event) (w : World) :
  MS365CalendarEntity._sort_events events w
  = (Ok (map snd
           (MS365CalendarEntity.stable_sort
              (map (fun e => (normalized_start e, e))
                 (map MS365CalendarEntity.assign_start_sort events)))), w).
Proof.
  unfold MS365CalendarEntity._sort_events, lift,
    MS365CalendarEntity.list_sort_by_start_sort.
  rewrite decorate_assigned. reflexivity.
Qed.

Lemma sorted_app_before (a : list (datetime * Event)) (x : datetime * Event)
    (l : list (datetime * Event)) :
  StronglySorted key_le (a ++ x :: l) -> List.Forall (fun y => key_le y x) a.
Proof.
  induction a as [|y a IH]; simpl; intros Hs; [constructor|].
  inversion Hs as [|? ? Hrest Hall]; subst.
  constructor; [|apply IH; exact Hrest].
  clear IH Hs Hrest. induction a as [|z a IHa]; simpl in Hall.
  - inversion Hall; assumption.
  - inversion Hall; subst. apply IHa. assumption.
Qed.

Lemma insort_last (x : datetime * Event) (a : list (datetime * Event)) :
  List.Forall (fun y => key_le y x) a ->
  MS365CalendarEntity.insort x a = a ++ [x].
Proof.
  induction 1 as [|y a Hy _ IH]; simpl; [reflexivity|].
  unfold dt_lt, key_le in *.
  destruct (Z.ltb_spec (instant (fst x)) (instant (fst y))); [lia|].
  rewrite IH. reflexivity.
Qed.

Lemma stable_sort_sorted_from (l a : list (datetime * Event)) :
  StronglySorted key_le (a ++ l) ->
  fold_left (fun sorted x => MS365CalendarEntity.insort x sorted) l a = a ++ l.
Proof.
  revert a. induction l as [|x l IH]; intros a Hs; cbn [fold_left].
  - rewrite app_nil_r. reflexivity.
  - rewrite (insort_last x a) by (eapply sorted_app_before; exact Hs).
    rewrite IH.
    + rewrite <- app_assoc. reflexivity.
    + rewrite <- app_assoc. exact Hs.
Qed.

Lemma decorate_sorted (l : list Event) :
  StronglySorted start_le l ->
  StronglySorted key_le (map (fun e => (normalized_start e, e)) l).
Proof.
  induction 1 as [|e l _ IH Hall]; simpl; constructor; [exact IH|].
  clear IH. induction Hall as [|x l Hx _ IHall]; simpl; constructor; assumption.
Qed.

Lemma assigned_sorted (l : list Event) :
  StronglySorted start_le l ->
  StronglySorted start_le (map MS365CalendarEntity.assign_start_sort l).
Proof.
  induction 1 as [|e l _ IH Hall]; simpl; constructor; [exact IH|].
  clear IH. induction Hall as [|x l Hx _ IHall]; simpl; constructor; [|assumption].
  unfold start_le in *. rewrite !normalized_start_assign. exact Hx.
Qed.

Lemma _sort_events_of_sorted (events : list Event) (w : World) :
  StronglySorted start_le events ->
  MS365CalendarEntity._sort_events events w
  = (Ok (map MS365CalendarEntity.assign_start_sort events), w).
Proof.
  intros Hs. rewrite _sort_events_run.
  unfold MS365CalendarEntity.stable_sort.
  rewrite stable_sort_sorted_from.
  - cbn [app]. rewrite undecorate_decorated. reflexivity.
  - cbn [app]. apply decorate_sorted, assigned_sorted, Hs.
Qed.

(** X7. Events that already come in ascending order of their key leave
    the sort stage in the same order; the stage only sets their
    [start_sort] attribute. *)
Theorem sort_events_keeps_sorted (events : list Event) (w : World) :
  StronglySorted start_le events ->
  MS365CalendarEntity._sort_events events w
  = (Ok (map MS365CalendarEntity.assign_start_sort events), w)
  /\ map normalized_start (map MS365CalendarEntity.assign_start_sort events)
     = map normalized_start events.
Proof.
  intros Hs. split; [apply _sort_events_of_sorted; exact Hs|].
  rewrite map_map. apply map_ext. intros e. apply normalized_start_assign.
Qed.

Lemma sort_events_outcome (events : list Event) :
  let sorted :=
    map snd
      (MS365CalendarEntity.stable_sort
         (map (fun e => (normalized_start e, e))
            (map MS365CalendarEntity.assign_start_sort events))) in
  Permutation sorted (map MS365CalendarEntity.assign_start_sort events)
  /\ StronglySorted start_le sorted.
Proof.
  intros sorted. subst sorted.
  set (evs := map MS365CalendarEntity.assign_start_sort events).
  set (keyed := map (fun e => (normalized_start e, e)) evs).
  destruct (stable_sort_from keyed [] (SSorted_nil _)) as (Hs & Hp & _).
  fold (MS365CalendarEntity.stable_sort keyed) in Hs, Hp. simpl in Hp.
  split.
  - rewrite <- (undecorate_decorated evs). fold keyed.
    apply Permutation_map. exact Hp.
  - apply undecorate_sorted; [exact Hs|].
    eapply Forall_perm; [exact Hp|]. apply keyed_decorated.
Qed.

(** X8. Sorting is idempotent and keeps the number of events: the list
    that the sort stage returns passes the stage unchanged. *)
Theorem sort_events_idempotent (events : list Event) (w : World) :
  exists sorted,
    MS365CalendarEntity._sort_events events w = (Ok sorted, w)
    /\ MS365CalendarEntity._sort_events sorted w = (Ok sorted, w)
    /\ length sorted = length events.
Proof.
  destruct (sort_events_outcome events) as [Hperm Hsorted].
  eexists. split; [apply _sort_events_run|]. split.
  - rewrite (_sort_events_of_sorted _ w Hsorted). f_equal. f_equal.
    rewrite <- (map_id
      (map snd
         (MS365CalendarEntity.stable_sort
            (map (fun e => (normalized_start e, e))
               (map MS365CalendarEntity.assign_start_sort events))))) at 2.
    apply map_ext_in. intros e He.
    apply (Permutation_in _ Hperm) in He. apply in_map_iff in He.
    destruct He as (e0 & <- & _). apply assign_start_sort_twice.
  - rewrite (Permutation_length Hperm). apply length_map.
Qed.
End PipelineProperties.

(** * Further properties of entity construction and publication *)

Section ConstructionProperties.
Context `{Collaborators}.

Lemma converted_warnings_length (results : list Event) :
  (length (converted results) + length (warnings results) = length results)%nat.
Proof.
  induction results as [|v results IH]; [reflexivity|].
  unfold converted, warnings in *. cbn [flat_map].
  rewrite !length_app.
  destruct (MS365CalendarEntity._create_calendar_event_entity v); simpl; lia.
Qed.

(** X10. When every failure is a [HomeAssistantError], the batch accounts
    for each event exactly once: the number of entities returned plus the
    number of warnings added to the log is the number of events given. *)
Theorem create_entities_accounting (results : list Event) (w : World) :
  forallb recoverable results = true ->
  exists event_list w',
    MS365CalendarEntity._create_calendar_event_entities results w
    = (Ok event_list, w')
    /\ (length event_list + (length (log w') - length (log w)) = length results)%nat
    /\ coordinator w' = coordinator w /\ entity w' = entity w
    /\ fetches w' = fetches w.
Proof.
  intros Hrec. exists (converted results), (logged w (warnings results)).
  split; [apply _create_calendar_event_entities_recoverable; exact Hrec|].
  unfold logged. cbn [log coordinator entity fetches].
  rewrite length_app. pose proof (converted_warnings_length results).
  repeat split. lia.
Qed.




(** *** The range query of the entity *)



(** X13. Before the first successful sync the entity's range query
    raises the coordinator's not-ready error; it logs its start and
    nothing else, and returns no list. *)
Theorem entity_async_get_events_not_ready (w : World)
    (start_date end_date : datetime) :
  data (coordinator w) = None ->
  MS365CalendarEntity.async_get_events start_date end_date w
  = (Raise (HomeAssistantError
              "Unable to get events: Sync from server has not completed"),
     logged w [mkLog DEBUG "Start get_events for %s" [ArgStr (_name (entity w))]]).
Proof.
  intros Hdata.
  unfold MS365CalendarEntity.async_get_events,
    MS365CalendarSyncCoordinator.async_get_events, get_entity, emit, get_coordinator.
  unfold bind. cbn [coordinator]. rewrite Hdata. reflexivity.
Qed.

(** *** Publishing the current event *)

(** X14. When the resolved event converts, [_get_current_event]
    publishes it with the offset marker taken out of its summary, sets
    [_offset_reached] from the event's start and the offset, clears the
    error flag, and logs nothing. *)
Theorem entity_publishes_event (w : World) (vevent : Event)
    (event : HA.CalendarEvent) :
  fst (MS365CalendarSyncCoordinator.get_current_event w) = Ok (Some vevent) ->
  MS365CalendarEntity._create_calendar_event_entity vevent = Ok event ->
  let w' := snd (MS365CalendarEntity._get_current_event w) in
  let parsed := extract_offset (HA.summary event) DEFAULT_OFFSET in
  fst (MS365CalendarEntity._get_current_event w) = Ok tt
  /\ _event (entity w')
     = Some (HA.mkCalendarEvent (HA.start event) (HA.end_ event) (fst parsed)
               (HA.description event) (HA.location event) (HA.uid event)
               (HA.recurrence_id event))
  /\ _offset_reached (entity w')
     = is_offset_reached (wall_clock w)
         (MS365CalendarSyncCoordinator.to_datetime (HA.start event)) (snd parsed)
  /\ _error (entity w') = Some false
  /\ log w' = log w
  /\ coordinator w' = coordinator w.
Proof.
  intros Hsome Hconv w' parsed. subst w' parsed.
  unfold MS365CalendarEntity._get_current_event, bind.
  rewrite (get_current_event_some w vevent Hsome).
  unfold try_except, bind, lift. rewrite Hconv.
  unfold get_entity, put_entity, ret.
  destruct (extract_offset (HA.summary event) DEFAULT_OFFSET) as [summary offset].
  cbn. repeat split.
Qed.

(** X15. The warning for an event that fails validation is logged once:
    the failing call adds the warning only if the error flag was not
    already set, and a second call in a row adds nothing to the log. *)
Theorem entity_warns_once (w : World) (vevent : Event) (err : PyExc) :
  fst (MS365CalendarSyncCoordinator.get_current_event w) = Ok (Some vevent) ->
  MS365CalendarEntity._create_calendar_event_entity vevent = Raise err ->
  isinstance_HomeAssistantError err = true ->
  let w1 := snd (MS365CalendarEntity._get_current_event w) in
  let w2 := snd (MS365CalendarEntity._get_current_event w1) in
  log w1
  = log w
    ++ (if MS365CalendarEntity.truthy_bool (_error (entity w)) then []
        else [mkLog WARNING "Invalid event found - Error: %s, Event: %s"
                [ArgExc err; ArgEvent vevent]])
  /\ log w2 = log w1
  /\ fst (MS365CalendarEntity._get_current_event w1)
     = Raise (UnboundLocalError "event").
Proof.
  intros Hsome Hconv Hclass w1 w2.
  assert (Hrun : forall u : World,
            MS365CalendarSyncCoordinator.get_current_event u = (Ok (Some vevent), u) ->
            MS365CalendarEntity._get_current_event u
            = (Raise (UnboundLocalError "event"),
               if MS365CalendarEntity.truthy_bool (_error (entity u)) then u
               else mkWorld (coordinator u) (set__error (entity u) (Some true))
                      (store u) (wall_clock u)
                      (log u ++ [mkLog WARNING "Invalid event found - Error: %s, Event: %s"
                                   [ArgExc err; ArgEvent vevent]])
                      (fetches u))).
  { intros u Hu. unfold MS365CalendarEntity._get_current_event, bind.
    rewrite Hu. unfold try_except, bind, lift. rewrite Hconv, Hclass.
    unfold get_entity, emit, put_entity, ret, raise.
    destruct (MS365CalendarEntity.truthy_bool (_error (entity u))); reflexivity. }
  pose proof (get_current_event_some w vevent Hsome) as Hw.
  assert (Hw1 : MS365CalendarSyncCoordinator.get_current_event w1 = (Ok (Some vevent), w1)).
  { subst w1. rewrite (Hrun w Hw). cbn [snd].
    destruct (MS365CalendarEntity.truthy_bool (_error (entity w))); [exact Hw|].
    destruct (data (coordinator w)) as [tl|] eqn:Hdata.
    - rewrite (get_current_event_as_coded w tl Hdata) in Hw.
      rewrite (get_current_event_as_coded _ tl) by exact Hdata.
      injection Hw as Hsel. unfold candidates in *. cbn [wall_clock] in *.
      rewrite Hsel. reflexivity.
    - destruct (get_current_event_no_data w Hdata) as [Hnone _].
      rewrite Hsome in Hnone. discriminate. }
  subst w2. rewrite (Hrun w1 Hw1). cbn [fst snd].
  assert (Hflag : MS365CalendarEntity.truthy_bool (_error (entity w1)) = true).
  { subst w1. rewrite (Hrun w Hw). cbn [snd].
    destruct (MS365CalendarEntity.truthy_bool (_error (entity w))) eqn:Hb;
      [exact Hb|reflexivity]. }
  rewrite Hflag. split; [|split; reflexivity].
  subst w1. rewrite (Hrun w Hw). cbn [snd].
  destruct (MS365CalendarEntity.truthy_bool (_error (entity w))).
  - rewrite app_nil_r. reflexivity.
  - reflexivity.
Qed.

(** X16. A conversion failure that is not a [HomeAssistantError] leaves
    [_get_current_event] as it is raised and changes nothing: no
    attribute of the entity, the error flag included, and no log
    record. *)
Theorem entity_conversion_error_propagates (w : World) (vevent : Event)
    (err : PyExc) :
  fst (MS365CalendarSyncCoordinator.get_current_event w) = Ok (Some vevent) ->
  MS365CalendarEntity._create_calendar_event_entity vevent = Raise err ->
  isinstance_HomeAssistantError err = false ->
  MS365CalendarEntity._get_current_event w = (Raise err, w).
Proof.
  intros Hsome Hconv Hclass.
  unfold MS365CalendarEntity._get_current_event, bind.
  rewrite (get_current_event_some w vevent Hsome).
  unfold try_except, bind, lift. rewrite Hconv, Hclass. reflexivity.
Qed.
End ConstructionProperties.

(** * Properties of the calendar services *)

Section ServiceProperties.
Context `{Services.Constants}.
Variable remote : Services.Effect -> option PyExc.

Lemma _validate_permissions_run (self : Services.Editor) (t : list Services.Effect) :
  Services._validate_permissions self t
  = (if negb (Services.authorised self) then
       Services.Raises
         (Services.ServiceValidationError Services.DOMAIN "not_authorised_to_event"
            [("calendar", Services._name self);
             ("error_message", Services.PERM_CALENDARS_READWRITE)])
     else if negb (Services._update_supported self) then
       Services.Raises
         (Services.ServiceValidationError Services.DOMAIN "calendar_not_editable"
            [("name", Services._name self)])
     else Services.Returns true, t).
Proof.
  unfold Services._validate_permissions.
  destruct (Services.authorised self), (Services._update_supported self); reflexivity.
Qed.

(** X17. Without authorization for [Calendars.ReadWrite], or on a
    calendar that is not editable, modifying and removing an event raise
    [ServiceValidationError] before anything is done: no remote call, no
    bus event, no state update. A missing authorization is reported
    first. *)
Theorem services_refuse_without_permission (self : Services.Editor)
    (event_id recurrence_id recurrence_range subject start end_ : Services.PyVal)
    (kwargs : gmap string Services.PyVal) (t : list Services.Effect) :
  Services.authorised self && Services._update_supported self = false ->
  let refusal :=
    if negb (Services.authorised self) then
      Services.ServiceValidationError Services.DOMAIN "not_authorised_to_event"
        [("calendar", Services._name self);
         ("error_message", Services.PERM_CALENDARS_READWRITE)]
    else
      Services.ServiceValidationError Services.DOMAIN "calendar_not_editable"
        [("name", Services._name self)] in
  Services.async_modify_calendar_event remote self event_id recurrence_id
    recurrence_range subject start end_ kwargs t
  = (Services.Raises refusal, t)
  /\ Services.async_remove_calendar_event remote self event_id recurrence_id
       recurrence_range t
     = (Services.Raises refusal, t)
  /\ Services.async_delete_event remote self event_id recurrence_id
       recurrence_range t
     = (Services.Raises refusal, t).
Proof.
  intros Hperm refusal. subst refusal.
  unfold Services.async_delete_event, Services.async_modify_calendar_event,
    Services.async_remove_calendar_event, Services.sbind.
  rewrite _validate_permissions_run.
  destruct (Services.authorised self), (Services._update_supported self);
    try discriminate; repeat split.
Qed.

(** X18. On a group calendar an authorized modification or removal is
    refused with the group-calendar error, again before anything is
    done. *)
Theorem services_refuse_group_calendar (self : Services.Editor)
    (event_id recurrence_id recurrence_range subject start end_ : Services.PyVal)
    (kwargs : gmap string Services.PyVal) (t : list Services.Effect) :
  Services.authorised self = true ->
  Services._update_supported self = true ->
  Services.group_calendar self = true ->
  let refusal :=
    Services.ServiceValidationError Services.DOMAIN "ms365_group_calendar_error"
      [("entity_id", Services.entity_id self)] in
  Services.async_modify_calendar_event remote self event_id recurrence_id
    recurrence_range subject start end_ kwargs t
  = (Services.Raises refusal, t)
  /\ Services.async_remove_calendar_event remote self event_id recurrence_id
       recurrence_range t
     = (Services.Raises refusal, t).
Proof.
  intros Ha Hu Hg refusal. subst refusal.
  unfold Services.async_modify_calendar_event, Services.async_remove_calendar_event,
    Services.sbind.
  rewrite _validate_permissions_run, Ha, Hu, Hg. split; reflexivity.
Qed.

(** X19. A permitted modification patches one event: the series master
    [recurrence_id] when a recurrence range is given, the event itself
    otherwise. When the patch returns, one bus event of the matching type
    is fired for the same id, and the state update is scheduled; when the
    patch raises, the error passes through and neither happens. *)
Theorem modify_patches_then_notifies (self : Services.Editor)
    (event_id recurrence_id recurrence_range subject start end_ : Services.PyVal)
    (kwargs : gmap string Services.PyVal) (t : list Services.Effect) :
  Services.authorised self = true ->
  Services._update_supported self = true ->
  Services.group_calendar self = false ->
  let target :=
    if Services.truthy_val recurrence_range then recurrence_id else event_id in
  let ha_event :=
    if Services.truthy_val recurrence_range
    then Services.EVENT_MODIFY_CALENDAR_RECURRENCES
    else Services.EVENT_MODIFY_CALENDAR_EVENT in
  let patch := Services.PatchEvent target subject start end_ kwargs in
  Services.async_modify_calendar_event remote self event_id recurrence_id
    recurrence_range subject start end_ kwargs t
  = match remote patch with
    | None =>
        (Services.Returns tt,
         t ++ [patch; Services.BusFire ha_event target;
               Services.LogDebug ha_event target; Services.ScheduleUpdate])
    | Some err => (Services.Raises (Services.Uncaught err), t ++ [patch])
    end.
Proof.
  intros Ha Hu Hg target ha_event patch. subst target ha_event patch.
  unfold Services.async_modify_calendar_event, Services.sbind.
  rewrite _validate_permissions_run, Ha, Hu, Hg. cbn [negb Services.sret].
  destruct (Services.truthy_val recurrence_range);
    unfold Services._async_update_calendar_event, Services.sbind, Services.perform,
      Services._raise_event, Services.sbind, Services.tell;
    match goal with
    | |- context [remote ?e] => destruct (remote e)
    end; try reflexivity;
    rewrite <- !app_assoc; reflexivity.
Qed.

(** X20. A permitted removal deletes one event, the series master when a
    recurrence range is given, then refreshes the coordinator, fires one
    bus event for the same id and schedules the state update, in that
    order. When the deletion raises, nothing follows it: no refresh and
    no bus event. *)
Theorem remove_deletes_then_notifies (self : Services.Editor)
    (event_id recurrence_id recurrence_range : Services.PyVal)
    (t : list Services.Effect) :
  Services.authorised self = true ->
  Services._update_supported self = true ->
  Services.group_calendar self = false ->
  let target :=
    if Services.truthy_val recurrence_range then recurrence_id else event_id in
  let ha_event :=
    if Services.truthy_val recurrence_range
    then Services.EVENT_REMOVE_CALENDAR_RECURRENCES
    else Services.EVENT_REMOVE_CALENDAR_EVENT in
  Services.async_delete_event remote self event_id recurrence_id recurrence_range t
  = match remote (Services.DeleteEvent target) with
    | Some err =>
        (Services.Raises (Services.Uncaught err), t ++ [Services.DeleteEvent target])
    | None =>
        match remote Services.Refresh with
        | Some err =>
            (Services.Raises (Services.Uncaught err),
             t ++ [Services.DeleteEvent target; Services.Refresh])
        | None =>
            (Services.Returns tt,
             t ++ [Services.DeleteEvent target; Services.Refresh;
                   Services.BusFire ha_event target;
                   Services.LogDebug ha_event target; Services.ScheduleUpdate])
        end
    end.
Proof.
  intros Ha Hu Hg target ha_event. subst target ha_event.
  unfold Services.async_delete_event, Services.async_remove_calendar_event,
    Services.sbind.
  rewrite _validate_permissions_run, Ha, Hu, Hg. cbn [negb Services.sret].
  destruct (Services.truthy_val recurrence_range);
    unfold Services._async_delete_calendar_event, Services.sbind, Services.perform,
      Services._raise_event, Services.sbind, Services.tell;
    match goal with
    | |- context [remote (Services.DeleteEvent ?x)] =>
        destruct (remote (Services.DeleteEvent x))
    end; try reflexivity;
    destruct (remote Services.Refresh); rewrite <- ?app_assoc; reflexivity.
Qed.

(** X21. [async_create_event] adds the event and, when the store service
    returns, refreshes the coordinator. An [HTTPError] of the store
    service becomes a [HomeAssistantError] that names it, any other error
    passes through, and in both cases there is no refresh. The event is
    all-day exactly when its start is not a datetime. *)
Theorem create_event_adds_then_refreshes (kwargs : gmap string Services.PyVal)
    (start end_ subject : Services.PyVal) (t : list Services.Effect) :
  kwargs !! Services.EVENT_START = Some start ->
  kwargs !! Services.EVENT_END = Some end_ ->
  kwargs !! Services.EVENT_SUMMARY = Some subject ->
  let add :=
    Services.AddEvent subject start end_
      (Services.dict_get kwargs Services.EVENT_DESCRIPTION)
      (negb (Services.isinstance_datetime start))
      (Services.dict_get kwargs Services.EVENT_RRULE) in
  Services.async_create_event remote kwargs t
  = match remote add with
    | Some err =>
        (Services.Raises
           (if Services.isinstance_HTTPError err
            then Services.Chained
                   (HomeAssistantError
                      ("Error while creating event: " +:+ str_exc err)) err
            else Services.Uncaught err),
         t ++ [add])
    | None =>
        match remote Services.Refresh with
        | Some err =>
            (Services.Raises (Services.Uncaught err), t ++ [add; Services.Refresh])
        | None => (Services.Returns tt, t ++ [add; Services.Refresh])
        end
    end.
Proof.
  intros Hs He Hsum add. subst add.
  unfold Services.async_create_event, Services.sbind, Services.subscript.
  rewrite Hs, He, Hsum. cbn [Services.sret].
  unfold Services.perform.
  destruct (remote (Services.AddEvent _ _ _ _ _ _)) as [err|].
  - destruct (Services.isinstance_HTTPError err); reflexivity.
  - destruct (remote Services.Refresh); rewrite <- ?app_assoc; reflexivity.
Qed.

Lemma async_update_event_run (self : Services.Editor)
    (uid recurrence_id recurrence_range : Services.PyVal)
    (event : gmap string Services.PyVal) (t : list Services.Effect) :
  Services.async_update_event remote self uid event recurrence_id recurrence_range t
  = match event !! Services.EVENT_START with
    | None =>
        (Services.Raises (Services.Uncaught (KeyError Services.EVENT_START)), t)
    | Some start =>
        match event !! Services.EVENT_END with
        | None =>
            (Services.Raises (Services.Uncaught (KeyError Services.EVENT_END)), t)
        | Some end_ =>
            match event !! Services.EVENT_SUMMARY with
            | None =>
                (Services.Raises
                   (Services.Uncaught (KeyError Services.EVENT_SUMMARY)), t)
            | Some subject =>
                Services.async_modify_calendar_event remote self uid recurrence_id
                  recurrence_range subject start end_
                  (<["body" := Services.dict_get event Services.EVENT_DESCRIPTION]>
                     (<["is_all_day" :=
                          Services.VBool (negb (Services.isinstance_datetime start))]>
                        (<["rrule" := Services.dict_get event Services.EVENT_RRULE]>
                           ∅))) t
            end
        end
    end.
Proof.
  unfold Services.async_update_event, Services.sbind, Services.subscript.
  destruct (event !! Services.EVENT_START); [|reflexivity].
  destruct (event !! Services.EVENT_END); [|reflexivity].
  destruct (event !! Services.EVENT_SUMMARY); reflexivity.
Qed.

(** X22. [async_update_event] reads [start], [end] and [summary] from the
    event dict before any permission is checked: when one of them is
    missing it raises [KeyError] for a missing key and does nothing,
    whether or not the caller may edit the calendar. *)
Theorem update_event_key_error_first (self : Services.Editor)
    (uid recurrence_id recurrence_range : Services.PyVal)
    (event : gmap string Services.PyVal) (t : list Services.Effect) :
  event !! Services.EVENT_START = None
  \/ event !! Services.EVENT_END = None
  \/ event !! Services.EVENT_SUMMARY = None ->
  exists key,
    event !! key = None
    /\ Services.async_update_event remote self uid event recurrence_id
         recurrence_range t
       = (Services.Raises (Services.Uncaught (KeyError key)), t).
Proof.
  intros Hmissing. rewrite async_update_event_run.
  destruct (event !! Services.EVENT_START) as [start|] eqn:Hs;
    [|exists Services.EVENT_START; split; [exact Hs|reflexivity]].
  destruct (event !! Services.EVENT_END) as [end_|] eqn:He;
    [|exists Services.EVENT_END; split; [exact He|reflexivity]].
  destruct (event !! Services.EVENT_SUMMARY) as [subject|] eqn:Hsum;
    [|exists Services.EVENT_SUMMARY; split; [exact Hsum|reflexivity]].
  destruct Hmissing as [Hm|[Hm|Hm]]; discriminate.
Qed.

(** X23. A permitted [async_update_event] on a complete event dict sends
    one patch for the event, or for the series master when a recurrence
    range is given, whose keyword arguments are the description as
    [body] ([None] when there is none), the recurrence rule as [rrule],
    and [is_all_day], true exactly when the start is not a datetime. *)
Theorem update_event_patch (self : Services.Editor)
    (uid recurrence_id recurrence_range start end_ subject : Services.PyVal)
    (event : gmap string Services.PyVal) (t : list Services.Effect) :
  Services.authorised self = true ->
  Services._update_supported self = true ->
  Services.group_calendar self = false ->
  event !! Services.EVENT_START = Some start ->
  event !! Services.EVENT_END = Some end_ ->
  event !! Services.EVENT_SUMMARY = Some subject ->
  exists kwargs,
    kwargs !! "body" = Some (Services.dict_get event Services.EVENT_DESCRIPTION)
    /\ kwargs !! "rrule" = Some (Services.dict_get event Services.EVENT_RRULE)
    /\ kwargs !! "is_all_day"
       = Some (Services.VBool (negb (Services.isinstance_datetime start)))
    /\ (forall key, key <> "body" -> key <> "rrule" -> key <> "is_all_day" ->
          kwargs !! key = None)
    /\ exists rest,
         snd (Services.async_update_event remote self uid event recurrence_id
                recurrence_range t)
         = t ++ Services.PatchEvent
                  (if Services.truthy_val recurrence_range then recurrence_id else uid)
                  subject start end_ kwargs :: rest.
Proof.
  intros Ha Hu Hg Hs He Hsum.
  eexists. split; [|split; [|split; [|split]]].
  5: {
    rewrite async_update_event_run, Hs, He, Hsum.
    unfold Services.async_modify_calendar_event, Services.sbind.
    rewrite _validate_permissions_run, Ha, Hu, Hg. cbn [negb Services.sret].
    destruct (Services.truthy_val recurrence_range);
      unfold Services._async_update_calendar_event, Services.sbind, Services.perform,
        Services._raise_event, Services.sbind, Services.tell;
      match goal with
      | |- context [remote ?e] => destruct (remote e)
      end; cbn [snd]; rewrite <- ?app_assoc; eexists; reflexivity. }
  - apply lookup_insert_eq.
  - rewrite lookup_insert_ne by discriminate.
    rewrite lookup_insert_ne by discriminate. apply lookup_insert_eq.
  - rewrite lookup_insert_ne by discriminate. apply lookup_insert_eq.
  - intros key Hb Hr Ha'.
    rewrite lookup_insert_ne by congruence.
    rewrite lookup_insert_ne by congruence.
    rewrite lookup_insert_ne by congruence. apply lookup_empty.
Qed.
End ServiceProperties.

(** * Properties of the entity's attributes *)

Section AttributeProperties.
Context `{Collaborators}.

Lemma _log_error_run (error : string) (err : PyExc) (w : World) :
  Attributes._log_error error err w
  = (Ok tt,
     if MS365CalendarEntity.truthy_bool (_error (entity w))
     then logged w [mkLog DEBUG "Repeat error - %s - %s" [ArgStr error; ArgExc err]]
     else mkWorld (coordinator w) (set__error (entity w) (Some true)) (store w)
            (wall_clock w)
            (log w ++ [mkLog WARNING "%s - %s" [ArgStr error; ArgExc err]])
            (fetches w)).
Proof.
  unfold Attributes._log_error, bind, get_entity, emit, put_entity.
  destruct (MS365CalendarEntity.truthy_bool (_error (entity w))); reflexivity.
Qed.

Lemma warnings_in_app (a b : list LogRecord) :
  Attributes.warnings_in (a ++ b)
  = (Attributes.warnings_in a + Attributes.warnings_in b)%nat.
Proof.
  unfold Attributes.warnings_in. rewrite List.filter_app, length_app. reflexivity.
Qed.

Lemma log_errors_flagged (calls : list (string * PyExc)) (w : World) :
  MS365CalendarEntity.truthy_bool (_error (entity w)) = true ->
  let w' := snd (Attributes.log_errors calls w) in
  Attributes.warnings_in (log w') = Attributes.warnings_in (log w)
  /\ length (log w') = (length (log w) + length calls)%nat
  /\ entity w' = entity w
  /\ coordinator w' = coordinator w.
Proof.
  revert w. induction calls as [|[error err] calls IH]; intros w Hflag w'; subst w'.
  - cbn. repeat split. lia.
  - cbn [Attributes.log_errors]. unfold bind.
    rewrite _log_error_run, Hflag. cbv beta iota.
    specialize (IH (logged w [mkLog DEBUG "Repeat error - %s - %s"
                               [ArgStr error; ArgExc err]]) Hflag).
    cbv zeta in IH. destruct IH as (Hw & Hl & He & Hc).
    rewrite Hw, Hl, He, Hc. unfold logged. cbn [log entity coordinator].
    rewrite warnings_in_app, length_app. cbn. repeat split; lia.
Qed.

(** X24. However often [_log_error] is called in a row, it logs at most
    one warning: the first call warns unless the error flag was already
    set, every later call logs a repeat at debug level, and the flag is
    set afterwards. The published event is not touched. *)
Theorem log_error_warns_once (error : string) (err : PyExc)
    (calls : list (string * PyExc)) (w : World) :
  let w' := snd (Attributes.log_errors ((error, err) :: calls) w) in
  Attributes.warnings_in (log w')
  = (Attributes.warnings_in (log w)
     + if MS365CalendarEntity.truthy_bool (_error (entity w)) then 0 else 1)%nat
  /\ length (log w') = (length (log w) + S (length calls))%nat
  /\ MS365CalendarEntity.truthy_bool (_error (entity w')) = true
  /\ _event (entity w') = _event (entity w)
  /\ _offset_reached (entity w') = _offset_reached (entity w)
  /\ coordinator w' = coordinator w.
Proof.
  intros w'. subst w'.
  cbn [Attributes.log_errors]. unfold bind. rewrite _log_error_run.
  cbv beta iota.
  destruct (MS365CalendarEntity.truthy_bool (_error (entity w))) eqn:Hflag.
  - destruct (log_errors_flagged calls
                (logged w [mkLog DEBUG "Repeat error - %s - %s"
                             [ArgStr error; ArgExc err]]) Hflag)
      as (Hw & Hl & He & Hc).
    rewrite Hw, Hl, He, Hc. unfold logged. cbn [log entity coordinator].
    rewrite warnings_in_app, length_app, Hflag. cbn. repeat split; lia.
  - set (w1 := mkWorld (coordinator w) (set__error (entity w) (Some true)) (store w)
                 (wall_clock w)
                 (log w ++ [mkLog WARNING "%s - %s" [ArgStr error; ArgExc err]])
                 (fetches w)).
    destruct (log_errors_flagged calls w1 eq_refl) as (Hw & Hl & He & Hc).
    rewrite Hw, Hl, He, Hc. subst w1. cbn [log entity coordinator].
    rewrite warnings_in_app, length_app. cbn. repeat split; lia.
Qed.

Lemma get_current_event_same_view (w u : World) :
  coordinator u = coordinator w -> wall_clock u = wall_clock w ->
  fst (MS365CalendarSyncCoordinator.get_current_event u)
  = fst (MS365CalendarSyncCoordinator.get_current_event w).
Proof.
  intros Hc Ht.
  destruct (data (coordinator w)) as [tl|] eqn:Hdata.
  - rewrite (get_current_event_as_coded w tl Hdata).
    rewrite (get_current_event_as_coded u tl) by (rewrite Hc; exact Hdata).
    unfold candidates. rewrite Ht. reflexivity.
  - destruct (get_current_event_no_data w Hdata) as [-> _].
    destruct (get_current_event_no_data u) as [-> _];
      [rewrite Hc; exact Hdata|reflexivity].
Qed.

(** X25. The error flag is shared: once [_log_error] has run, a current
    event that fails validation is dropped without any warning, since
    [_get_current_event] warns only while the flag is clear. *)
Theorem log_error_mutes_invalid_event (error : string) (e0 : PyExc) (w : World)
    (vevent : Event) (err : PyExc) :
  fst (MS365CalendarSyncCoordinator.get_current_event w) = Ok (Some vevent) ->
  MS365CalendarEntity._create_calendar_event_entity vevent = Raise err ->
  isinstance_HomeAssistantError err = true ->
  let w1 := snd (Attributes._log_error error e0 w) in
  let w2 := snd (MS365CalendarEntity._get_current_event w1) in
  log w2 = log w1
  /\ fst (MS365CalendarEntity._get_current_event w1)
     = Raise (UnboundLocalError "event").
Proof.
  intros Hsome Hconv Hclass w1 w2.
  assert (Hview : coordinator w1 = coordinator w /\ wall_clock w1 = wall_clock w
                  /\ MS365CalendarEntity.truthy_bool (_error (entity w1)) = true).
  { subst w1. rewrite _log_error_run. cbn [snd].
    destruct (MS365CalendarEntity.truthy_bool (_error (entity w))) eqn:Hflag;
      repeat split; exact Hflag. }
  destruct Hview as (Hc & Ht & Hflag).
  assert (Hsome1 : fst (MS365CalendarSyncCoordinator.get_current_event w1)
                   = Ok (Some vevent)).
  { rewrite (get_current_event_same_view w w1 Hc Ht). exact Hsome. }
  subst w2. unfold MS365CalendarEntity._get_current_event, bind.
  rewrite (get_current_event_some w1 vevent Hsome1).
  unfold try_except, bind, lift. rewrite Hconv, Hclass.
  unfold get_entity, emit, put_entity, ret, raise. rewrite Hflag.
  split; reflexivity.
Qed.

Section ExtraAttributes.
Variable EventData : Type.
Variable format_event_data : Event -> EventData.
Variable timeline_events : Timeline -> list Event.

Lemma for_event_append_run (range_start range_end : datetime)
    (events : list Event) (attribute : list EventData) :
  Attributes.for_event_append EventData format_event_data range_start range_end
    events attribute
  = attribute
    ++ map format_event_data
         (List.filter
            (fun e => (instant range_start <? instant (O365.end_ e))
                      && (instant (O365.start e) <? instant range_end))
            events).
Proof.
  unfold Attributes.for_event_append, dt_gt, dt_lt.
  revert attribute. induction events as [|e events IH]; intros attribute; simpl.
  - rewrite app_nil_r. reflexivity.
  - rewrite IH.
    destruct ((instant range_start <? instant (O365.end_ e))
              && (instant (O365.start e) <? instant range_end)); [|reflexivity].
    simpl. rewrite <- app_assoc. reflexivity.
Qed.

(** X26. [_build_extra_attributes] leaves the attribute as it is while
    the coordinator has no data. With data it rebuilds it from nothing,
    whatever it held: one entry, in the order of the timeline, for each
    event that ends after the start of the range and starts before its
    end; an event that only touches the range at either end is left
    out. *)
Theorem build_extra_attributes_rebuilds (range_start range_end : datetime)
    (w : World) (old : list EventData) :
  (data (coordinator w) = None ->
   Attributes._build_extra_attributes EventData format_event_data timeline_events
     range_start range_end w old = old)
  /\ (forall tl,
        data (coordinator w) = Some tl ->
        let rebuilt :=
          Attributes._build_extra_attributes EventData format_event_data
            timeline_events range_start range_end w old in
        rebuilt
        = map format_event_data
            (List.filter
               (fun e => (instant range_start <? instant (O365.end_ e))
                         && (instant (O365.start e) <? instant range_end))
               (timeline_events tl))
        /\ Attributes._build_extra_attributes EventData format_event_data
             timeline_events range_start range_end w rebuilt = rebuilt
        /\ (length rebuilt <= length (timeline_events tl))%nat
        /\ (forall e,
              instant (O365.end_ e) = instant range_start
              \/ instant (O365.start e) = instant range_end ->
              (instant range_start <? instant (O365.end_ e))
              && (instant (O365.start e) <? instant range_end) = false)).
Proof.
  unfold Attributes._build_extra_attributes. split.
  - intros ->. reflexivity.
  - intros tl ->. cbv zeta. rewrite for_event_append_run. cbn [app].
    repeat split.
    + rewrite length_map. apply filter_length_le.
    + intros e [He|He]; rewrite He.
      * rewrite Z.ltb_irrefl. reflexivity.
      * rewrite Z.ltb_irrefl. apply andb_false_r.
Qed.
End ExtraAttributes.
End AttributeProperties.

(** * Properties of the set-up of the coordinators *)

Section SetupProperties.
Context `{Collaborators}.
Variable entity_name : string.
Variable build_calendar_entity_id : string -> string -> string.
Variable DEFAULT_SYNC_EVENT_MIN_TIME : Z.
Variable DEFAULT_SYNC_EVENT_MAX_TIME : Z.
Variable calendar_init : string -> Setup.EntityConf -> option PyExc.

Local Abbreviation for_entity_in :=
  (Setup.for_entity_in entity_name build_calendar_entity_id
     DEFAULT_SYNC_EVENT_MIN_TIME DEFAULT_SYNC_EVENT_MAX_TIME calendar_init).
Local Abbreviation for_calendar_in :=
  (Setup.for_calendar_in entity_name build_calendar_entity_id
     DEFAULT_SYNC_EVENT_MIN_TIME DEFAULT_SYNC_EVENT_MAX_TIME calendar_init).
Local Abbreviation for_tracked :=
  (Setup.for_tracked entity_name build_calendar_entity_id
     DEFAULT_SYNC_EVENT_MIN_TIME DEFAULT_SYNC_EVENT_MAX_TIME calendar_init).
Local Abbreviation setup :=
  (Setup._async_setup_coordinators entity_name build_calendar_entity_id
     DEFAULT_SYNC_EVENT_MIN_TIME DEFAULT_SYNC_EVENT_MAX_TIME calendar_init).
Local Abbreviation key_of := (Setup.key_of entity_name build_calendar_entity_id).
Local Abbreviation new_coordinator :=
  (Setup.coordinator__init__ DEFAULT_SYNC_EVENT_MIN_TIME DEFAULT_SYNC_EVENT_MAX_TIME).
Local Abbreviation init_fails := (Setup.init_fails calendar_init).
Local Abbreviation init_recoverable := (Setup.init_recoverable calendar_init).

Lemma for_entity_in_flat (us : bool) (cel : list Setup.CalendarEdit)
    (cal_id : string) (entities : list Setup.EntityConf) (l : Setup.Locals) :
  for_entity_in us cel cal_id entities l
  = for_tracked us cel
      (map (fun entity => (cal_id, entity)) (List.filter Setup.CONF_TRACK entities)) l.
Proof.
  revert l. induction entities as [|entity entities IH]; intros l; [reflexivity|].
  cbn [Setup.for_entity_in List.filter].
  destruct (Setup.CONF_TRACK entity); cbn [negb map]; [|apply IH].
  cbn [Setup.for_tracked fst snd]. unfold Setup.key_of. cbn [fst snd].
  destruct (calendar_init cal_id entity) as [err|]; [|apply IH].
  destruct (Setup.isinstance_HTTPError err); [apply IH|reflexivity].
Qed.

Lemma for_tracked_app (us : bool) (cel : list Setup.CalendarEdit)
    (a b : list (string * Setup.EntityConf)) (l : Setup.Locals) :
  for_tracked us cel (a ++ b) l
  = match for_tracked us cel a l with
    | (None, l') => for_tracked us cel b l'
    | (Some err, l') => (Some err, l')
    end.
Proof.
  revert l. induction a as [|c a IH]; intros l; [reflexivity|].
  cbn [app Setup.for_tracked].
  destruct (calendar_init (fst c) (snd c)) as [err|]; [|apply IH].
  destruct (Setup.isinstance_HTTPError err); [apply IH|reflexivity].
Qed.

Lemma for_calendar_in_flat (us : bool) (cel : list Setup.CalendarEdit)
    (calendars : list (string * list Setup.EntityConf)) (l : Setup.Locals) :
  for_calendar_in us cel calendars l = for_tracked us cel (Setup.tracked calendars) l.
Proof.
  revert l. induction calendars as [|[cal_id entities] calendars IH]; intros l;
    [reflexivity|].
  cbn [Setup.for_calendar_in]. unfold Setup.tracked. cbn [flat_map fst snd].
  fold (Setup.tracked calendars).
  rewrite for_tracked_app, for_entity_in_flat.
  destruct (for_tracked us cel _ l) as [[err|] l']; [reflexivity|apply IH].
Qed.

Lemma for_tracked_recoverable (us : bool) (cel : list Setup.CalendarEdit)
    (cs : list (string * Setup.EntityConf)) (l : Setup.Locals) :
  forallb init_recoverable cs = true ->
  for_tracked us cel cs l
  = (None,
     Setup.mkLocals
       (Setup.coordinators l
        ++ map (fun c => new_coordinator (fst c) (Setup.CONF_NAME (snd c)))
             (List.filter (fun c => negb (init_fails c)) cs))
       (Setup.keys l ++ map (key_of us cel) cs)
       (Setup.log l ++ map Setup.warning_of (List.filter init_fails cs))
       (Setup.inits l ++ cs)).
Proof.
  revert l. induction cs as [|c cs IH]; intros l Hrec.
  - destruct l. cbn. rewrite !app_nil_r. reflexivity.
  - cbn [forallb] in Hrec. apply andb_true_iff in Hrec. destruct Hrec as [Hc Hcs].
    cbn [Setup.for_tracked List.filter map].
    unfold Setup.init_recoverable, Setup.init_fails in *.
    destruct (calendar_init (fst c) (snd c)) as [err|].
    + rewrite Hc, IH by exact Hcs.
      cbn [negb map Setup.coordinators Setup.keys Setup.log Setup.inits].
      rewrite <- !app_assoc. reflexivity.
    + rewrite IH by exact Hcs.
      cbn [negb map Setup.coordinators Setup.keys Setup.log Setup.inits].
      rewrite <- !app_assoc. reflexivity.
Qed.

(** X27. When the only failures are [HTTPError]s, the set-up returns one
    key for every tracked entity of the file, in order, and one
    coordinator for every tracked entity whose services could be set up;
    each of the others is reported with one warning. Entities that are
    not tracked are never set up. So the two lists have the same length
    only when nothing failed. *)
Theorem setup_keys_and_coordinators (us : bool) (cel : list Setup.CalendarEdit)
    (calendars : list (string * list Setup.EntityConf)) :
  forallb init_recoverable (Setup.tracked calendars) = true ->
  let cs := Setup.tracked calendars in
  let coordinators :=
    map (fun c => new_coordinator (fst c) (Setup.CONF_NAME (snd c)))
      (List.filter (fun c => negb (init_fails c)) cs) in
  let l := snd (setup us cel calendars) in
  fst (setup us cel calendars) = Ok (coordinators, map (key_of us cel) cs)
  /\ Setup.inits l = cs
  /\ Setup.log l = map Setup.warning_of (List.filter init_fails cs)
  /\ (length coordinators + length (Setup.log l) = length (map (key_of us cel) cs))%nat.
Proof.
  intros Hrec cs coordinators l. subst cs coordinators l.
  unfold Setup._async_setup_coordinators.
  rewrite for_calendar_in_flat, for_tracked_recoverable by exact Hrec.
  cbn [fst snd Setup.coordinators Setup.keys Setup.log Setup.inits app].
  repeat split.
  rewrite !length_map.
  clear Hrec. induction (Setup.tracked calendars) as [|c cs IH]; [reflexivity|].
  simpl. destruct (Setup.init_fails calendar_init c); simpl; lia.
Qed.

(** X28. A failure that is not an [HTTPError] ends the set-up with that
    error: nothing is returned, and no entity after the failing one is
    set up. *)
Theorem setup_aborts (us : bool) (cel : list Setup.CalendarEdit)
    (calendars : list (string * list Setup.EntityConf))
    (pre post : list (string * Setup.EntityConf)) (c : string * Setup.EntityConf)
    (err : PyExc) :
  Setup.tracked calendars = pre ++ c :: post ->
  forallb init_recoverable pre = true ->
  calendar_init (fst c) (snd c) = Some err ->
  Setup.isinstance_HTTPError err = false ->
  fst (setup us cel calendars) = Raise err
  /\ Setup.inits (snd (setup us cel calendars)) = pre ++ [c].
Proof.
  intros Hsplit Hpre Hinit Hclass.
  unfold Setup._async_setup_coordinators.
  rewrite for_calendar_in_flat, Hsplit, for_tracked_app.
  rewrite for_tracked_recoverable by exact Hpre.
  cbn [Setup.for_tracked]. rewrite Hinit, Hclass.
  cbn [fst snd Setup.inits app]. split; reflexivity.
Qed.

Lemma for_tracked_coordinators (P : Coordinator -> Prop) (us : bool)
    (cel : list Setup.CalendarEdit) (cs : list (string * Setup.EntityConf))
    (l : Setup.Locals) :
  (forall cal_id name, P (new_coordinator cal_id name)) ->
  List.Forall P (Setup.coordinators l) ->
  List.Forall P (Setup.coordinators (snd (for_tracked us cel cs l))).
Proof.
  intros Hnew. revert l. induction cs as [|c cs IH]; intros l Hl; [exact Hl|].
  cbn [Setup.for_tracked].
  destruct (calendar_init (fst c) (snd c)) as [err|].
  - destruct (Setup.isinstance_HTTPError err); [apply IH; exact Hl|exact Hl].
  - apply IH. cbn [Setup.coordinators].
    apply List.Forall_app. split; [exact Hl|]. constructor; [apply Hnew|constructor].
Qed.

(** X29. Every coordinator that the set-up builds starts without data:
    until a refresh has filled it, a range query on it raises the
    not-ready error and it resolves no current event. Its sync window is
    the default one. *)
Theorem setup_coordinators_not_ready (us : bool) (cel : list Setup.CalendarEdit)
    (calendars : list (string * list Setup.EntityConf)) (w : World)
    (start_date end_date : datetime) :
  In (coordinator w) (Setup.coordinators (snd (setup us cel calendars))) ->
  fst (MS365CalendarSyncCoordinator.async_get_events start_date end_date w)
  = Raise (HomeAssistantError
             "Unable to get events: Sync from server has not completed")
  /\ fst (MS365CalendarSyncCoordinator.get_current_event w) = Ok None
  /\ _sync_event_min_time (coordinator w) = timedelta_days DEFAULT_SYNC_EVENT_MIN_TIME
  /\ _sync_event_max_time (coordinator w) = timedelta_days DEFAULT_SYNC_EVENT_MAX_TIME.
Proof.
  intros Hin.
  assert (Hall : List.Forall
                   (fun c => data c = None
                             /\ _sync_event_min_time c
                                = timedelta_days DEFAULT_SYNC_EVENT_MIN_TIME
                             /\ _sync_event_max_time c
                                = timedelta_days DEFAULT_SYNC_EVENT_MAX_TIME)
                   (Setup.coordinators (snd (setup us cel calendars)))).
  { unfold Setup._async_setup_coordinators. rewrite for_calendar_in_flat.
    pose proof (for_tracked_coordinators
                  (fun c => data c = None
                            /\ _sync_event_min_time c
                               = timedelta_days DEFAULT_SYNC_EVENT_MIN_TIME
                            /\ _sync_event_max_time c
                               = timedelta_days DEFAULT_SYNC_EVENT_MAX_TIME)
                  us cel (Setup.tracked calendars) (Setup.mkLocals [] [] [] []))
      as Hinv.
    destruct (for_tracked us cel (Setup.tracked calendars) (Setup.mkLocals [] [] [] []))
      as [[err|] l]; cbn [snd] in *; apply Hinv;
      try (intros; repeat split); constructor. }
  rewrite List.Forall_forall in Hall. destruct (Hall _ Hin) as (Hdata & Hmin & Hmax).
  split; [|split; [|split]]; try assumption.
  - unfold MS365CalendarSyncCoordinator.async_get_events, bind, get_coordinator.
    rewrite Hdata. reflexivity.
  - apply get_current_event_no_data. exact Hdata.
Qed.

Lemma find_first_match (cel pre post : list Setup.CalendarEdit)
    (c : Setup.CalendarEdit) (cal_id : string) :
  cel = pre ++ c :: post ->
  List.Forall (fun x => Setup.calendar_id x <> cal_id) pre ->
  Setup.calendar_id c = cal_id ->
  Setup.can_edit_of cel cal_id = Setup.can_edit c.
Proof.
  intros -> Hpre Hc. unfold Setup.can_edit_of.
  induction Hpre as [|x pre Hx _ IH]; cbn [app List.find].
  - rewrite Hc, String.eqb_refl. reflexivity.
  - destruct (String.eqb_spec (Setup.calendar_id x) cal_id); [contradiction|exact IH].
Qed.

(** X30. The key of a tracked entity allows updates only when updates
    are supported; then the calendar decides: a calendar that is not in
    the scanned list counts as editable, and for a calendar listed more
    than once the first entry is the one that counts. *)
Theorem setup_update_flag (us : bool) (cel : list Setup.CalendarEdit)
    (c : string * Setup.EntityConf) :
  (Setup.CONF_UPDATE_CALENDAR (key_of us cel c) = true -> us = true)
  /\ (List.Forall (fun x => Setup.calendar_id x <> fst c) cel ->
      Setup.CONF_UPDATE_CALENDAR (key_of us cel c) = us)
  /\ (forall pre post x,
        cel = pre ++ x :: post ->
        List.Forall (fun y => Setup.calendar_id y <> fst c) pre ->
        Setup.calendar_id x = fst c ->
        Setup.CONF_UPDATE_CALENDAR (key_of us cel c) = us && Setup.can_edit x).
Proof.
  unfold Setup.key_of. cbn [Setup.CONF_UPDATE_CALENDAR]. split; [|split].
  - intros Hflag. apply andb_true_iff in Hflag. tauto.
  - intros Hnone. unfold Setup.can_edit_of.
    replace (List.find (fun x => String.eqb (Setup.calendar_id x) (fst c)) cel)
      with (@None Setup.CalendarEdit); [apply andb_true_r|].
    induction Hnone as [|x cel Hx _ IH]; cbn [List.find]; [reflexivity|].
    destruct (String.eqb_spec (Setup.calendar_id x) (fst c)); [contradiction|exact IH].
  - intros pre post x Hsplit Hpre Hx.
    rewrite (find_first_match cel pre post x (fst c) Hsplit Hpre Hx). reflexivity.
Qed.
End SetupProperties.

(** * Runs on the sample calendars *)

#[local] Existing Instance Calendar.collaborators.

(** C6. For every list of events and every configured list of patterns,
    the exclusion filter drops exactly the events in whose subject at
    least one pattern finds a match under [re.search], and keeps the
    others in their order. With the pattern [Private.*], "Private Lunch"
    is dropped and "Lunch" is kept; the match is a search, not a full
    match, and several patterns are alternatives. *)
Theorem filter_events_exclusion :
  (forall (C : Collaborators) (events : iterable Event) (w : World),
      MS365CalendarEntity._filter_events events w
      = (Ok (List.filter (fun e => negb (excluded (entity w) e)) (items events)), w))
  /\ (exists p,
        Re.compile "Private.*" = Some p
        /\ fst (MS365CalendarEntity._filter_events
                  (PyIter [Calendar.private_lunch; Calendar.lunch])
                  (Calendar.world Calendar.noon None (Some [p]) true []))
           = Ok [Calendar.lunch])
  /\ (exists p,
        Re.compile "Lunch" = Some p
        /\ Re.fullmatch p "Private Lunch" = false
        /\ fst (MS365CalendarEntity._filter_events
                  (PyList [Calendar.standup; Calendar.private_lunch; Calendar.lunch])
                  (Calendar.world Calendar.noon None (Some [p]) true []))
           = Ok [Calendar.standup])
  /\ (exists p q,
        Re.compile "Private.*" = Some p /\ Re.compile "Stand.*" = Some q
        /\ fst (MS365CalendarEntity._filter_events
                  (PyList [Calendar.standup; Calendar.private_lunch; Calendar.lunch])
                  (Calendar.world Calendar.noon None (Some [p; q]) true []))
           = Ok [Calendar.lunch]).
Proof.
  split; [|split; [|split]].
  - intros C events w. apply _filter_events_run.
  - eexists. split; [vm_compute; reflexivity|]. vm_compute. reflexivity.
  - eexists. split; [vm_compute; reflexivity|]. split; vm_compute; reflexivity.
  - eexists. eexists. split; [vm_compute; reflexivity|].
    split; vm_compute; reflexivity.
Qed.

Example resolve_started_first :
  fst (MS365CalendarSyncCoordinator.get_current_event
         (Calendar.at_noon (Some Calendar.busy_day)))
  = Ok (Some Calendar.standup).
Proof. by_computation. Qed.

Example resolve_all_day_before_not_started :
  fst (MS365CalendarSyncCoordinator.get_current_event
         (Calendar.at_noon (Some [Calendar.lunch; Calendar.holiday])))
  = Ok (Some Calendar.holiday).
Proof. by_computation. Qed.

(** The sort key of an all-day event stored for 2024-03-01, with the
    default time zone one hour east of UTC: local midnight, in UTC,
    whichever offset the start is stored with. *)
Example all_day_key_local_midnight :
  @normalized_start (sample_collaborators 3600000000) Calendar.holiday
  = mk_datetime (instant (Calendar.at_ 19783 0 0) - 3600000000) 0
  /\ @normalized_start (sample_collaborators 3600000000)
       (mkEvent "e9" "Holiday" "" Calendar.office
          (mk_datetime (instant (Calendar.at_ 19783 0 0) - 7200000000) 7200000000)
          (mk_datetime (instant (Calendar.at_ 19784 0 0) - 7200000000) 7200000000)
          true None None)
     = mk_datetime (instant (Calendar.at_ 19783 0 0) - 3600000000) 0.
Proof. split; by_computation. Qed.

(** The invariant [start <= end] holds of the events of the busy day. *)
Lemma busy_day_well_formed :
  Forall (fun e => is_all_day e = false -> start_instant e <= end_instant e)
    (candidates (Calendar.at_noon (Some Calendar.busy_day)) Calendar.busy_day).
Proof. vm_compute. repeat constructor; intros _ Hgt; discriminate Hgt. Defined.

Lemma get_current_event_priority_witness :
  data (coordinator (Calendar.at_noon (Some Calendar.busy_day)))
  = Some Calendar.busy_day
  /\ Forall (fun e => is_all_day e = false -> start_instant e <= end_instant e)
       (candidates (Calendar.at_noon (Some Calendar.busy_day)) Calendar.busy_day)
  /\ MS365CalendarSyncCoordinator.get_current_event
       (Calendar.at_noon (Some Calendar.busy_day))
     = (Ok (Some Calendar.standup), Calendar.at_noon (Some Calendar.busy_day)).
Proof.
  split; [reflexivity|]. split; [exact busy_day_well_formed|].
  refine (eq_trans
            (proj2 (get_current_event_priority
                      (Calendar.at_noon (Some Calendar.busy_day)) Calendar.busy_day
                      eq_refl busy_day_well_formed))
            (f_equal (fun r => (Ok r, Calendar.at_noon (Some Calendar.busy_day))) _)).
  by_computation.
Defined.

(** C3 as written fails. At noon the only event of the calendar is a
    breakfast that begins 23 hours and a half later, on the next day. It
    is the current event, and it does not overlap the 24 hours that begin
    at the start of the current day, nor those that begin at any instant
    an hour or more before the call. *)
Lemma get_current_event_beyond_today :
  fst (MS365CalendarSyncCoordinator.get_current_event
         (Calendar.at_noon (Some [Calendar.breakfast])))
  = Ok (Some Calendar.breakfast)
  /\ ~ In Calendar.breakfast
        (items (Sample.overlapping 0 [Calendar.breakfast]
                  (Sample.start_of_local_day 0 (Datetime (mk_datetime Calendar.noon 0)))
                  (dt_add
                     (Sample.start_of_local_day 0 (Datetime (mk_datetime Calendar.noon 0)))
                     (timedelta_days 1))))
  /\ (forall s,
        s + 3600000000 <= Calendar.noon ->
        ~ In Calendar.breakfast
            (items (Sample.overlapping 0 [Calendar.breakfast] (mk_datetime s 0)
                      (dt_add (mk_datetime s 0) (timedelta_days 1))))).
Proof.
  split; [by_computation|]. split.
  - vm_compute. intros Hin. exact Hin.
  - intros s Hs Hin.
    unfold Sample.overlapping, items in Hin.
    apply List.filter_In in Hin. destruct Hin as [_ Hov].
    unfold Sample.overlaps, Sample.normalized in Hov.
    apply andb_true_iff in Hov. destruct Hov as [Hlt _].
    apply Z.ltb_lt in Hlt.
    change (instant (O365.start Calendar.breakfast)) with 1709379000000000 in Hlt.
    change (instant (dt_add (mk_datetime s 0) (timedelta_days 1)))
      with (s + 86400000000) in Hlt.
    change Calendar.noon with 1709294400000000 in Hs.
    cbn [is_all_day Calendar.breakfast Calendar.meeting] in Hlt. lia.
Qed.

Lemma get_current_event_window_witness :
  data (coordinator (Calendar.at_noon (Some [Calendar.breakfast])))
  = Some [Calendar.breakfast]
  /\ fst (MS365CalendarSyncCoordinator.get_current_event
            (Calendar.at_noon (Some [Calendar.breakfast])))
     = Ok (Some Calendar.breakfast).
Proof.
  split; [reflexivity|].
  refine (eq_trans
            (f_equal fst
               (proj1 (get_current_event_window
                         (Calendar.at_noon (Some [Calendar.breakfast]))
                         [Calendar.breakfast] eq_refl)))
            _).
  by_computation.
Defined.


(** The window across a change of the clocks. Ninety days after noon of
    2024-03-01 in the default time zone is noon of 2024-05-30 there, which
    is 10:00 UTC and not 11:00 UTC. *)
Example sync_end_time_across_clock_change :
  sync_end_time Summer.the_world = instant (Calendar.at_ 19873 10 0)
  /\ wall_clock Summer.the_world
     + _sync_event_max_time (coordinator Summer.the_world)
     = instant (Calendar.at_ 19873 11 0)
  /\ sync_start_time Summer.the_world = instant (Calendar.at_ 19768 11 0).
Proof. repeat split; by_computation. Qed.


Lemma async_get_events_not_ready_witness :
  data (coordinator (Calendar.at_noon None)) = None
  /\ fst (MS365CalendarSyncCoordinator.async_get_events
            (Calendar.at_ 19783 0 0) (Calendar.at_ 19784 0 0) (Calendar.at_noon None))
     = Raise (HomeAssistantError
                "Unable to get events: Sync from server has not completed").
Proof.
  split; [reflexivity|].
  exact (f_equal fst
           (proj1 (async_get_events_not_ready (Calendar.at_noon None)
                     (Calendar.at_ 19783 0 0) (Calendar.at_ 19784 0 0) eq_refl))).
Defined.

Lemma async_update_data_failure_witness :
  sync_run (store Calendar.offline)
  = (Raise (OtherError "ConnectionError" "remote unavailable"), store Calendar.offline)
  /\ fst (MS365CalendarSyncCoordinator._async_update_data Calendar.offline)
     = Raise (UpdateFailed "Error communicating with API: remote unavailable"
                (OtherError "ConnectionError" "remote unavailable"))
  /\ data (coordinator
             (snd (MS365CalendarSyncCoordinator._async_update_data Calendar.offline)))
     = Some Calendar.busy_day
  /\ fst (MS365CalendarSyncCoordinator.get_current_event
            (snd (MS365CalendarSyncCoordinator._async_update_data Calendar.offline)))
     = Ok (Some Calendar.standup).
Proof.
  pose proof (async_update_data_failure Calendar.offline
                (OtherError "ConnectionError" "remote unavailable")
                (store Calendar.offline) eq_refl)
    as (Hraise & _ & Hdata & _ & Hcurrent & _).
  split; [reflexivity|]. split; [|split].
  - refine (eq_trans Hraise _). by_computation.
  - refine (eq_trans Hdata _). reflexivity.
  - refine (eq_trans Hcurrent _). by_computation.
Defined.

(** C8 as written fails. The walk has a [location] without
    [displayName]: its conversion raises [KeyError], which the loop does
    not catch. The lunch that follows converts on its own, but the batch
    ends with the [KeyError] and returns no list. *)
Lemma create_entities_aborts :
  MS365CalendarEntity._create_calendar_event_entity Calendar.nowhere
  = Raise (KeyError "displayName")
  /\ MS365CalendarEntity._create_calendar_event_entity Calendar.lunch
     = Ok (HA.mkCalendarEvent (Datetime (Calendar.at_ 19783 13 0))
             (Datetime (Calendar.at_ 19783 14 0)) "Lunch" "" "Office" "e2" None)
  /\ fst (MS365CalendarEntity._create_calendar_event_entities
            [Calendar.nowhere; Calendar.lunch] (Calendar.at_noon None))
     = Raise (KeyError "displayName")
  /\ log (snd (MS365CalendarEntity._create_calendar_event_entities
                 [Calendar.nowhere; Calendar.lunch] (Calendar.at_noon None)))
     = [].
Proof. repeat split; by_computation. Qed.

Lemma create_entities_skips_witness :
  forallb recoverable [Calendar.backwards; Calendar.lunch] = true
  /\ fst (MS365CalendarEntity._create_calendar_event_entities
            [Calendar.backwards; Calendar.lunch] (Calendar.at_noon None))
     = Ok [HA.mkCalendarEvent (Datetime (Calendar.at_ 19783 13 0))
             (Datetime (Calendar.at_ 19783 14 0)) "Lunch" "" "Office" "e2" None]
  /\ log (snd (MS365CalendarEntity._create_calendar_event_entities
                 [Calendar.backwards; Calendar.lunch] (Calendar.at_noon None)))
     = [mkLog WARNING "Invalid event found - Error: %s, Event: %s"
          [ArgExc (HomeAssistantError
                     "Failed to validate CalendarEvent: Values were not in order");
           ArgEvent Calendar.backwards]]
  /\ fst (MS365CalendarEntity._create_calendar_event_entities
            ([Calendar.backwards] ++ Calendar.nowhere :: [Calendar.lunch])
            (Calendar.at_noon None))
     = Raise (KeyError "displayName").
Proof.
  destruct (create_entities_skips (Calendar.at_noon None))
    as [Hskip Habort].
  assert (Hrec : forallb recoverable [Calendar.backwards; Calendar.lunch] = true)
    by by_computation.
  assert (Hpre : forallb recoverable [Calendar.backwards] = true) by by_computation.
  assert (Hconv : MS365CalendarEntity._create_calendar_event_entity Calendar.nowhere
                  = Raise (KeyError "displayName")) by by_computation.
  split; [exact Hrec|]. split; [|split].
  - refine (eq_trans (f_equal fst (Hskip _ Hrec)) _). by_computation.
  - refine (eq_trans (f_equal (fun r => log (snd r)) (Hskip _ Hrec)) _).
    by_computation.
  - exact (f_equal fst
             (Habort [Calendar.backwards] Calendar.nowhere [Calendar.lunch]
                (KeyError "displayName") Hpre Hconv eq_refl)).
Defined.

Lemma entity_keeps_event_witness :
  fst (MS365CalendarSyncCoordinator.get_current_event
         (Calendar.world_after_standup (instant (Calendar.at_ 19783 18 0))
            (Some [Calendar.standup; Calendar.lunch])))
  = Ok None
  /\ MS365CalendarEntity.event_property
       (entity (snd (MS365CalendarEntity._get_current_event
                       (Calendar.world_after_standup (instant (Calendar.at_ 19783 18 0))
                          (Some [Calendar.standup; Calendar.lunch])))))
     = Some Calendar.published.
Proof.
  assert (Hnone : fst (MS365CalendarSyncCoordinator.get_current_event
                         (Calendar.world_after_standup
                            (instant (Calendar.at_ 19783 18 0))
                            (Some [Calendar.standup; Calendar.lunch])))
                  = Ok None) by by_computation.
  split; [exact Hnone|].
  destruct (entity_keeps_event _ Hnone) as (_ & _ & _ & Hprop).
  refine (eq_trans Hprop _). reflexivity.
Defined.

Lemma entity_event_unbound_witness :
  fst (MS365CalendarSyncCoordinator.get_current_event
         (Calendar.world_after_standup Calendar.noon (Some [Calendar.backwards])))
  = Ok (Some Calendar.backwards)
  /\ MS365CalendarEntity._create_calendar_event_entity Calendar.backwards
     = Raise (HomeAssistantError
                "Failed to validate CalendarEvent: Values were not in order")
  /\ fst (MS365CalendarEntity._get_current_event
            (Calendar.world_after_standup Calendar.noon (Some [Calendar.backwards])))
     = Raise (UnboundLocalError "event")
  /\ _event (entity (snd (MS365CalendarEntity._get_current_event
                            (Calendar.world_after_standup Calendar.noon
                               (Some [Calendar.backwards])))))
     = Some Calendar.published.
Proof.
  assert (Hsome : fst (MS365CalendarSyncCoordinator.get_current_event
                         (Calendar.world_after_standup Calendar.noon
                            (Some [Calendar.backwards])))
                  = Ok (Some Calendar.backwards)) by by_computation.
  assert (Hconv : MS365CalendarEntity._create_calendar_event_entity Calendar.backwards
                  = Raise (HomeAssistantError
                             "Failed to validate CalendarEvent: Values were not in order"))
    by by_computation.
  destruct (entity_event_unbound _ _ _ Hsome Hconv eq_refl)
    as (Hraise & Hevent & _ & _).
  split; [exact Hsome|]. split; [exact Hconv|]. split; [exact Hraise|].
  refine (eq_trans Hevent _). reflexivity.
Defined.

(** * Further runs *)

#[local] Existing Instance Office.constants.

Lemma get_current_event_unfinished_witness :
  fst (MS365CalendarSyncCoordinator.get_current_event
         (Calendar.at_noon (Some Calendar.busy_day)))
  = Ok (Some Calendar.standup)
  /\ wall_clock (Calendar.at_noon (Some Calendar.busy_day))
     < end_instant Calendar.standup.
Proof.
  assert (Hsome : fst (MS365CalendarSyncCoordinator.get_current_event
                         (Calendar.at_noon (Some Calendar.busy_day)))
                  = Ok (Some Calendar.standup)) by by_computation.
  split; [exact Hsome|].
  exact (proj1 (get_current_event_unfinished _ _ Hsome)).
Defined.

Lemma async_update_data_success_witness :
  sync_run (store Calendar.partly_synced)
  = (Ok tt, Sample.mkStore [Calendar.lunch; Calendar.breakfast] true
              [Calendar.lunch; Calendar.breakfast])
  /\ _upcoming_timeline
       (coordinator
          (snd (MS365CalendarSyncCoordinator._async_update_data Calendar.partly_synced)))
     = Some (Sample.synced
               (Sample.mkStore [Calendar.lunch; Calendar.breakfast] true
                  [Calendar.lunch; Calendar.breakfast]))
  /\ data (coordinator
             (snd (MS365CalendarSyncCoordinator._async_update_data
                     Calendar.partly_synced)))
     = data (coordinator Calendar.partly_synced).
Proof.
  pose proof (async_update_data_success Calendar.partly_synced
                (Sample.mkStore [Calendar.lunch; Calendar.breakfast] true
                   [Calendar.lunch; Calendar.breakfast]) eq_refl)
    as (_ & Hupcoming & Hdata & _).
  split; [reflexivity|]. split; [exact Hupcoming|exact Hdata].
Defined.

Lemma filter_events_no_patterns_witness :
  truthy_list (exclude (entity (Calendar.at_noon None))) = false
  /\ fst (MS365CalendarEntity._filter_events (PyIter Calendar.busy_day)
            (Calendar.at_noon None))
     = Ok Calendar.busy_day.
Proof.
  split; [reflexivity|].
  exact (f_equal fst
           (filter_events_no_patterns (PyIter Calendar.busy_day)
              (Calendar.at_noon None) eq_refl)).
Defined.

Lemma filter_events_pattern_order_witness :
  Permutation
    (patterns (entity (Office.with_patterns [Re.Chr "P"; Re.Chr "S"])))
    (patterns (entity (Office.with_patterns [Re.Chr "S"; Re.Chr "P"])))
  /\ fst (MS365CalendarEntity._filter_events (PyList Calendar.busy_day)
            (Office.with_patterns [Re.Chr "P"; Re.Chr "S"]))
     = fst (MS365CalendarEntity._filter_events (PyIter Calendar.busy_day)
              (Office.with_patterns [Re.Chr "S"; Re.Chr "P"])).
Proof.
  assert (Hperm : Permutation
                    (patterns (entity (Office.with_patterns [Re.Chr "P"; Re.Chr "S"])))
                    (patterns (entity (Office.with_patterns [Re.Chr "S"; Re.Chr "P"]))))
    by exact (perm_swap (Re.Chr "S") (Re.Chr "P") []).
  split; [exact Hperm|].
  exact (proj1 (filter_events_pattern_order Calendar.busy_day _ _ Hperm)).
Defined.

Lemma standup_before_lunch :
  StronglySorted start_le [Calendar.standup; Calendar.lunch].
Proof.
  repeat constructor. unfold start_le. vm_compute. intros Hc. discriminate Hc.
Defined.

Lemma sort_events_keeps_sorted_witness :
  StronglySorted start_le [Calendar.standup; Calendar.lunch]
  /\ fst (MS365CalendarEntity._sort_events [Calendar.standup; Calendar.lunch]
            (Calendar.at_noon None))
     = Ok (map MS365CalendarEntity.assign_start_sort
             [Calendar.standup; Calendar.lunch]).
Proof.
  split; [exact standup_before_lunch|].
  exact (f_equal fst
           (proj1 (sort_events_keeps_sorted [Calendar.standup; Calendar.lunch]
                     (Calendar.at_noon None) standup_before_lunch))).
Defined.

Lemma backwards_and_lunch_recoverable :
  forallb recoverable [Calendar.backwards; Calendar.lunch] = true.
Proof. by_computation. Defined.

Lemma create_entities_accounting_witness :
  forallb recoverable [Calendar.backwards; Calendar.lunch] = true
  /\ exists event_list w',
       MS365CalendarEntity._create_calendar_event_entities
         [Calendar.backwards; Calendar.lunch] (Calendar.at_noon None)
       = (Ok event_list, w')
       /\ (length event_list
           + (length (log w') - length (log (Calendar.at_noon None))) = 2)%nat.
Proof.
  split; [exact backwards_and_lunch_recoverable|].
  destruct (create_entities_accounting [Calendar.backwards; Calendar.lunch]
              (Calendar.at_noon None) backwards_and_lunch_recoverable)
    as (event_list & w' & Hrun & Hcount & _).
  exists event_list, w'. split; [exact Hrun|exact Hcount].
Defined.



Lemma entity_async_get_events_not_ready_witness :
  data (coordinator (Calendar.at_noon None)) = None
  /\ fst (MS365CalendarEntity.async_get_events
            (Calendar.at_ 19783 0 0) (Calendar.at_ 19784 0 0) (Calendar.at_noon None))
     = Raise (HomeAssistantError
                "Unable to get events: Sync from server has not completed").
Proof.
  split; [reflexivity|].
  exact (f_equal fst
           (entity_async_get_events_not_ready (Calendar.at_noon None)
              (Calendar.at_ 19783 0 0) (Calendar.at_ 19784 0 0) eq_refl)).
Defined.

Lemma entity_publishes_event_witness :
  fst (MS365CalendarSyncCoordinator.get_current_event
         (Calendar.at_noon (Some Calendar.busy_day)))
  = Ok (Some Calendar.standup)
  /\ MS365CalendarEntity._create_calendar_event_entity Calendar.standup
     = Ok Calendar.published
  /\ _event (entity (snd (MS365CalendarEntity._get_current_event
                            (Calendar.at_noon (Some Calendar.busy_day)))))
     = Some Calendar.published.
Proof.
  assert (Hsome : fst (MS365CalendarSyncCoordinator.get_current_event
                         (Calendar.at_noon (Some Calendar.busy_day)))
                  = Ok (Some Calendar.standup)) by by_computation.
  assert (Hconv : MS365CalendarEntity._create_calendar_event_entity Calendar.standup
                  = Ok Calendar.published) by by_computation.
  split; [exact Hsome|]. split; [exact Hconv|].
  destruct (entity_publishes_event _ _ _ Hsome Hconv) as (_ & Hevent & _).
  refine (eq_trans Hevent _). reflexivity.
Defined.

Lemma backwards_resolved :
  fst (MS365CalendarSyncCoordinator.get_current_event
         (Calendar.world_after_standup Calendar.noon (Some [Calendar.backwards])))
  = Ok (Some Calendar.backwards).
Proof. by_computation. Defined.

Lemma backwards_invalid :
  MS365CalendarEntity._create_calendar_event_entity Calendar.backwards
  = Raise (HomeAssistantError
             "Failed to validate CalendarEvent: Values were not in order").
Proof. by_computation. Defined.

Lemma entity_warns_once_witness :
  fst (MS365CalendarSyncCoordinator.get_current_event
         (Calendar.world_after_standup Calendar.noon (Some [Calendar.backwards])))
  = Ok (Some Calendar.backwards)
  /\ MS365CalendarEntity._create_calendar_event_entity Calendar.backwards
     = Raise (HomeAssistantError
                "Failed to validate CalendarEvent: Values were not in order")
  /\ log (snd (MS365CalendarEntity._get_current_event
                 (snd (MS365CalendarEntity._get_current_event
                         (Calendar.world_after_standup Calendar.noon
                            (Some [Calendar.backwards]))))))
     = log (snd (MS365CalendarEntity._get_current_event
                   (Calendar.world_after_standup Calendar.noon
                      (Some [Calendar.backwards])))).
Proof.
  split; [exact backwards_resolved|]. split; [exact backwards_invalid|].
  exact (proj1 (proj2 (entity_warns_once _ _ _ backwards_resolved backwards_invalid
                         eq_refl))).
Defined.

Lemma entity_conversion_error_propagates_witness :
  fst (MS365CalendarSyncCoordinator.get_current_event
         (Calendar.at_noon (Some [Calendar.nowhere])))
  = Ok (Some Calendar.nowhere)
  /\ MS365CalendarEntity._create_calendar_event_entity Calendar.nowhere
     = Raise (KeyError "displayName")
  /\ MS365CalendarEntity._get_current_event (Calendar.at_noon (Some [Calendar.nowhere]))
     = (Raise (KeyError "displayName"), Calendar.at_noon (Some [Calendar.nowhere])).
Proof.
  assert (Hsome : fst (MS365CalendarSyncCoordinator.get_current_event
                         (Calendar.at_noon (Some [Calendar.nowhere])))
                  = Ok (Some Calendar.nowhere)) by by_computation.
  assert (Hconv : MS365CalendarEntity._create_calendar_event_entity Calendar.nowhere
                  = Raise (KeyError "displayName")) by by_computation.
  split; [exact Hsome|]. split; [exact Hconv|].
  exact (entity_conversion_error_propagates _ _ _ Hsome Hconv eq_refl).
Defined.

Lemma log_error_mutes_invalid_event_witness :
  fst (MS365CalendarSyncCoordinator.get_current_event
         (Calendar.world_after_standup Calendar.noon (Some [Calendar.backwards])))
  = Ok (Some Calendar.backwards)
  /\ MS365CalendarEntity._create_calendar_event_entity Calendar.backwards
     = Raise (HomeAssistantError
                "Failed to validate CalendarEvent: Values were not in order")
  /\ log (snd (MS365CalendarEntity._get_current_event
                 (snd (Attributes._log_error "Error getting calendar events for data"
                         (OtherError "HTTPError" "503")
                         (Calendar.world_after_standup Calendar.noon
                            (Some [Calendar.backwards]))))))
     = log (snd (Attributes._log_error "Error getting calendar events for data"
                   (OtherError "HTTPError" "503")
                   (Calendar.world_after_standup Calendar.noon
                      (Some [Calendar.backwards])))).
Proof.
  split; [exact backwards_resolved|]. split; [exact backwards_invalid|].
  exact (proj1 (log_error_mutes_invalid_event
                  "Error getting calendar events for data"
                  (OtherError "HTTPError" "503") _ _ _
                  backwards_resolved backwards_invalid eq_refl)).
Defined.

Lemma services_refuse_without_permission_witness :
  Services.authorised (Office.editor false true false)
  && Services._update_supported (Office.editor false true false) = false
  /\ Services.async_modify_calendar_event Office.online
       (Office.editor false true false) (Services.VStr "e1") Services.VNone
       Services.VNone (Services.VStr "Moved") Services.VNone Services.VNone ∅ []
     = (Services.Raises
          (Services.ServiceValidationError "ms365_calendar" "not_authorised_to_event"
             [("calendar", "Calendar"); ("error_message", "Calendars.ReadWrite")]),
        []).
Proof.
  split; [reflexivity|].
  exact (proj1 (services_refuse_without_permission Office.online
                  (Office.editor false true false) (Services.VStr "e1") Services.VNone
                  Services.VNone (Services.VStr "Moved") Services.VNone Services.VNone
                  ∅ [] eq_refl)).
Defined.

Lemma services_refuse_group_calendar_witness :
  Services.authorised (Office.editor true true true) = true
  /\ Services._update_supported (Office.editor true true true) = true
  /\ Services.group_calendar (Office.editor true true true) = true
  /\ Services.async_remove_calendar_event Office.online
       (Office.editor true true true) (Services.VStr "e1") Services.VNone
       Services.VNone []
     = (Services.Raises
          (Services.ServiceValidationError "ms365_calendar"
             "ms365_group_calendar_error" [("entity_id", "calendar.cal_1")]),
        []).
Proof.
  do 3 (split; [reflexivity|]).
  exact (proj2 (services_refuse_group_calendar Office.online
                  (Office.editor true true true) (Services.VStr "e1") Services.VNone
                  Services.VNone Services.VNone Services.VNone Services.VNone ∅ []
                  eq_refl eq_refl eq_refl)).
Defined.

Lemma modify_patches_then_notifies_witness :
  Services.authorised (Office.editor true true false) = true
  /\ Services._update_supported (Office.editor true true false) = true
  /\ Services.group_calendar (Office.editor true true false) = false
  /\ Services.async_modify_calendar_event Office.online
       (Office.editor true true false) (Services.VStr "e1") (Services.VStr "master")
       (Services.VStr "THISANDFUTURE") (Services.VStr "Moved") Services.VNone
       Services.VNone ∅ []
     = (Services.Returns tt,
        [Services.PatchEvent (Services.VStr "master") (Services.VStr "Moved")
           Services.VNone Services.VNone ∅;
         Services.BusFire Services.EVENT_MODIFY_CALENDAR_RECURRENCES
           (Services.VStr "master");
         Services.LogDebug Services.EVENT_MODIFY_CALENDAR_RECURRENCES
           (Services.VStr "master");
         Services.ScheduleUpdate]).
Proof.
  do 3 (split; [reflexivity|]).
  exact (modify_patches_then_notifies Office.online (Office.editor true true false)
           (Services.VStr "e1") (Services.VStr "master")
           (Services.VStr "THISANDFUTURE") (Services.VStr "Moved") Services.VNone
           Services.VNone ∅ [] eq_refl eq_refl eq_refl).
Defined.

Lemma remove_deletes_then_notifies_witness :
  Services.authorised (Office.editor true true false) = true
  /\ Services._update_supported (Office.editor true true false) = true
  /\ Services.group_calendar (Office.editor true true false) = false
  /\ Services.async_delete_event Office.forbidden
       (Office.editor true true false) (Services.VStr "e1") Services.VNone
       Services.VNone []
     = (Services.Raises (Services.Uncaught (OtherError "HTTPError" "403 Forbidden")),
        [Services.DeleteEvent (Services.VStr "e1")])
  /\ Services.async_delete_event Office.online
       (Office.editor true true false) (Services.VStr "e1") Services.VNone
       Services.VNone []
     = (Services.Returns tt,
        [Services.DeleteEvent (Services.VStr "e1"); Services.Refresh;
         Services.BusFire Services.EVENT_REMOVE_CALENDAR_EVENT (Services.VStr "e1");
         Services.LogDebug Services.EVENT_REMOVE_CALENDAR_EVENT (Services.VStr "e1");
         Services.ScheduleUpdate]).
Proof.
  do 3 (split; [reflexivity|]). split.
  - exact (remove_deletes_then_notifies Office.forbidden
             (Office.editor true true false) (Services.VStr "e1") Services.VNone
             Services.VNone [] eq_refl eq_refl eq_refl).
  - exact (remove_deletes_then_notifies Office.online
             (Office.editor true true false) (Services.VStr "e1") Services.VNone
             Services.VNone [] eq_refl eq_refl eq_refl).
Defined.

Lemma holiday_dict_start :
  Office.holiday_dict !! Services.EVENT_START = Some (Services.VDate 19783).
Proof. by_computation. Defined.

Lemma holiday_dict_end :
  Office.holiday_dict !! Services.EVENT_END = Some (Services.VDate 19784).
Proof. by_computation. Defined.

Lemma holiday_dict_summary :
  Office.holiday_dict !! Services.EVENT_SUMMARY = Some (Services.VStr "Holiday").
Proof. by_computation. Defined.

Lemma create_event_adds_then_refreshes_witness :
  Office.holiday_dict !! Services.EVENT_START = Some (Services.VDate 19783)
  /\ Office.holiday_dict !! Services.EVENT_END = Some (Services.VDate 19784)
  /\ Office.holiday_dict !! Services.EVENT_SUMMARY = Some (Services.VStr "Holiday")
  /\ Services.async_create_event Office.forbidden Office.holiday_dict []
     = (Services.Raises
          (Services.Chained
             (HomeAssistantError "Error while creating event: 403 Forbidden")
             (OtherError "HTTPError" "403 Forbidden")),
        [Services.AddEvent (Services.VStr "Holiday") (Services.VDate 19783)
           (Services.VDate 19784) Services.VNone true Services.VNone])
  /\ Services.async_create_event Office.online Office.holiday_dict []
     = (Services.Returns tt,
        [Services.AddEvent (Services.VStr "Holiday") (Services.VDate 19783)
           (Services.VDate 19784) Services.VNone true Services.VNone;
         Services.Refresh]).
Proof.
  split; [exact holiday_dict_start|]. split; [exact holiday_dict_end|].
  split; [exact holiday_dict_summary|]. split.
  - refine (eq_trans
              (create_event_adds_then_refreshes Office.forbidden Office.holiday_dict
                 _ _ _ [] holiday_dict_start holiday_dict_end holiday_dict_summary) _).
    by_computation.
  - refine (eq_trans
              (create_event_adds_then_refreshes Office.online Office.holiday_dict
                 _ _ _ [] holiday_dict_start holiday_dict_end holiday_dict_summary) _).
    by_computation.
Defined.

Lemma untitled_dict_summary :
  Office.untitled_dict !! Services.EVENT_START = None
  \/ Office.untitled_dict !! Services.EVENT_END = None
  \/ Office.untitled_dict !! Services.EVENT_SUMMARY = None.
Proof. right. right. by_computation. Defined.

Lemma update_event_key_error_first_witness :
  (Office.untitled_dict !! Services.EVENT_START = None
   \/ Office.untitled_dict !! Services.EVENT_END = None
   \/ Office.untitled_dict !! Services.EVENT_SUMMARY = None)
  /\ exists key,
       Office.untitled_dict !! key = None
       /\ Services.async_update_event Office.online (Office.editor false false true)
            (Services.VStr "e1") Office.untitled_dict Services.VNone Services.VNone []
          = (Services.Raises (Services.Uncaught (KeyError key)), []).
Proof.
  split; [exact untitled_dict_summary|].
  exact (update_event_key_error_first Office.online (Office.editor false false true)
           (Services.VStr "e1") Services.VNone Services.VNone Office.untitled_dict []
           untitled_dict_summary).
Defined.

Lemma update_event_patch_witness :
  Services.authorised (Office.editor true true false) = true
  /\ Services._update_supported (Office.editor true true false) = true
  /\ Services.group_calendar (Office.editor true true false) = false
  /\ Office.holiday_dict !! Services.EVENT_START = Some (Services.VDate 19783)
  /\ Office.holiday_dict !! Services.EVENT_END = Some (Services.VDate 19784)
  /\ Office.holiday_dict !! Services.EVENT_SUMMARY = Some (Services.VStr "Holiday")
  /\ exists kwargs,
       kwargs !! "is_all_day" = Some (Services.VBool true)
       /\ exists rest,
            snd (Services.async_update_event Office.online
                   (Office.editor true true false) (Services.VStr "e1")
                   Office.holiday_dict Services.VNone Services.VNone [])
            = [] ++ Services.PatchEvent (Services.VStr "e1") (Services.VStr "Holiday")
                      (Services.VDate 19783) (Services.VDate 19784) kwargs :: rest.
Proof.
  do 3 (split; [reflexivity|]).
  split; [exact holiday_dict_start|]. split; [exact holiday_dict_end|].
  split; [exact holiday_dict_summary|].
  destruct (update_event_patch Office.online (Office.editor true true false)
              (Services.VStr "e1") Services.VNone Services.VNone _ _ _
              Office.holiday_dict [] eq_refl eq_refl eq_refl
              holiday_dict_start holiday_dict_end holiday_dict_summary)
    as (kwargs & _ & _ & Hall_day & _ & rest & Hrun).
  exists kwargs. split; [exact Hall_day|]. exists rest. exact Hrun.
Defined.

Lemma calendars_file_recoverable :
  forallb (Setup.init_recoverable Office.no_permission)
    (Setup.tracked Office.calendars_file) = true.
Proof. by_computation. Defined.

Lemma setup_keys_and_coordinators_witness :
  forallb (Setup.init_recoverable Office.no_permission)
    (Setup.tracked Office.calendars_file) = true
  /\ Setup.inits
       (snd (Setup._async_setup_coordinators "ms365" Office.entity_id_of (-15) 90
               Office.no_permission true Office.scanned Office.calendars_file))
     = [("cal-1", Office.work); ("cal-2", Office.shared)]
  /\ Setup.log
       (snd (Setup._async_setup_coordinators "ms365" Office.entity_id_of (-15) 90
               Office.no_permission true Office.scanned Office.calendars_file))
     = [Setup.warning_of ("cal-2", Office.shared)].
Proof.
  split; [exact calendars_file_recoverable|].
  destruct (setup_keys_and_coordinators "ms365" Office.entity_id_of (-15) 90
              Office.no_permission true Office.scanned Office.calendars_file
              calendars_file_recoverable)
    as (_ & Hinits & Hlog & _).
  split; [refine (eq_trans Hinits _)|refine (eq_trans Hlog _)]; reflexivity.
Defined.

Lemma setup_aborts_witness :
  Setup.tracked Office.calendars_file
  = [] ++ ("cal-1", Office.work) :: [("cal-2", Office.shared)]
  /\ Office.broken "cal-1" Office.work = Some (OtherError "ValueError" "bad calendar")
  /\ Setup.isinstance_HTTPError (OtherError "ValueError" "bad calendar") = false
  /\ Setup.inits
       (snd (Setup._async_setup_coordinators "ms365" Office.entity_id_of (-15) 90
               Office.broken true Office.scanned Office.calendars_file))
     = [] ++ [("cal-1", Office.work)].
Proof.
  do 3 (split; [reflexivity|]).
  exact (proj2 (setup_aborts "ms365" Office.entity_id_of (-15) 90 Office.broken
                  true Office.scanned Office.calendars_file
                  [] [("cal-2", Office.shared)] ("cal-1", Office.work)
                  (OtherError "ValueError" "bad calendar")
                  eq_refl eq_refl eq_refl eq_refl)).
Defined.

Lemma fresh_world_set_up :
  In (coordinator Office.fresh_world)
    (Setup.coordinators
       (snd (Setup._async_setup_coordinators "ms365" Office.entity_id_of (-15) 90
               Office.no_permission true Office.scanned Office.calendars_file))).
Proof. left. reflexivity. Defined.

Lemma setup_coordinators_not_ready_witness :
  In (coordinator Office.fresh_world)
    (Setup.coordinators
       (snd (Setup._async_setup_coordinators "ms365" Office.entity_id_of (-15) 90
               Office.no_permission true Office.scanned Office.calendars_file)))
  /\ fst (MS365CalendarSyncCoordinator.async_get_events
            (Calendar.at_ 19783 0 0) (Calendar.at_ 19784 0 0) Office.fresh_world)
     = Raise (HomeAssistantError
                "Unable to get events: Sync from server has not completed").
Proof.
  split; [exact fresh_world_set_up|].
  exact (proj1 (setup_coordinators_not_ready "ms365" Office.entity_id_of (-15) 90
                  Office.no_permission true Office.scanned Office.calendars_file
                  Office.fresh_world (Calendar.at_ 19783 0 0) (Calendar.at_ 19784 0 0)
                  fresh_world_set_up)).
Defined.
